(** * Bing engine of the standalone search script ([bing_search.py])

    A shallow embedding of the request builder ([request]), of the
    response parser ([response]) and of what [perform_search] prepares
    for them in [bing_search.py], together with the part of the Python
    standard library and of lxml they call, and the properties of the
    engine proved on it.

    Conventions of the embedding.
    - A Python [str] is the list of its code points ([pystr]); [bytes] is a
      list of integers in [0, 255].  String literals of the source are
      written [py "..."].
    - A Python [int] is a [Z].
    - A [dict] with string keys is a [gmap pystr _]; the [query_params]
      dictionary, whose insertion order decides the URL, is an association
      list.
    - [print] appends a line to the [stdout] component of the state, an
      exception ends the run with [Raised].
    - [int] of a string raises [ValueError] beyond the 4300 digits
      that CPython reads by default; [\d] of [re] matches the decimal
      digits of Unicode 14.0.
    - Outside the embedding: the HTML parser ([response] starts from the
      parsed document), the HTTP request, the fraction of a second in
      [time.time()], and the limit CPython puts on the number of digits
      that [str] writes for an integer. *)

From Stdlib Require Import ZArith List String Ascii Lia Bool.
From Stdlib Require Import Decimal DecimalString DecimalPos.
From stdpp Require Import gmap list.

#[local] Set Warnings "-register-all".
#[local] Open Scope Z_scope.

(** ** Strings *)

Abbreviation pystr := (list Z).

(** The code points of an ASCII literal. *)
Definition py (s : string) : pystr :=
  map (fun a => Z.of_N (N_of_ascii a)) (list_ascii_of_string s).
Arguments py : simpl never.

(** [str(n)] for an integer: its decimal rendering. *)
Definition str_int (n : Z) : pystr := py (NilZero.string_of_int (Z.to_int n)).

(** [s.startswith(prefix)] *)
Fixpoint startswith (prefix s : pystr) : bool :=
  match prefix, s with
  | [], _ => true
  | _ :: _, [] => false
  | a :: prefix', b :: s' => (a =? b) && startswith prefix' s'
  end.

(** [sub in s] for strings. *)
Fixpoint contains (sub s : pystr) : bool :=
  startswith sub s ||
  match s with
  | [] => false
  | _ :: s' => contains sub s'
  end.

(** [sep.join(parts)] *)
Fixpoint join (sep : pystr) (parts : list pystr) : pystr :=
  match parts with
  | [] => []
  | [p] => p
  | p :: rest => p ++ sep ++ join sep rest
  end.

(** ** Outcomes, and the state threaded through a run *)

(** The exceptions the modelled code can raise.  [FormatError] stands for
    the [TypeError] or [ValueError] of the [%] operator (which of the two
    depends on the directive met); [ValueError] is the one of [int]. *)
Inductive exn :=
| TypeError
| UnicodeEncodeError
| FormatError
| ValueError.

Inductive outcome (A : Type) :=
| Returned (a : A)
| Raised (e : exn).
Arguments Returned {A} a.
Arguments Raised {A} e.

(** The state of a run: the mutable object the function works on, and
    the lines printed so far. *)
Record world (St : Type) := World { store : St; stdout : list pystr }.
Arguments World {St} store stdout.
Arguments store {St} w.
Arguments stdout {St} w.

Definition M (St A : Type) : Type := world St -> world St * outcome A.

#[global] Instance M_ret {St} : MRet (M St) :=
  fun A (a : A) w => (w, Returned a).

#[global] Instance M_bind {St} : MBind (M St) :=
  fun A B (k : A -> M St B) (m : M St A) w =>
    match m w with
    | (w', Returned a) => k a w'
    | (w', Raised e) => (w', Raised e)
    end.

Definition raise {St A} (e : exn) : M St A := fun w => (w, Raised e).

Definition get_store {St} : M St St := fun w => (w, Returned (store w)).

Definition put_store {St} (s : St) : M St unit :=
  fun w => (World s (stdout w), Returned tt).

Definition print {St} (line : pystr) : M St unit :=
  fun w => (World (store w) (stdout w ++ [line]), Returned tt).

(** ** The [%] operator with an empty argument tuple

    [s % ()]: [%%] gives [%]; any other directive asks for an argument
    that is not there (or is incomplete), and raises. *)
Fixpoint percent_format (s : pystr) : option pystr :=
  match s with
  | [] => Some []
  | c :: s' =>
      if c =? 37 then
        match s' with
        | d :: s'' => if d =? 37 then cons 37 <$> percent_format s'' else None
        | [] => None
        end
      else cons c <$> percent_format s'
  end.

(** ** Logger *)

Module Logger.

(** [debug] is [pass]. *)
Definition debug {St} (msg : pystr) : M St unit := mret tt.

(** [print(f"WARNING: {msg}" % args)] with [args = ()]. *)
Definition warning {St} (msg : pystr) : M St unit :=
  match percent_format (py "WARNING: " ++ msg) with
  | Some line => print line
  | None => raise FormatError
  end.

(** [print(f"ERROR: {msg}" % args)] with [args = ()]. *)
Definition error {St} (msg : pystr) : M St unit :=
  match percent_format (py "ERROR: " ++ msg) with
  | Some line => print line
  | None => raise FormatError
  end.

End Logger.

(** ** Python values held by the [params] dictionary *)

Inductive pyval :=
| VNone
| VInt (n : Z)
| VStr (s : pystr)
| VDict (d : gmap pystr pyval).

(** ** EngineTraits *)

Record EngineTraits := {
  languages : gmap pystr pystr;
  regions : gmap pystr pystr;
  all_locale : pystr
}.

(** [table.get(key, default)] on a table with string keys.  A [dict]
    key is unhashable; any other key that is not a string is not in the
    table. *)
Definition table_get (table : gmap pystr pystr) (key : pyval) (dflt : pystr)
  : outcome pystr :=
  match key with
  | VStr s => Returned (default dflt (table !! s))
  | VDict _ => Raised TypeError
  | _ => Returned dflt
  end.

Definition get_region (traits : EngineTraits) (locale_str : pyval)
    (default_region_code : pystr) : outcome pystr :=
  table_get (regions traits) locale_str default_region_code.

Definition get_language (traits : EngineTraits) (locale_str : pyval)
    (default_language_code : pystr) : outcome pystr :=
  table_get (languages traits) locale_str default_language_code.

Definition lift {St A} (o : outcome A) : M St A := fun w => (w, o).

(** ** UTF-8 encoding ([str.encode]) *)

Definition utf8_encode_char (c : Z) : option (list Z) :=
  if c <? 0 then None
  else if c <? 0x80 then Some [c]
  else if c <? 0x800 then Some [0xC0 + c / 64; 0x80 + c mod 64]
  else if c <? 0x10000 then
    if (0xD800 <=? c) && (c <=? 0xDFFF) then None
    else Some [0xE0 + c / 4096; 0x80 + (c / 64) mod 64; 0x80 + c mod 64]
  else if c <? 0x110000 then
    Some [0xF0 + c / 262144; 0x80 + (c / 4096) mod 64;
          0x80 + (c / 64) mod 64; 0x80 + c mod 64]
  else None.

Fixpoint utf8_encode (s : pystr) : option (list Z) :=
  match s with
  | [] => Some []
  | c :: s' =>
      match utf8_encode_char c, utf8_encode s' with
      | Some bs, Some rest => Some (bs ++ rest)
      | _, _ => None
      end
  end.

(** ** [urllib.parse.quote_plus] and [urlencode] *)

Definition is_alnum (b : Z) : bool :=
  ((65 <=? b) && (b <=? 90)) || ((97 <=? b) && (b <=? 122))
  || ((48 <=? b) && (b <=? 57)).

(** The bytes [quote] never escapes: letters, digits and [_.-~]. *)
Definition always_safe (b : Z) : bool :=
  is_alnum b || (b =? 95) || (b =? 46) || (b =? 45) || (b =? 126).

Definition hex_digit (n : Z) : Z := if n <? 10 then 48 + n else 55 + n.

Definition quote_byte (b : Z) : pystr :=
  if always_safe b then [b]
  else if b =? 32 then [43]
  else [37; hex_digit (b / 16); hex_digit (b mod 16)].

Definition quote_plus (s : pystr) : option pystr :=
  flat_map quote_byte <$> utf8_encode s.

(** The values of [query_params]. *)
Inductive qvalue :=
| QInt (n : Z)
| QStr (s : pystr).

Definition str_qvalue (v : qvalue) : pystr :=
  match v with
  | QInt n => str_int n
  | QStr s => s
  end.

(** [d[k] = v] on an insertion-ordered dictionary. *)
Fixpoint dict_set {V} (d : list (pystr * V)) (k : pystr) (v : V)
  : list (pystr * V) :=
  match d with
  | [] => [(k, v)]
  | (k', v') :: d' =>
      if decide (k' = k) then (k', v) :: d' else (k', v') :: dict_set d' k v
  end.

Fixpoint dict_get {V} (d : list (pystr * V)) (k : pystr) : option V :=
  match d with
  | [] => None
  | (k', v') :: d' => if decide (k' = k) then Some v' else dict_get d' k
  end.

Fixpoint urlencode_items (d : list (pystr * qvalue)) : option (list pystr) :=
  match d with
  | [] => Some []
  | (k, v) :: d' =>
      match quote_plus k, quote_plus (str_qvalue v), urlencode_items d' with
      | Some qk, Some qv, Some rest => Some ((qk ++ py "=" ++ qv) :: rest)
      | _, _, _ => None
      end
  end.

Definition urlencode (d : list (pystr * qvalue)) : option pystr :=
  join (py "&") <$> urlencode_items d.

(** ** The request builder *)

Definition base_url : pystr := py "https://www.bing.com/search".

Definition _page_offset (pageno : Z) : Z := (pageno - 1) * 10 + 1.

Abbreviation params_t := (gmap pystr pyval).

(** [params['cookies'][name] = value] *)
Definition set_cookie (name value : pystr) : M params_t unit :=
  params ← get_store;
  match params !! py "cookies" with
  | Some (VDict cookies) =>
      put_store (<[py "cookies" := VDict (<[name := VStr value]> cookies)]> params)
  | _ => raise TypeError
  end.

Definition set_bing_cookies (engine_language_code engine_market_code : pystr)
  : M params_t unit :=
  params ← get_store;
  (if decide (params !! py "cookies" = None)
   then put_store (<[py "cookies" := VDict ∅]> params)
   else mret tt);;
  set_cookie (py "_EDGE_CD")
    (py "m=" ++ engine_market_code ++ py "&u=" ++ engine_language_code);;
  set_cookie (py "_EDGE_S")
    (py "mkt=" ++ engine_market_code ++ py "&ui=" ++ engine_language_code);;
  Logger.debug (py "Bing cookies set: %s").

(** [query_params], as [request] fills it for a page number. *)
Definition query_params (query : pystr) (page : Z) : list (pystr * qvalue) :=
  let qp := [(py "q", QStr query); (py "pq", QStr query)] in
  let qp := if 1 <? page then dict_set qp (py "first") (QInt (_page_offset page))
            else qp in
  if page =? 2 then dict_set qp (py "FORM") (QStr (py "PERE"))
  else if 2 <? page then
    dict_set qp (py "FORM") (QStr (py "PERE" ++ str_int (page - 2)))
  else qp.

(** [time_ranges_map], for the day count [unix_day]. *)
Definition time_ranges_map (unix_day : Z) : gmap pystr pystr :=
  list_to_map
    [(py "day", py "1");
     (py "week", py "2");
     (py "month", py "3");
     (py "year", py "5_" ++ str_int (unix_day - 365) ++ py "_" ++ str_int unix_day)].

(** [params['url'] += suffix] *)
Definition append_url (suffix : pystr) : M params_t unit :=
  params ← get_store;
  match params !! py "url" with
  | Some (VStr url) => put_store (<[py "url" := VStr (url ++ suffix)]> params)
  | _ => raise TypeError
  end.

Definition default_headers : gmap pystr pyval :=
  list_to_map
    [(py "User-Agent",
      VStr (py "Mozilla/5.0 (Windows NT 10.0; Win64; x64) AppleWebKit/537.36 (KHTML, like Gecko) Chrome/91.0.4472.124 Safari/537.36"));
     (py "Accept",
      VStr (py "text/html,application/xhtml+xml,application/xml;q=0.9,image/webp,*/*;q=0.8"));
     (py "Accept-Language", VStr (py "en-US,en;q=0.5"));
     (py "Accept-Encoding", VStr (py "gzip, deflate, br"));
     (py "DNT", VStr (py "1"));
     (py "Connection", VStr (py "keep-alive"));
     (py "Upgrade-Insecure-Requests", VStr (py "1"));
     (py "Sec-GPC", VStr (py "1"));
     (py "Cache-Control", VStr (py "max-age=0"))].

(** The time-range step of [request] (the [if params.get('time_range')]
    block).  [now] is the reading of [time.time()], in whole seconds;
    [int(now / 86400)] truncates. *)
Definition time_range_step (now : Z) : M params_t unit :=
  params ← get_store;
  let unix_day := Z.quot now 86400 in
  match params !! py "time_range" with
  | None | Some VNone => mret tt
  | Some (VStr tr) =>
      if decide (tr = []) then mret tt
      else
        match time_ranges_map unix_day !! tr with
        | Some time_range_filter_value =>
            (* every value of the map is a non-empty string *)
            append_url (py "&filters=ex1:" ++ [34] ++ py "ez"
                        ++ time_range_filter_value ++ [34])
        | None =>
            Logger.warning (py "Unsupported time_range specified: " ++ tr)
        end
  | Some (VInt n) =>
      if n =? 0 then mret tt
      else Logger.warning (py "Unsupported time_range specified: " ++ str_int n)
  | Some (VDict d) =>
      if decide (size d = 0%nat) then mret tt else raise TypeError
  end.

(** [request(query, params)].  The [params] dictionary is the store of
    the run: it is modified in place and returned. *)
Definition request (traits : EngineTraits) (now : Z) (query : pystr)
  : M params_t params_t :=
  params ← get_store;
  let searxng_locale := default (VStr (py "en-US")) (params !! py "searxng_locale") in
  bing_market_code ← lift (get_region traits searxng_locale (all_locale traits));
  bing_language_code ← lift (get_language traits searxng_locale bing_market_code);
  set_bing_cookies bing_language_code bing_market_code;;
  params ← get_store;
  page ← match default (VInt 1) (params !! py "pageno") with
         | VInt page => mret page
         | _ => raise TypeError
         end;
  match urlencode (query_params query page) with
  | None => raise UnicodeEncodeError
  | Some encoded =>
      params ← get_store;
      put_store (<[py "url" := VStr (base_url ++ py "?" ++ encoded)]> params);;
      time_range_step now;;
      params ← get_store;
      (if decide (params !! py "headers" = None)
       then put_store (<[py "headers" := VDict default_headers]> params)
       else mret tt);;
      get_store
  end.

(** ** UTF-8 decoding ([bytes.decode]) *)

Inductive utf8_reason :=
| InvalidStartByte
| InvalidContinuationByte
| UnexpectedEndOfData.

(** What the decoder finds at the head of a byte string: a code point
    encoded on [n] bytes, or an ill-formed sequence of [n] bytes. *)
Inductive utf8_item :=
| Utf8Char (c : Z) (n : nat)
| Utf8Bad (reason : utf8_reason) (n : nat).

Definition in_range (lo hi b : Z) : bool := (lo <=? b) && (b <=? hi).

Definition is_cont (b : Z) : bool := in_range 0x80 0xBF b.

(** The second byte allowed after the lead byte [b1] of a sequence of
    three or four bytes. *)
Definition second_lo (b1 : Z) : Z :=
  if b1 =? 0xE0 then 0xA0 else if b1 =? 0xF0 then 0x90 else 0x80.
Definition second_hi (b1 : Z) : Z :=
  if b1 =? 0xED then 0x9F else if b1 =? 0xF4 then 0x8F else 0xBF.

Definition utf8_step (b1 : Z) (rest : list Z) : utf8_item :=
  if b1 <? 0x80 then Utf8Char b1 1
  else if (b1 <? 0xC2) || (0xF4 <? b1) then Utf8Bad InvalidStartByte 1
  else if b1 <=? 0xDF then
    match rest with
    | [] => Utf8Bad UnexpectedEndOfData 1
    | b2 :: _ =>
        if is_cont b2 then Utf8Char ((b1 - 0xC0) * 64 + (b2 - 0x80)) 2
        else Utf8Bad InvalidContinuationByte 1
    end
  else if b1 <=? 0xEF then
    match rest with
    | [] => Utf8Bad UnexpectedEndOfData 1
    | b2 :: rest2 =>
        if negb (in_range (second_lo b1) (second_hi b1) b2)
        then Utf8Bad InvalidContinuationByte 1
        else
          match rest2 with
          | [] => Utf8Bad UnexpectedEndOfData 2
          | b3 :: _ =>
              if is_cont b3
              then Utf8Char ((b1 - 0xE0) * 4096 + (b2 - 0x80) * 64 + (b3 - 0x80)) 3
              else Utf8Bad InvalidContinuationByte 2
          end
    end
  else
    match rest with
    | [] => Utf8Bad UnexpectedEndOfData 1
    | b2 :: rest2 =>
        if negb (in_range (second_lo b1) (second_hi b1) b2)
        then Utf8Bad InvalidContinuationByte 1
        else
          match rest2 with
          | [] => Utf8Bad UnexpectedEndOfData 2
          | b3 :: rest3 =>
              if negb (is_cont b3) then Utf8Bad InvalidContinuationByte 2
              else
                match rest3 with
                | [] => Utf8Bad UnexpectedEndOfData 3
                | b4 :: _ =>
                    if is_cont b4
                    then Utf8Char ((b1 - 0xF0) * 262144 + (b2 - 0x80) * 4096
                                   + (b3 - 0x80) * 64 + (b4 - 0x80)) 4
                    else Utf8Bad InvalidContinuationByte 3
                end
          end
    end.

(** What [base64.urlsafe_b64decode(...).decode()] can raise. *)
Inductive decode_error :=
| NonAsciiArgument
| IncorrectPadding
| InvalidDataLength (n : Z)
| UnicodeDecodeError (byte : Z) (start : Z) (len : nat) (reason : utf8_reason).

Definition on_ok {E A B} (f : A -> B) (x : E + A) : E + B :=
  match x with
  | inl e => inl e
  | inr a => inr (f a)
  end.

(** [bs.decode('utf-8', errors)] from position [pos] on: with
    [replace] every ill-formed sequence becomes U+FFFD, without it the
    first one raises. *)
Fixpoint utf8_decode_at (replace : bool) (pos : Z) (bs : list Z)
  : decode_error + pystr :=
  match bs with
  | [] => inr []
  | b1 :: r1 =>
      let item := utf8_step b1 r1 in
      let n := match item with Utf8Char _ n | Utf8Bad _ n => n end in
      let rest :=
        match n, r1 with
        | 1%nat, _ => utf8_decode_at replace (pos + 1) r1
        | 2%nat, _ :: r2 => utf8_decode_at replace (pos + 2) r2
        | 3%nat, _ :: _ :: r3 => utf8_decode_at replace (pos + 3) r3
        | 4%nat, _ :: _ :: _ :: r4 => utf8_decode_at replace (pos + 4) r4
        | _, _ => inr []
        end in
      match item with
      | Utf8Char c _ => on_ok (cons c) rest
      | Utf8Bad reason len =>
          if replace then on_ok (cons 0xFFFD) rest
          else inl (UnicodeDecodeError b1 pos len reason)
      end
  end.

(** [bs.decode()] *)
Definition utf8_decode (bs : list Z) : decode_error + pystr :=
  utf8_decode_at false 0 bs.

(** [bs.decode('utf-8', 'replace')] *)
Definition utf8_decode_replace (bs : list Z) : pystr :=
  match utf8_decode_at true 0 bs with
  | inr s => s
  | inl _ => []
  end.

(** ** Base64 ([base64.urlsafe_b64decode], [binascii.a2b_base64]) *)

(** [table_a2b_base64]: the value of a character of the standard
    alphabet. *)
Definition b64_value (c : Z) : option Z :=
  if in_range 65 90 c then Some (c - 65)
  else if in_range 97 122 c then Some (c - 71)
  else if in_range 48 57 c then Some (c + 4)
  else if c =? 43 then Some 62
  else if c =? 47 then Some 63
  else None.

(** [_urlsafe_decode_translation]: [-] to [+], [_] to [/]. *)
Definition urlsafe_translate (c : Z) : Z :=
  if c =? 45 then 43 else if c =? 95 then 47 else c.

Record a2b_state := {
  quad_pos : Z;
  leftchar : Z;
  pads : Z;
  bin_data : list Z
}.

(** The loop of [a2b_base64] outside strict mode: padding that
    completes a quad ends the input, characters outside the alphabet are
    skipped. *)
Fixpoint a2b_loop (st : a2b_state) (ascii_data : list Z) : a2b_state :=
  match ascii_data with
  | [] => st
  | this_ch :: ascii_data' =>
      if this_ch =? 61 then
        if (2 <=? quad_pos st) && (4 <=? quad_pos st + (pads st + 1))
        then {| quad_pos := 0; leftchar := leftchar st; pads := pads st + 1;
                bin_data := bin_data st |}
        else
          a2b_loop {| quad_pos := quad_pos st; leftchar := leftchar st;
                      pads := if 2 <=? quad_pos st then pads st + 1 else pads st;
                      bin_data := bin_data st |} ascii_data'
      else
        match b64_value this_ch with
        | None => a2b_loop st ascii_data'
        | Some v =>
            let st' :=
              if quad_pos st =? 0 then
                {| quad_pos := 1; leftchar := v; pads := 0;
                   bin_data := bin_data st |}
              else if quad_pos st =? 1 then
                {| quad_pos := 2; leftchar := Z.land v 0x0f; pads := 0;
                   bin_data := bin_data st ++
                     [Z.lor (Z.shiftl (leftchar st) 2) (Z.shiftr v 4) mod 256] |}
              else if quad_pos st =? 2 then
                {| quad_pos := 3; leftchar := Z.land v 0x03; pads := 0;
                   bin_data := bin_data st ++
                     [Z.lor (Z.shiftl (leftchar st) 4) (Z.shiftr v 2) mod 256] |}
              else
                {| quad_pos := 0; leftchar := 0; pads := 0;
                   bin_data := bin_data st ++
                     [Z.lor (Z.shiftl (leftchar st) 6) v mod 256] |} in
            a2b_loop st' ascii_data'
        end
  end.

Definition a2b_base64 (ascii_data : list Z) : decode_error + list Z :=
  let st := a2b_loop {| quad_pos := 0; leftchar := 0; pads := 0; bin_data := [] |}
                     ascii_data in
  if quad_pos st =? 0 then inr (bin_data st)
  else if quad_pos st =? 1
       then inl (InvalidDataLength (Z.of_nat (length (bin_data st)) / 3 * 4 + 1))
       else inl IncorrectPadding.

Definition urlsafe_b64decode (s : pystr) : decode_error + list Z :=
  if forallb (fun c => in_range 0 127 c) s
  then a2b_base64 (map urlsafe_translate s)
  else inl NonAsciiArgument.

(** [str(e)] for the exceptions above. *)
Definition hex_lower (n : Z) : Z := if n <? 10 then 48 + n else 87 + n.

Definition utf8_reason_text (r : utf8_reason) : pystr :=
  match r with
  | InvalidStartByte => py "invalid start byte"
  | InvalidContinuationByte => py "invalid continuation byte"
  | UnexpectedEndOfData => py "unexpected end of data"
  end.

Definition decode_error_text (e : decode_error) : pystr :=
  match e with
  | NonAsciiArgument => py "string argument should contain only ASCII characters"
  | IncorrectPadding => py "Incorrect padding"
  | InvalidDataLength n =>
      py "Invalid base64-encoded string: number of data characters ("
      ++ str_int n ++ py ") cannot be 1 more than a multiple of 4"
  | UnicodeDecodeError b start len reason =>
      py "'utf-8' codec can't decode "
      ++ (if decide (len = 1%nat)
          then py "byte 0x" ++ [hex_lower (b / 16); hex_lower (b mod 16)]
               ++ py " in position " ++ str_int start
          else py "bytes in position " ++ str_int start ++ py "-"
               ++ str_int (start + Z.of_nat len - 1))
      ++ py ": " ++ utf8_reason_text reason
  end.

(** ** [urllib.parse]: [unquote], [parse_qs], and the query of a URL *)

Definition hex_value (c : Z) : option Z :=
  if in_range 48 57 c then Some (c - 48)
  else if in_range 65 70 c then Some (c - 55)
  else if in_range 97 102 c then Some (c - 87)
  else None.

(** [unquote_to_bytes] on ASCII text: [%XX] becomes the byte [XX]. *)
Fixpoint unquote_to_bytes (s : list Z) : list Z :=
  match s with
  | [] => []
  | c :: s' =>
      match s' with
      | h1 :: h2 :: s'' =>
          match hex_value h1, hex_value h2 with
          | Some v1, Some v2 =>
              if c =? 37 then v1 * 16 + v2 :: unquote_to_bytes s''
              else c :: unquote_to_bytes s'
          | _, _ => c :: unquote_to_bytes s'
          end
      | _ => c :: unquote_to_bytes s'
      end
  end.

(** [unquote(s, encoding='utf-8', errors='replace')]: every maximal
    run of ASCII characters is unquoted to bytes and decoded, the other
    characters are kept.  [run] is the ASCII run read so far. *)
Fixpoint unquote_runs (run : list Z) (s : pystr) : pystr :=
  match s with
  | [] => utf8_decode_replace (unquote_to_bytes run)
  | c :: s' =>
      if in_range 0 127 c then unquote_runs (run ++ [c]) s'
      else utf8_decode_replace (unquote_to_bytes run) ++ c :: unquote_runs [] s'
  end.

Definition unquote (s : pystr) : pystr :=
  if decide (37 ∈ s) then unquote_runs [] s else s.

(** [s.split(sep)] for a one-character separator. *)
Fixpoint split_on (sep : Z) (s : pystr) : list pystr :=
  match s with
  | [] => [[]]
  | c :: s' =>
      if c =? sep then [] :: split_on sep s'
      else
        match split_on sep s' with
        | p :: ps => (c :: p) :: ps
        | [] => [[c]]
        end
  end.

(** [s.partition(sep)] for a one-character separator: the text before
    the first [sep], whether [sep] was found, and the text after it. *)
Fixpoint partition (sep : Z) (s : pystr) : pystr * bool * pystr :=
  match s with
  | [] => ([], false, [])
  | c :: s' =>
      if c =? sep then ([], true, s')
      else let '(before, found, after) := partition sep s' in
           (c :: before, found, after)
  end.

(** [s.replace('+', ' ')] *)
Definition plus_to_space (s : pystr) : pystr :=
  map (fun c => if c =? 43 then 32 else c) s.

(** What [parse_qsl] makes of one [name=value] field: nothing for an
    empty field or a blank value. *)
Definition parse_name_value (name_value : pystr) : list (pystr * pystr) :=
  let '(name, _, value) := partition 61 name_value in
  if decide (name_value = []) then []
  else if decide (value = []) then []
  else [(unquote (plus_to_space name), unquote (plus_to_space value))].

(** [parse_qsl(qs)] with its defaults: blank values are dropped. *)
Definition parse_qsl (qs : pystr) : list (pystr * pystr) :=
  flat_map parse_name_value (split_on 38 qs).

(** [parse_qs(qs)]: the values of every name, in order. *)
Definition parse_qs (qs : pystr) : gmap pystr (list pystr) :=
  fold_left
    (fun parsed_result '(name, value) =>
       match parsed_result !! name with
       | Some values => <[name := values ++ [value]]> parsed_result
       | None => <[name := [value]]> parsed_result
       end)
    (parse_qsl qs) ∅.

(** [urlparse(url).query] for a URL that starts with [https://host/path?]
    (the only kind [response] passes): tabs and line breaks are removed,
    the fragment is cut at the first [#], the query is what follows the
    first [?]. *)
Definition urlparse_query (url : pystr) : pystr :=
  let url := filter (fun c => c ≠ 9 ∧ c ≠ 10 ∧ c ≠ 13) url in
  let '(url, _, _) := partition 35 url in
  let '(_, _, query) := partition 63 url in
  query.

(** ** Text helpers of the response parser *)

(** [str.isspace] on one character. *)
Definition is_space (c : Z) : bool :=
  in_range 9 13 c || in_range 28 32 c || (c =? 0x85) || (c =? 0xA0)
  || (c =? 0x1680) || in_range 0x2000 0x200A c || (c =? 0x2028)
  || (c =? 0x2029) || (c =? 0x202F) || (c =? 0x205F) || (c =? 0x3000).

Fixpoint lstrip (s : pystr) : pystr :=
  match s with
  | [] => []
  | c :: s' => if is_space c then lstrip s' else s
  end.

(** [s.strip()] *)
Definition strip (s : pystr) : pystr := rev (lstrip (rev (lstrip s))).

Definition is_digit (c : Z) : bool := in_range 48 57 c.

(** [re.sub(r'[^0-9]', '', s)] *)
Definition digits_only (s : pystr) : pystr := List.filter is_digit s.

(** The number that a string of digits [0] to [9] spells. *)
Definition int_of_digits (s : pystr) : Z :=
  fold_left (fun acc d => 10 * acc + (d - 48)) s 0.

(** [sys.get_int_max_str_digits()], as CPython sets it by default. *)
Definition int_max_str_digits : nat := 4300.

(** [int(s)] for a string of digits [0] to [9]: [ValueError] for the
    empty string, and for a string of more digits than the limit (the
    leading zeros count). *)
Definition int_str (s : pystr) : outcome Z :=
  if bool_decide (s = []) then Raised ValueError
  else if (int_max_str_digits <? length s)%nat then Raised ValueError
  else Returned (int_of_digits s).

(** The decimal digits of Unicode (category Nd), which [\d] matches in
    a [str]: the ranges of Unicode 14.0, the version of CPython 3.11. *)
Definition decimal_ranges : list (Z * Z) :=
  [(48, 57); (1632, 1641); (1776, 1785); (1984, 1993); (2406, 2415);
   (2534, 2543); (2662, 2671); (2790, 2799); (2918, 2927); (3046, 3055);
   (3174, 3183); (3302, 3311); (3430, 3439); (3558, 3567); (3664, 3673);
   (3792, 3801); (3872, 3881); (4160, 4169); (4240, 4249); (6112, 6121);
   (6160, 6169); (6470, 6479); (6608, 6617); (6784, 6793); (6800, 6809);
   (6992, 7001); (7088, 7097); (7232, 7241); (7248, 7257); (42528, 42537);
   (43216, 43225); (43264, 43273); (43472, 43481); (43504, 43513);
   (43600, 43609); (44016, 44025); (65296, 65305); (66720, 66729);
   (68912, 68921); (69734, 69743); (69872, 69881); (69942, 69951);
   (70096, 70105); (70384, 70393); (70736, 70745); (70864, 70873);
   (71248, 71257); (71360, 71369); (71472, 71481); (71904, 71913);
   (72016, 72025); (72784, 72793); (73040, 73049); (73120, 73129);
   (92768, 92777); (92864, 92873); (93008, 93017); (120782, 120831);
   (123200, 123209); (123632, 123641); (125264, 125273); (130032, 130041)].

Definition is_decimal (c : Z) : bool :=
  existsb (fun r => in_range r.1 r.2 c) decimal_ranges.

Fixpoint lstrip_digits (s : pystr) : pystr :=
  match s with
  | [] => []
  | c :: s' => if is_decimal c then lstrip_digits s' else s
  end.

(** [re.split(r'-\d+', s, maxsplit=1)]: [s] is cut at the first hyphen
    that a decimal digit follows, the hyphen and the digits after it
    are dropped. *)
Fixpoint split_dash_digits (s : pystr) : list pystr :=
  match s with
  | [] => [[]]
  | c :: s' =>
      if (c =? 45) && match s' with d :: _ => is_decimal d | [] => false end
      then [[]; lstrip_digits s']
      else
        match split_dash_digits s' with
        | p :: ps => (c :: p) :: ps
        | [] => [[c]]
        end
  end.

(** [s.split(sep)] for a separator of several characters; [skip] counts
    the characters of a separator still to pass. *)
Fixpoint split_str (sep : pystr) (skip : nat) (s : pystr) : list pystr :=
  match s with
  | [] => [[]]
  | c :: s' =>
      match skip with
      | S k => split_str sep k s'
      | O =>
          if startswith sep s then [] :: split_str sep (length sep - 1) s'
          else
            match split_str sep 0 s' with
            | p :: ps => (c :: p) :: ps
            | [] => [[c]]
            end
      end
  end.

(** ** The parsed document (lxml)

    An element holds its tag, its attributes, the text before its first
    child, its children, and its tail: the text that follows it inside
    its parent.  A comment holds its text and its tail. *)
Inductive node :=
| Element (tag : pystr) (attrib : list (pystr * pystr)) (text : pystr)
          (children : list node) (tail : pystr)
| Comment (text : pystr) (tail : pystr).

Definition tag_of (n : node) : option pystr :=
  match n with
  | Element tag _ _ _ _ => Some tag
  | Comment _ _ => None
  end.

Definition tail_of (n : node) : pystr :=
  match n with
  | Element _ _ _ _ tail => tail
  | Comment _ tail => tail
  end.

Definition children_of (n : node) : list node :=
  match n with
  | Element _ _ _ children _ => children
  | Comment _ _ => []
  end.

(** [element.attrib.get(name)] *)
Definition attrib_get (n : node) (name : pystr) : option pystr :=
  match n with
  | Element _ attrib _ _ _ => dict_get attrib name
  | Comment _ _ => None
  end.

(** A node is named by the position of each of its ancestors among
    their siblings, from the root of the document down.  The document
    the parser was given is never rebuilt: [parent.remove(child)] adds
    the child to the set of detached nodes, and every walk of the tree
    passes over the detached children of a node (and over their tails,
    which lxml removes with them). *)
Abbreviation path := (list nat).

Abbreviation detached_t := (gset (list nat)).

Fixpoint node_at (n : node) (p : path) : option node :=
  match p with
  | [] => Some n
  | i :: p' =>
      match children_of n !! i with
      | Some c => node_at c p'
      | None => None
      end
  end.

(** [element.getparent()] *)
Definition getparent (detached : detached_t) (p : path) : option path :=
  if decide (p = []) then None
  else if decide (p ∈ detached) then None
  else Some (removelast p).

(** One node met by a walk below a context node: where it is, its
    parent in the walk, and how deep below the context it lies. *)
Record visit := Visit {
  v_path : path;
  v_node : node;
  v_parent : option node;
  v_depth : nat
}.

(** The context node and its descendants, in document order. *)
Fixpoint walk (detached : detached_t) (parent : option node) (depth : nat)
    (p : path) (n : node) {struct n} : list visit :=
  Visit p n parent depth ::
  match n with
  | Element _ _ _ children _ =>
      (fix walk_children (i : nat) (cs : list node) {struct cs} : list visit :=
         match cs with
         | [] => []
         | c :: cs' =>
             (if decide (p ++ [i] ∈ detached) then []
              else walk detached (Some n) (S depth) (p ++ [i]) c)
             ++ walk_children (S i) cs'
         end) 0%nat children
  | Comment _ _ => []
  end.

(** [element.text_content()]: the text of the element and of its
    descendant elements, tails included, in document order. *)
Fixpoint text_content (detached : detached_t) (p : path) (n : node) {struct n}
  : pystr :=
  match n with
  | Element _ _ text children _ =>
      text ++
      (fix content_children (i : nat) (cs : list node) {struct cs} : pystr :=
         match cs with
         | [] => []
         | c :: cs' =>
             (if decide (p ++ [i] ∈ detached) then []
              else text_content detached (p ++ [i]) c ++ tail_of c)
             ++ content_children (S i) cs'
         end) 0%nat children
  | Comment _ _ => []
  end.

Definition has_tag (tag : pystr) (n : node) : bool :=
  bool_decide (tag_of n = Some tag).

Definition attrib_is (name value : pystr) (n : node) : bool :=
  bool_decide (attrib_get n name = Some value).

(** [contains(@name, value)] *)
Definition attrib_contains (name value : pystr) (n : node) : bool :=
  match attrib_get n name with
  | Some v => contains value v
  | None => false
  end.

Definition parent_is (test : node -> bool) (v : visit) : bool :=
  match v_parent v with
  | Some parent => test parent
  | None => false
  end.

(** The text nodes below the elements [<span class="sb_count">], in
    document order; [inside] tells whether an ancestor is such a span. *)
Fixpoint count_texts (detached : detached_t) (inside : bool) (p : path)
    (n : node) {struct n} : list pystr :=
  match n with
  | Element _ _ text children _ =>
      let inside :=
        inside || (has_tag (py "span") n && attrib_is (py "class") (py "sb_count") n) in
      (if inside then [text] else []) ++
      (fix texts_children (i : nat) (cs : list node) {struct cs} : list pystr :=
         match cs with
         | [] => []
         | c :: cs' =>
             (if decide (p ++ [i] ∈ detached) then []
              else count_texts detached inside (p ++ [i]) c
                   ++ (if inside then [tail_of c] else []))
             ++ texts_children (S i) cs'
         end) 0%nat children
  | Comment _ _ => []
  end.

(** The XPath expressions of the parser. *)
Inductive xpath :=
| XResultItems   (* //ol[@id="b_results"]/li[contains(@class, "b_algo")] *)
| XHeadingLinks  (* .//h2/a *)
| XParagraphs    (* .//p *)
| XIcons         (* .//span[@class="algoSlug_icon"] *)
| XCountTexts.   (* //span[@class="sb_count"]//text() *)

(** What an XPath expression selects: elements, or strings. *)
Inductive xitem :=
| XElem (p : path)
| XText (s : pystr).

Section Document.

(** The document handed to the parser, and the nodes detached from it
    so far. *)
Variable dom : node.
Variable detached : detached_t.

(** [element.xpath(xpath_query)].  The two expressions that start with
    [//] are evaluated from the root of the document, the others from
    the element. *)
Definition xpath_eval (element : path) (xpath_query : xpath) : list xitem :=
  let below :=
    match node_at dom element with
    | Some n => walk detached None 0 element n
    | None => []
    end in
  match xpath_query with
  | XResultItems =>
      XElem <$> (v_path <$>
        List.filter
          (fun v => has_tag (py "li") (v_node v)
                    && attrib_contains (py "class") (py "b_algo") (v_node v)
                    && parent_is (fun o => has_tag (py "ol") o
                                           && attrib_is (py "id") (py "b_results") o) v)
          (walk detached None 0 [] dom))
  | XHeadingLinks =>
      XElem <$> (v_path <$>
        List.filter
          (fun v => has_tag (py "a") (v_node v)
                    && parent_is (has_tag (py "h2")) v
                    && (2 <=? v_depth v)%nat)
          below)
  | XParagraphs =>
      XElem <$> (v_path <$>
        List.filter
          (fun v => has_tag (py "p") (v_node v) && (1 <=? v_depth v)%nat)
          below)
  | XIcons =>
      XElem <$> (v_path <$>
        List.filter
          (fun v => has_tag (py "span") (v_node v)
                    && attrib_is (py "class") (py "algoSlug_icon") (v_node v)
                    && (1 <=? v_depth v)%nat)
          below)
  | XCountTexts =>
      XText <$> List.filter (fun s => negb (bool_decide (s = [])))
                            (count_texts detached false [] dom)
  end.

(** [eval_xpath(element, xpath_query)]: no result for no element.
    (The expressions are well formed, lxml raises on none of them.) *)
Definition eval_xpath (element : option path) (xpath_query : xpath)
  : list xitem :=
  match element with
  | None => []
  | Some element => xpath_eval element xpath_query
  end.

(** [eval_xpath_list]: the result of [eval_xpath] is a list already. *)
Definition eval_xpath_list (element : option path) (xpath_query : xpath)
  : list xitem :=
  eval_xpath element xpath_query.

(** [eval_xpath_getindex(element, xpath_query, index, default=None)] *)
Definition eval_xpath_getindex (element : option path) (xpath_query : xpath)
    (index : nat) : option xitem :=
  eval_xpath element xpath_query !! index.

(** The text one item contributes to [extract_text]. *)
Definition item_text (item : xitem) : pystr :=
  match item with
  | XElem p =>
      match node_at dom p with
      | Some n => text_content detached p n
      | None => []
      end
  | XText s => s
  end.

(** [extract_text(element_or_list)] on a list. *)
Definition extract_text (elements : list xitem) : pystr :=
  strip (join (py " ") (item_text <$> elements)).

End Document.

(** ** The response parser *)

(** What [response] returns: one dictionary per result, then the
    dictionary that holds the estimated number of results. *)
Inductive result :=
| Item (url : option pystr) (title content : pystr)
| NumberOfResults (number_of_results : Z).

Definition tracking_prefix : pystr := py "https://www.bing.com/ck/a?".

(** [base64.urlsafe_b64decode(actual_encoded_url_padded).decode()] *)
Definition b64_decode_text (s : pystr) : decode_error + pystr :=
  match urlsafe_b64decode s with
  | inl e => inl e
  | inr bs => utf8_decode bs
  end.

(** ['=' * (-len(s) % 4)] *)
Definition b64_padding (s : pystr) : pystr :=
  repeat 61 (Z.to_nat ((- Z.of_nat (length s)) mod 4)).

(** The redirect decoding of [response]: the block that starts with
    [if url and url.startswith('https://www.bing.com/ck/a?')], as a
    function of the [href] read on the heading link. *)
Definition decode_redirect {St} (url : option pystr) : M St (option pystr) :=
  match url with
  | None => mret None
  | Some href =>
      if negb (bool_decide (href = [])) && startswith tracking_prefix href then
        let url_query_string := urlparse_query href in
        let parsed_url_params := parse_qs url_query_string in
        match parsed_url_params !! py "u" with
        | Some (encoded_url_with_prefix :: _) =>
            let actual_encoded_url := drop 2 encoded_url_with_prefix in
            let actual_encoded_url_padded :=
              actual_encoded_url ++ b64_padding actual_encoded_url in
            match b64_decode_text actual_encoded_url_padded with
            | inr decoded => mret (Some decoded)
            | inl e =>
                Logger.error (py "Error decoding Bing redirect URL: "
                              ++ decode_error_text e
                              ++ py ". Original URL: " ++ href);;
                mret (Some href)
            end
        | _ =>
            Logger.warning
              (py "Could not parse 'u' parameter from Bing redirect URL: " ++ href);;
            mret (Some href)
        end
      else mret (Some href)
  end.

(** [icon_element.getparent().remove(icon_element)], when the icon has
    a parent. *)
Definition remove_icon (icon_element : xitem) : M detached_t unit :=
  match icon_element with
  | XElem p =>
      detached ← get_store;
      match getparent detached p with
      | Some _ => put_store ({[p]} ∪ detached)
      | None => mret tt
      end
  | XText _ => mret tt
  end.

(** [for x in xs: body(x)] *)
Fixpoint for_each {St A} (xs : list A) (body : A -> M St unit) : M St unit :=
  match xs with
  | [] => mret tt
  | x :: xs' => body x;; for_each xs' body
  end.

(** The cleaning of the paragraphs of one result block. *)
Definition remove_icons (dom : node) (content_paragraph_elements : list xitem)
  : M detached_t unit :=
  for_each content_paragraph_elements
    (fun p_elem =>
       match p_elem with
       | XElem p =>
           detached ← get_store;
           for_each (xpath_eval dom detached p XIcons) remove_icon
       | XText _ => mret tt
       end).

(** [link_element.attrib.get('href')] *)
Definition link_href (dom : node) (link_element : xitem) : option pystr :=
  match link_element with
  | XElem link => n ← node_at dom link; attrib_get n (py "href")
  | XText _ => None
  end.

(** The body of the loop over the result blocks: the item one block
    gives, or nothing when the block is passed over. *)
Definition response_item (dom : node) (result_item_element : xitem)
  : M detached_t (option result) :=
  match result_item_element with
  | XText _ => mret None
  | XElem block =>
      detached ← get_store;
      match eval_xpath_getindex dom detached (Some block) XHeadingLinks 0 with
      | None =>
          Logger.debug (py "Skipping a result item: main link element (h2/a) not found.");;
          mret None
      | Some link_element =>
          let url := link_href dom link_element in
          let title := extract_text dom detached [link_element] in
          let content_paragraph_elements :=
            eval_xpath dom detached (Some block) XParagraphs in
          remove_icons dom content_paragraph_elements;;
          detached ← get_store;
          let content := extract_text dom detached content_paragraph_elements in
          url ← decode_redirect url;
          mret (Some (Item url title content))
      end
  end.

(** The loop over the result blocks: the items, in the order of the
    blocks. *)
Fixpoint response_items (dom : node) (result_elements : list xitem)
  : M detached_t (list result) :=
  match result_elements with
  | [] => mret []
  | result_item_element :: rest =>
      item ← response_item dom result_item_element;
      results ← response_items dom rest;
      mret (match item with Some r => r :: results | None => results end)
  end.

(** The text of the count banner, stripped. *)
Definition result_count_container_str (dom : node) (detached : detached_t)
  : pystr :=
  strip (join [] (item_text dom detached <$> eval_xpath dom detached (Some []) XCountTexts)).

(** [first_part_numeric]: the digits [0] to [9] of the text before the
    first [-\d+] of the banner. *)
Definition first_part_numeric (banner : pystr) : pystr :=
  digits_only (default [] (head (split_dash_digits banner))).

(** [current_page_start_index], read on the banner text.  The [int] of
    this line of the source stands in no [try]. *)
Definition banner_start_index (banner : pystr) : outcome Z :=
  if contains (py "-") banner then
    if negb (bool_decide (first_part_numeric banner = []))
       && forallb is_digit (first_part_numeric banner)
    then int_str (first_part_numeric banner)
    else Returned 1
  else Returned 1.

(** [numeric_part_of_total_count], in the two branches of the source. *)
Definition numeric_part_of_total_count (banner : pystr) : pystr :=
  if contains (py "-") banner then
    let parts := split_dash_digits banner in
    let potential_total_count_str :=
      if contains (py "of") banner
      then default [] (last (split_str (py "of") 0 banner))
      else default [] (last parts) in
    digits_only potential_total_count_str
  else digits_only banner.

(** [total_results_count], read on the banner text: [0] when the text
    holds no digit, and when [int] raises [ValueError], which the source
    catches and answers with a warning. *)
Definition banner_total {St} (banner : pystr) : M St Z :=
  if (0 <? length (numeric_part_of_total_count banner))%nat then
    match int_str (numeric_part_of_total_count banner) with
    | Returned total_results_count => mret total_results_count
    | Raised ValueError =>
        Logger.warning
          (py "Could not parse total_results_count from: '"
           ++ numeric_part_of_total_count banner
           ++ py "' (derived from raw string: '" ++ banner ++ py "')");;
        mret 0
    | Raised e => raise e
    end
  else mret 0.

(** [response(resp_text, requested_pageno)], from the document that
    [html.fromstring(resp_text)] builds.  The store of the run is the
    set of nodes detached from that document. *)
Definition response (dom : node) (requested_pageno : Z)
  : M detached_t (list result) :=
  let result_elements := eval_xpath_list dom ∅ (Some []) XResultItems in
  results ← response_items dom result_elements;
  if bool_decide (result_elements = []) then
    mret (results ++ [NumberOfResults 0])
  else
    detached ← get_store;
    let banner := result_count_container_str dom detached in
    current_page_start_index ← lift (banner_start_index banner);
    total_results_count ← banner_total banner;
    let expected_page_start_offset := _page_offset requested_pageno in
    if (1 <? requested_pageno)
       && negb (current_page_start_index =? expected_page_start_offset)
    then
      if (total_results_count <? expected_page_start_offset)
         && (0 <? total_results_count) && (current_page_start_index =? 1)
      then
        Logger.warning
          (py "Bing returned page 1 instead of requested page "
           ++ str_int requested_pageno
           ++ py ". Expected start offset: " ++ str_int expected_page_start_offset
           ++ py ", but page shows start at " ++ str_int current_page_start_index
           ++ py ". This might be because the requested page is beyond the total available results ("
           ++ str_int total_results_count ++ py ").");;
        mret []
      else
        Logger.warning
          (py "Page number mismatch detected: Requested page "
           ++ str_int requested_pageno
           ++ py " (expected offset " ++ str_int expected_page_start_offset
           ++ py "), but the content seems to be from a page starting at offset "
           ++ str_int current_page_start_index ++ py ".");;
        mret (results ++ [NumberOfResults total_results_count])
    else
      mret (results ++ [NumberOfResults total_results_count]).

(** ** Base64 encoding

    [base64.urlsafe_b64encode]: three bytes give four characters of the
    alphabet [A-Za-z0-9-_], a last group of one or two bytes is padded
    with [=]. *)
Definition b64_char (v : Z) : Z :=
  if v <? 26 then 65 + v
  else if v <? 52 then 71 + v
  else if v <? 62 then v - 4
  else if v =? 62 then 45
  else 95.

Fixpoint urlsafe_b64encode (bs : list Z) : pystr :=
  match bs with
  | [] => []
  | [a] => [b64_char (a / 4); b64_char (a mod 4 * 16); 61; 61]
  | [a; b] =>
      [b64_char (a / 4); b64_char (a mod 4 * 16 + b / 16);
       b64_char (b mod 16 * 4); 61]
  | a :: b :: c :: rest =>
      [b64_char (a / 4); b64_char (a mod 4 * 16 + b / 16);
       b64_char (b mod 16 * 4 + c / 64); b64_char (c mod 64)]
      ++ urlsafe_b64encode rest
  end.

(** ** Vocabulary of the statements about [request] *)

(** The fragment [request] appends to the URL for a time range. *)
Definition time_filter (now : Z) (time_range : pystr) : pystr :=
  match time_ranges_map (Z.quot now 86400) !! time_range with
  | Some code => py "&filters=ex1:" ++ [34] ++ py "ez" ++ code ++ [34]
  | None => []
  end.

(** The time ranges the step after the URL goes through without an
    exception: none, an empty or a supported one, or an unsupported one
    whose warning the logger can print. *)
Inductive time_range_accepted (now : Z) : option pyval -> pystr -> list pystr -> Prop :=
| tr_absent : time_range_accepted now None [] []
| tr_none : time_range_accepted now (Some VNone) [] []
| tr_empty : time_range_accepted now (Some (VStr [])) [] []
| tr_supported tr code :
    time_ranges_map (Z.quot now 86400) !! tr = Some code ->
    time_range_accepted now (Some (VStr tr)) (time_filter now tr) []
| tr_unsupported tr line :
    tr <> [] ->
    time_ranges_map (Z.quot now 86400) !! tr = None ->
    percent_format (py "WARNING: Unsupported time_range specified: " ++ tr) = Some line ->
    time_range_accepted now (Some (VStr tr)) [] [line].

(** The [params] on which [request] meets no type error before the
    time range: the locale is hashable, the page number is an integer,
    the cookies are a dictionary when there are some. *)
Record typed_params (params : gmap pystr pyval) (page : Z) : Prop := {
  typed_locale : forall d, params !! py "searxng_locale" <> Some (VDict d);
  typed_pageno : params !! py "pageno" = Some (VInt page)
                 \/ (params !! py "pageno" = None /\ page = 1);
  typed_cookies : params !! py "cookies" = None
                  \/ exists d, params !! py "cookies" = Some (VDict d)
}.

(** The query parameters of a URL, as [parse_qs] reads them. *)
Definition url_params (url : pystr) : gmap pystr (list pystr) :=
  parse_qs (urlparse_query url).

(** The values a list of [(name, value)] pairs holds for a name. *)
Definition values_of (k : pystr) (pairs : list (pystr * pystr)) : list pystr :=
  snd <$> List.filter (fun nv => bool_decide (fst nv = k)) pairs.

(** The characters [quote_plus] writes. *)
Definition quoted_char (c : Z) : bool := always_safe c || (c =? 43) || (c =? 37).

(** No tab, no line break and no [#]: what [urlparse] leaves in place. *)
Definition url_plain (c : Z) : bool :=
  negb (c =? 9) && negb (c =? 10) && negb (c =? 13) && negb (c =? 35).

(** The characters of a parameter name that [parse_qs] reads as they are. *)
Definition name_char (c : Z) : bool :=
  negb (c =? 61) && negb (c =? 37) && negb (c =? 43).

(** The marker [request] sends with a page after the first. *)
Definition page_marker (page : Z) : pystr :=
  if page =? 2 then py "PERE" else py "PERE" ++ str_int (page - 2).

(** ** Sample inputs *)

(** The tables [perform_search] installs for [en-US]. *)
Definition sample_traits : EngineTraits := {|
  languages := {[py "en-US" := py "en-us"]};
  regions := {[py "en-US" := py "en-us"]};
  all_locale := py "en-us"
|}.

(** The [params] that [perform_search] builds for a page number and an
    optional time range. *)
Definition sample_params (pageno : Z) (time_range : option pystr)
  : gmap pystr pyval :=
  let req_params : gmap pystr pyval :=
    <[py "searxng_locale" := VStr (py "en-US")]> (<[py "pageno" := VInt pageno]> ∅) in
  match time_range with
  | Some tr => if decide (tr = []) then req_params
               else <[py "time_range" := VStr tr]> req_params
  | None => req_params
  end.

(** A reading of the clock: 2025-11-04T00:00:00Z. *)
Definition sample_now : Z := 1762214400.

(** A [params] whose caller supplied its own headers. *)
Definition sample_headers : gmap pystr pyval :=
  {[py "User-Agent" := VStr (py "curl/8.0")]}.

Definition sample_params_with_headers : gmap pystr pyval :=
  <[py "headers" := VDict sample_headers]> (sample_params 1 None).

(** The entries of [params] other than [url] and [cookies] are the
    ones of [original]. *)
Definition same_but_url_cookies (original params : gmap pystr pyval) : Prop :=
  forall k, k <> py "url" -> k <> py "cookies" -> params !! k = original !! k.

(** What a run of [request] on [params] leaves in the store, whether
    it returns or raises. *)
Definition frame_post (params : gmap pystr pyval)
    (r : world (gmap pystr pyval) * outcome (gmap pystr pyval)) : Prop :=
  (forall k, k <> py "url" -> k <> py "headers" -> k <> py "cookies" ->
     store r.1 !! k = params !! k)
  /\ (forall headers, params !! py "headers" = Some headers ->
        store r.1 !! py "headers" = Some headers)
  /\ (params !! py "headers" = None ->
        store r.1 !! py "headers" = None
        \/ store r.1 !! py "headers" = Some (VDict default_headers))
  /\ (forall returned, r.2 = Returned returned ->
        returned = store r.1
        /\ (params !! py "headers" = None ->
            store r.1 !! py "headers" = Some (VDict default_headers))).

(** ** Vocabulary of the statements about [response] *)

(** The result blocks of the document, as [response] lists them before
    it detaches anything. *)
Definition result_elements (dom : node) : list xitem :=
  eval_xpath_list dom ∅ (Some []) XResultItems.

(** The world that the loop over the result blocks leaves, from a
    document from which nothing is detached yet. *)
Definition after_blocks (dom : node) (out : list pystr) : world detached_t :=
  (response_items dom (result_elements dom) (World ∅ out)).1.

(** The text of the count banner, as [response] reads it once the
    blocks are extracted. *)
Definition count_banner (dom : node) (out : list pystr) : pystr :=
  result_count_container_str dom (store (after_blocks dom out)).

(** The two shapes of the banner that the specification knows, with the
    start offset and the total estimate it gives them: [start-end of
    total ...], and a text without [-] such as [About total results],
    whose start offset is 1.  The total is what the digits of the text
    spell, whatever stands between them; the numbers are written with
    no more digits than [int] reads. *)
Inductive banner_reads : pystr -> Z -> Z -> Prop :=
| reads_range (a b t : pystr) :
    a <> [] -> Forall (fun c => is_digit c = true) a ->
    (length a <= int_max_str_digits)%nat ->
    b <> [] -> Forall (fun c => is_digit c = true) b ->
    contains (py "of") t = false ->
    (length (digits_only t) <= int_max_str_digits)%nat ->
    banner_reads (a ++ py "-" ++ b ++ py " of " ++ t)
      (int_of_digits a) (int_of_digits (digits_only t))
| reads_about (banner : pystr) :
    contains (py "-") banner = false ->
    (length (digits_only banner) <= int_max_str_digits)%nat ->
    banner_reads banner 1 (int_of_digits (digits_only banner)).

(** The test of [response] for a page requested beyond the last one:
    page 1 came back instead. *)
Definition beyond_last_page (requested_pageno start total : Z) : bool :=
  (1 <? requested_pageno)
  && negb (start =? _page_offset requested_pageno)
  && (total <? _page_offset requested_pageno)
  && (0 <? total)
  && (start =? 1).

(** ** Sample documents *)

#[local] Open Scope string_scope.

Definition elt (tag : string) (attrib : list (string * string)) (text : string)
    (children : list node) (tail : string) : node :=
  Element (py tag) ((fun '(k, v) => (py k, py v)) <$> attrib) (py text) children (py tail).

(** The result block
    [<li class="b_algo"><h2><a href=...>Example</a></h2>
     <p><span class="algoSlug_icon">Web</span>Some real text</p></li>]. *)
Definition sample_block (href : option string) : node :=
  elt "li" [("class", "b_algo")] ""
    [elt "h2" [] ""
       [elt "a" match href with Some h => [("href", h)] | None => [] end
            "Example" [] ""] "";
     elt "p" [] ""
       [elt "span" [("class", "algoSlug_icon")] "Web" [] "Some real text"] ""] "".

(** [<html><body><span class="sb_count">banner</span>
     <ol id="b_results">blocks</ol></body></html>] *)
Definition sample_page (banner : string) (blocks : list node) : node :=
  elt "html" [] ""
    [elt "body" [] ""
       [elt "span" [("class", "sb_count")] banner [] "";
        elt "ol" [("id", "b_results")] "" blocks ""] ""] "".

(** The same page, for a banner given by its code points. *)
Definition banner_page (banner : pystr) (blocks : list node) : node :=
  Element (py "html") [] []
    [Element (py "body") [] []
       [Element (py "span") [(py "class", py "sb_count")] banner [] [];
        Element (py "ol") [(py "id", py "b_results")] [] blocks []] []] [].

#[local] Close Scope string_scope.

(** The two warnings of the page check. *)
Definition page_one_warning (requested_pageno expected start total : Z) : pystr :=
  py "Bing returned page 1 instead of requested page "
  ++ str_int requested_pageno
  ++ py ". Expected start offset: " ++ str_int expected
  ++ py ", but page shows start at " ++ str_int start
  ++ py ". This might be because the requested page is beyond the total available results ("
  ++ str_int total ++ py ").".

Definition mismatch_warning (requested_pageno expected start : Z) : pystr :=
  py "Page number mismatch detected: Requested page "
  ++ str_int requested_pageno
  ++ py " (expected offset " ++ str_int expected
  ++ py "), but the content seems to be from a page starting at offset "
  ++ str_int start ++ py ".".

(** A page of one result, with the banner [1-10 of 15 results]. *)
Definition sample_short_page : node :=
  sample_page "1-10 of 15 results"%string
    [sample_block (Some "https://example.com/x"%string)].

(** The characters of the decimal rendering of an integer. *)
Definition decimal_char (c : Z) : Prop := c = 45 \/ 48 <= c <= 57.

(** The same encoding without its padding, as the tracking URLs carry
    it ([rstrip('=')]). *)
Fixpoint urlsafe_b64encode_unpadded (bs : list Z) : pystr :=
  match bs with
  | [] => []
  | [a] => [b64_char (a / 4); b64_char (a mod 4 * 16)]
  | [a; b] =>
      [b64_char (a / 4); b64_char (a mod 4 * 16 + b / 16);
       b64_char (b mod 16 * 4)]
  | a :: b :: c :: rest =>
      [b64_char (a / 4); b64_char (a mod 4 * 16 + b / 16);
       b64_char (b mod 16 * 4 + c / 64); b64_char (c mod 64)]
      ++ urlsafe_b64encode_unpadded rest
  end.

(** ** Vocabulary of the statements about the snippet cleaning *)

(** The test of [.//span[@class="algoSlug_icon"]] on a node met below
    the paragraph. *)
Definition icon_visit (v : visit) : bool :=
  has_tag (py "span") (v_node v)
  && attrib_is (py "class") (py "algoSlug_icon") (v_node v)
  && (1 <=? v_depth v)%nat.

(** The walk of the children [cs] of [n], the first of which is the
    child number [i]: the inner loop of [walk]. *)
Fixpoint walk_children (detached : detached_t) (n : node) (depth : nat)
    (p : path) (i : nat) (cs : list node) : list visit :=
  match cs with
  | [] => []
  | c :: cs' =>
      (if decide (p ++ [i] ∈ detached) then []
       else walk detached (Some n) (S depth) (p ++ [i]) c)
      ++ walk_children detached n depth p (S i) cs'
  end.

(** Once the icons met below a node are detached, a walk below it meets
    no icon. *)
Definition icons_detached (n : node) : Prop :=
  forall (d d' : detached_t) (parent : option node) (depth : nat) (p : path),
    d ⊆ d' -> p ∉ d' -> p <> [] ->
    (forall v, v ∈ walk d parent (S depth) p n ->
               icon_visit v = true -> v_path v <> [] -> v_path v ∈ d') ->
    forall v, v ∈ walk d' parent (S depth) p n -> icon_visit v = false.

(** ** Vocabulary of the statements about the output of [response] *)

(** A text that neither starts nor ends with white space. *)
Definition starts_clean (s : pystr) : Prop :=
  match s with
  | [] => True
  | c :: _ => is_space c = false
  end.

Definition stripped (s : pystr) : Prop := starts_clean s /\ starts_clean (rev s).

(** A result dictionary of a block, with its texts stripped. *)
Definition clean_item (r : result) : Prop :=
  match r with
  | Item _ title content => stripped title /\ stripped content
  | NumberOfResults _ => False
  end.

(** A [href] on which the redirect decoder hands no [%] to the
    logger: it does not start with the tracking prefix, or holds no [%]. *)
Definition href_plain (href : pystr) : Prop :=
  startswith tracking_prefix href = false \/ Forall (fun c => c <> 37) href.

Definition hrefs_plain (dom : node) : Prop :=
  forall (p : path) (n : node) (href : pystr),
    node_at dom p = Some n -> attrib_get n (py "href") = Some href -> href_plain href.

(** The element [<ol id="b_results">]. *)
Definition results_list (n : node) : bool :=
  has_tag (py "ol") n && attrib_is (py "id") (py "b_results") n.

(** [f] holds of a node and of all the nodes below it. *)
Fixpoint forall_nodes (f : node -> bool) (n : node) {struct n} : bool :=
  f n &&
  match n with
  | Element _ _ _ children _ =>
      (fix forall_children (cs : list node) {struct cs} : bool :=
         match cs with
         | [] => true
         | c :: cs' => forall_nodes f c && forall_children cs'
         end) children
  | Comment _ _ => true
  end.

(** The boolean form of [href_plain], on the [href] of a node. *)
Definition href_plainb (n : node) : bool :=
  match attrib_get n (py "href") with
  | Some href =>
      negb (startswith tracking_prefix href) || forallb (fun c => negb (c =? 37)) href
  | None => true
  end.

(** The page of one result with the banner of a second page. *)
Definition sample_second_page : node :=
  sample_page "11-20 of 1,230 results"%string
    [sample_block (Some "https://example.com/x"%string)].

(** A page that holds a notice in place of the results. *)
Definition sample_notice_page : node :=
  elt "html" [] ""
    [elt "body" [] "" [elt "p" [] "Please verify" [] ""] ""] "".

(** ** Sample pages for the page check *)

(** The page of one result whose link is a tracking link without
    parameter [u] and with a [%]. *)
Definition sample_percent_page : node :=
  sample_page "1-10 of 15 results"%string
    [sample_block (Some "https://www.bing.com/ck/a?q=50%25+off"%string)].

(** The page of one result with the banner [5-14 of 15 results]. *)
Definition sample_offset_page : node :=
  sample_page "5-14 of 15 results"%string
    [sample_block (Some "https://example.com/x"%string)].

(** The page of one result whose banner writes its start offset
    [start] after as many zeros as [int] reads digits, so on one digit
    more than it reads. *)
Definition sample_long_start_page (start : string) : node :=
  banner_page (repeat 48 int_max_str_digits ++ py start ++ py " of 15 results")
    [sample_block (Some "https://example.com/x"%string)].

(** The parent of a node met by a walk is the one the walk was given,
    or a node for which [P] holds when it holds for every node. *)
Definition parents_in (P : node -> Prop) (n : node) : Prop :=
  forall (d : detached_t) (parent : option node) (depth : nat) (p : path) (v : visit),
    v ∈ walk d parent depth p n ->
    v_parent v = parent \/ exists m, v_parent v = Some m /\ P m.

(** The text below the children [cs] of a node, the first of which is
    the child number [i]: the inner loop of [text_content]. *)
Fixpoint content_children (detached : detached_t) (p : path) (i : nat)
    (cs : list node) : pystr :=
  match cs with
  | [] => []
  | c :: cs' =>
      (if decide (p ++ [i] ∈ detached) then []
       else text_content detached (p ++ [i]) c ++ tail_of c)
      ++ content_children detached p (S i) cs'
  end.

(** The element [<span class="algoSlug_icon">]. *)
Definition icon_span (n : node) : bool :=
  has_tag (py "span") n && attrib_is (py "class") (py "algoSlug_icon") n.

(** ** Vocabulary of the statements about the cookies and the store *)

(** The locale [request] looks up in the tables. *)
Definition locale_of (params : gmap pystr pyval) : pyval :=
  default (VStr (py "en-US")) (params !! py "searxng_locale").

(** The market code and the language code that [request] reads in the
    tables for a locale: the market defaults to [all_locale], the
    language to the market. *)
Definition market_code (traits : EngineTraits) (locale : pystr) : pystr :=
  default (all_locale traits) (regions traits !! locale).

Definition language_code (traits : EngineTraits) (locale : pystr) : pystr :=
  default (market_code traits locale) (languages traits !! locale).

(** The cookies that [params] holds, none when it has no such entry. *)
Definition cookies_of (params : gmap pystr pyval) : gmap pystr pyval :=
  match params !! py "cookies" with
  | Some (VDict cookies) => cookies
  | _ => ∅
  end.

(** The two cookies of [set_bing_cookies], written over [cookies]. *)
Definition bing_cookies (lang market : pystr) (cookies : gmap pystr pyval)
  : gmap pystr pyval :=
  <[py "_EDGE_S" := VStr (py "mkt=" ++ market ++ py "&ui=" ++ lang)]>
    (<[py "_EDGE_CD" := VStr (py "m=" ++ market ++ py "&u=" ++ lang)]> cookies).

(** The store [request] leaves when it returns: the cookies, the URL,
    and the default headers where the caller gave none. *)
Definition requested (traits : EngineTraits) (locale url : pystr)
    (params : gmap pystr pyval) : gmap pystr pyval :=
  let params2 :=
    <[py "url" := VStr url]>
      (<[py "cookies" :=
           VDict (bing_cookies (language_code traits locale) (market_code traits locale)
                    (cookies_of params))]> params) in
  if decide (params !! py "headers" = None)
  then <[py "headers" := VDict default_headers]> params2
  else params2.

(** ** [perform_search], up to the HTTP request

    What [perform_search] builds before it calls [request]: the
    [req_params] dictionary and the tables it installs in the global
    [traits].  [lower] and [upper] stand for [str.lower] and [str.upper]. *)

Section PerformSearch.

Variable lower upper : pystr -> pystr.

(** [req_params]; [time_range] is left out when it is [None] or empty. *)
Definition perform_search_params (pageno : Z) (language region : pystr)
    (time_range : option pystr) : gmap pystr pyval :=
  let req_params : gmap pystr pyval :=
    <[py "searxng_locale" := VStr (lower language ++ py "-" ++ upper region)]>
      (<[py "pageno" := VInt pageno]> ∅) in
  match time_range with
  | Some tr => if decide (tr = []) then req_params
               else <[py "time_range" := VStr tr]> req_params
  | None => req_params
  end.

(** The global [traits] once [perform_search] has configured it. *)
Definition perform_search_traits (language region : pystr) : EngineTraits :=
  let bing_market_lang_code := lower language ++ py "-" ++ lower region in
  let locale_key := lower language ++ py "-" ++ upper region in
  {| languages := {[locale_key := bing_market_lang_code]};
     regions := {[locale_key := bing_market_lang_code]};
     all_locale := bing_market_lang_code |}.

End PerformSearch.

(** [str.lower] and [str.upper] on the letters [A] to [Z] and [a] to [z]. *)
Definition ascii_lower (s : pystr) : pystr :=
  map (fun c => if in_range 65 90 c then c + 32 else c) s.

Definition ascii_upper (s : pystr) : pystr :=
  map (fun c => if in_range 97 122 c then c - 32 else c) s.

(** * Properties *)

(** ** Runs *)

Lemma bind_run {St A B} (m : M St A) (k : A -> M St B) w w1 a :
  m w = (w1, Returned a) -> (m ≫= k) w = k a w1.
Proof. intros H. unfold mbind, M_bind. now rewrite H. Qed.

Lemma bind_raised {St A B} (m : M St A) (k : A -> M St B) w w1 e :
  m w = (w1, Raised e) -> (m ≫= k) w = (w1, Raised e).
Proof. intros H. unfold mbind, M_bind. now rewrite H. Qed.

Lemma bind_returned {St A B} (m : M St A) (k : A -> M St B) w w' b :
  (m ≫= k) w = (w', Returned b) ->
  exists w1 a, m w = (w1, Returned a) /\ k a w1 = (w', Returned b).
Proof.
  unfold mbind, M_bind. destruct (m w) as [w1 [a|e]]; intros H.
  - exists w1, a. split; [reflexivity | exact H].
  - discriminate H.
Qed.

Lemma ret_run {St A} (a : A) (w : world St) :
  (mret a : M St A) w = (w, Returned a).
Proof. reflexivity. Qed.

(** ** Decimal renderings and the [%] operator *)

Lemma string_of_uint_chars d :
  Forall decimal_char (py (NilEmpty.string_of_uint d)).
Proof.
  induction d; cbn [NilEmpty.string_of_uint]; try (constructor; fail);
    change (py (String ?a ?s)) with (Z.of_N (N_of_ascii a) :: py s);
    (constructor; [unfold decimal_char; right; cbn; lia | assumption]).
Qed.

Lemma str_int_chars n : Forall decimal_char (str_int n).
Proof.
  unfold str_int.
  assert (Hu : forall d, Forall decimal_char (py (NilZero.string_of_uint d))).
  { intros d. destruct d; try apply string_of_uint_chars.
    constructor; [unfold decimal_char; right; cbn; lia | constructor]. }
  destruct (Z.to_int n) as [d|d]; cbn [NilZero.string_of_int].
  - apply Hu.
  - change (py (String ?a ?s)) with (Z.of_N (N_of_ascii a) :: py s).
    constructor; [unfold decimal_char; left; reflexivity | apply Hu].
Qed.

Lemma percent_format_plain s : Forall (fun c => c <> 37) s -> percent_format s = Some s.
Proof.
  induction 1 as [|c s Hc _ IH]; [reflexivity|].
  cbn [percent_format]. destruct (Z.eqb_spec c 37); [contradiction|].
  now rewrite IH.
Qed.

Lemma decimal_not_percent s : Forall decimal_char s -> Forall (fun c => c <> 37) s.
Proof.
  intros H. eapply Forall_impl; [exact H|].
  intros c [->|Hc]; lia.
Qed.

(** ** Splitting text *)

Lemma split_on_plain sep s : Forall (fun c => c <> sep) s -> split_on sep s = [s].
Proof.
  induction 1 as [|c s Hc _ IH]; [reflexivity|].
  cbn [split_on]. destruct (Z.eqb_spec c sep); [contradiction|]. now rewrite IH.
Qed.

Lemma split_on_app sep a b :
  Forall (fun c => c <> sep) a -> split_on sep (a ++ sep :: b) = a :: split_on sep b.
Proof.
  induction 1 as [|c s Hc _ IH]; cbn [split_on app].
  - now rewrite Z.eqb_refl.
  - destruct (Z.eqb_spec c sep); [contradiction|]. now rewrite IH.
Qed.

Lemma partition_plain sep s :
  Forall (fun c => c <> sep) s -> partition sep s = (s, false, []).
Proof.
  induction 1 as [|c s Hc _ IH]; [reflexivity|].
  cbn [partition]. destruct (Z.eqb_spec c sep); [contradiction|]. now rewrite IH.
Qed.

Lemma partition_app sep a b :
  Forall (fun c => c <> sep) a -> partition sep (a ++ sep :: b) = (a, true, b).
Proof.
  induction 1 as [|c s Hc _ IH]; cbn [partition app].
  - now rewrite Z.eqb_refl.
  - destruct (Z.eqb_spec c sep); [contradiction|]. now rewrite IH.
Qed.

(** A test on the characters of a text, decided on a literal by
    evaluation. *)
Lemma forallb_Forall (P : Z -> bool) (Q : Z -> Prop) s :
  (forall c, P c = true -> Q c) -> forallb P s = true -> Forall Q s.
Proof.
  intros HPQ H. rewrite forallb_forall in H. apply Forall_forall.
  intros c Hc. apply HPQ, H. now apply list_elem_of_In.
Qed.

(** ** The values [parse_qs] holds for a name *)

Lemma values_of_app (k : pystr) (l1 l2 : list (pystr * pystr)) : values_of k (l1 ++ l2) = values_of k l1 ++ values_of k l2.
Proof. unfold values_of. now rewrite List.filter_app, fmap_app. Qed.

Lemma parse_qs_fold (k : pystr) (pairs : list (pystr * pystr))
    (parsed : gmap pystr (list pystr)) :
  fold_left
    (fun parsed_result '(name, value) =>
       match parsed_result !! name with
       | Some values => <[name := values ++ [value]]> parsed_result
       | None => <[name := [value]]> parsed_result
       end) pairs parsed !! k
  = match values_of k pairs with
    | [] => parsed !! k
    | vs => Some (default [] (parsed !! k) ++ vs)
    end.
Proof.
  revert parsed. induction pairs as [|[name value] pairs IH]; intros parsed.
  - reflexivity.
  - cbn [fold_left]. rewrite IH. unfold values_of. cbn [List.filter fst].
    destruct (decide (name = k)) as [->|Hne].
    + rewrite bool_decide_eq_true_2 by reflexivity. cbn [fmap list_fmap snd].
      fold (values_of k pairs).
      destruct (parsed !! k) as [values|] eqn:E; rewrite lookup_insert_eq; cbn [default];
        destruct (values_of k pairs); try reflexivity.
      unfold id. now rewrite <- app_assoc.
    + rewrite bool_decide_eq_false_2 by assumption. fold (values_of k pairs).
      assert (Hk : forall v, <[name := v]> parsed !! k = parsed !! k)
        by (intros v; now apply lookup_insert_ne).
      destruct (parsed !! name); now rewrite Hk.
Qed.

Lemma parse_qs_lookup (qs k : pystr) :
  parse_qs qs !! k
  = match values_of k (parse_qsl qs) with
    | [] => None
    | vs => Some vs
    end.
Proof.
  unfold parse_qs. rewrite parse_qs_fold. rewrite lookup_empty. reflexivity.
Qed.

(** ** The request builder *)

Ltac py_neq := let H := fresh in intros H; vm_compute in H; discriminate H.

Lemma set_cookie_run name value params cookies out :
  params !! py "cookies" = Some (VDict cookies) ->
  set_cookie name value (World params out)
  = (World (<[py "cookies" := VDict (<[name := VStr value]> cookies)]> params) out,
     Returned tt).
Proof.
  intros H. unfold set_cookie.
  rewrite (bind_run _ _ _ (World params out) params) by reflexivity.
  now rewrite H.
Qed.

(** The cookies [set_bing_cookies] leaves, from the ones it found. *)
Lemma set_bing_cookies_run lang market params out :
  params !! py "cookies" = None \/ (exists d, params !! py "cookies" = Some (VDict d)) ->
  exists cookies,
    set_bing_cookies lang market (World params out)
    = (World (<[py "cookies" := VDict cookies]> params) out, Returned tt)
    /\ cookies !! py "_EDGE_CD" = Some (VStr (py "m=" ++ market ++ py "&u=" ++ lang))
    /\ cookies !! py "_EDGE_S" = Some (VStr (py "mkt=" ++ market ++ py "&ui=" ++ lang)).
Proof.
  intros H. unfold set_bing_cookies.
  rewrite (bind_run _ _ _ (World params out) params) by reflexivity.
  assert (Hfin : forall d params0,
    params0 !! py "cookies" = Some (VDict d) ->
    <[py "cookies" := VDict d]> params = params0 ->
    exists cookies,
      (set_cookie (py "_EDGE_CD") (py "m=" ++ market ++ py "&u=" ++ lang);;
       set_cookie (py "_EDGE_S") (py "mkt=" ++ market ++ py "&ui=" ++ lang);;
       Logger.debug (py "Bing cookies set: %s")) (World params0 out)
      = (World (<[py "cookies" := VDict cookies]> params) out, Returned tt)
      /\ cookies !! py "_EDGE_CD" = Some (VStr (py "m=" ++ market ++ py "&u=" ++ lang))
      /\ cookies !! py "_EDGE_S" = Some (VStr (py "mkt=" ++ market ++ py "&ui=" ++ lang))).
  { intros d params0 Hd Hp.
    eexists. split; [|split].
    - rewrite (bind_run _ _ _ _ _ (set_cookie_run _ _ _ _ _ Hd)).
      rewrite (bind_run _ _ _ _ _
                 (set_cookie_run _ _ _ _ _ (lookup_insert_eq _ _ _))).
      unfold Logger.debug. rewrite ret_run.
      rewrite insert_insert_eq. rewrite <- Hp. rewrite insert_insert_eq. reflexivity.
    - rewrite lookup_insert_ne by py_neq. apply lookup_insert_eq.
    - apply lookup_insert_eq. }
  destruct H as [H | [d H]].
  - rewrite H. destruct (decide (None = None)) as [_|]; [|congruence].
    rewrite (bind_run _ _ _ (World (<[py "cookies" := VDict ∅]> params) out) tt)
      by reflexivity.
    apply (Hfin ∅); [apply lookup_insert_eq | reflexivity].
  - rewrite H. destruct (decide (Some (VDict d) = None)) as [|_]; [congruence|].
    rewrite (bind_run _ _ _ (World params out) tt) by reflexivity.
    apply (Hfin d); [exact H | now apply insert_id].
Qed.

Lemma append_url_run suffix params url out :
  params !! py "url" = Some (VStr url) ->
  append_url suffix (World params out)
  = (World (<[py "url" := VStr (url ++ suffix)]> params) out, Returned tt).
Proof.
  intros H. unfold append_url.
  rewrite (bind_run _ _ _ (World params out) params) by reflexivity.
  now rewrite H.
Qed.

Lemma warning_run {St} msg line (w : world St) :
  percent_format (py "WARNING: " ++ msg) = Some line ->
  Logger.warning msg w = (World (store w) (stdout w ++ [line]), Returned tt).
Proof. intros H. unfold Logger.warning. now rewrite H. Qed.

Lemma time_range_step_run now params out url filter lines :
  params !! py "url" = Some (VStr url) ->
  time_range_accepted now (params !! py "time_range") filter lines ->
  time_range_step now (World params out)
  = (World (<[py "url" := VStr (url ++ filter)]> params) (out ++ lines), Returned tt).
Proof.
  intros Hurl Hacc. unfold time_range_step.
  rewrite (bind_run _ _ _ (World params out) params) by reflexivity.
  assert (Hsame : (World params out, Returned tt)
                  = (World (<[py "url" := VStr (url ++ [])]> params) (out ++ []),
                     @Returned unit tt)).
  { rewrite !app_nil_r. now rewrite insert_id. }
  remember (params !! py "time_range") as tv eqn:Etv.
  destruct Hacc as [ | | | tr code Hcode | tr line Hne Hcode Hline];
    try (rewrite <- Hsame; reflexivity).
  - destruct (decide (tr = [])) as [->|Hne]; [discriminate Hcode|].
    rewrite Hcode. rewrite (append_url_run _ _ _ _ Hurl).
    unfold time_filter. rewrite Hcode. now rewrite app_nil_r.
  - destruct (decide (tr = [])) as [|_]; [contradiction|].
    rewrite Hcode.
    rewrite (warning_run _ _ _ Hline). cbn [store stdout].
    now rewrite app_nil_r, insert_id.
Qed.

Lemma table_get_returns table key dflt :
  (forall d, key <> VDict d) -> exists code, table_get table key dflt = Returned code.
Proof.
  intros H. destruct key as [|n|s|d]; cbn; eauto. now destruct (H d).
Qed.

Lemma request_returns traits now query params out page encoded filter lines :
  typed_params params page ->
  urlencode (query_params query page) = Some encoded ->
  time_range_accepted now (params !! py "time_range") filter lines ->
  exists params',
    request traits now query (World params out)
    = (World params' (out ++ lines), Returned params')
    /\ params' !! py "url" = Some (VStr (base_url ++ py "?" ++ encoded ++ filter)).
Proof.
  intros [Hloc Hpage Hcookies] Henc Hacc. unfold request.
  rewrite (bind_run _ _ _ (World params out) params) by reflexivity.
  set (locale := default (VStr (py "en-US")) (params !! py "searxng_locale")).
  assert (Hhash : forall d, locale <> VDict d).
  { intros d. subst locale. destruct (params !! py "searxng_locale") as [v|] eqn:E.
    - cbn. intros ->. now apply (Hloc d).
    - discriminate. }
  destruct (table_get_returns (regions traits) locale (all_locale traits) Hhash)
    as [market Hm].
  destruct (table_get_returns (languages traits) locale market Hhash) as [lang Hl].
  unfold get_region, get_language, lift.
  rewrite (bind_run _ _ _ (World params out) market) by (now rewrite Hm).
  rewrite (bind_run _ _ _ (World params out) lang) by (now rewrite Hl).
  destruct (set_bing_cookies_run lang market params out Hcookies)
    as (cookies & Hset & _ & _).
  rewrite (bind_run _ _ _ _ _ Hset).
  set (params1 := <[py "cookies" := VDict cookies]> params).
  rewrite (bind_run _ _ _ (World params1 out) params1) by reflexivity.
  assert (Hp1 : default (VInt 1) (params1 !! py "pageno") = VInt page).
  { subst params1. rewrite lookup_insert_ne by py_neq.
    destruct Hpage as [-> | [-> ->]]; reflexivity. }
  rewrite Hp1.
  rewrite (bind_run _ _ _ (World params1 out) page) by reflexivity.
  rewrite Henc.
  rewrite (bind_run _ _ _ (World params1 out) params1) by reflexivity.
  set (url := base_url ++ py "?" ++ encoded).
  set (params2 := <[py "url" := VStr url]> params1).
  rewrite (bind_run _ _ _ (World params2 out) tt) by reflexivity.
  assert (Htr : params2 !! py "time_range" = params !! py "time_range").
  { subst params2 params1. now rewrite !lookup_insert_ne by py_neq. }
  rewrite <- Htr in Hacc.
  rewrite (bind_run _ _ _ _ _
             (time_range_step_run now params2 out url filter lines
                (lookup_insert_eq _ _ _) Hacc)).
  set (params3 := <[py "url" := VStr (url ++ filter)]> params2).
  rewrite (bind_run _ _ _ (World params3 (out ++ lines)) params3) by reflexivity.
  assert (Hurl3 : params3 !! py "url" = Some (VStr (url ++ filter)))
    by apply lookup_insert_eq.
  destruct (decide (params3 !! py "headers" = None)) as [Hh|Hh].
  - rewrite (bind_run _ _ _
               (World (<[py "headers" := VDict default_headers]> params3) (out ++ lines))
               tt) by reflexivity.
    eexists. split; [reflexivity|]. cbn [store].
    rewrite lookup_insert_ne by py_neq. rewrite Hurl3. subst url.
    now rewrite <- !app_assoc.
  - rewrite (bind_run _ _ _ (World params3 (out ++ lines)) tt) by reflexivity.
    eexists. split; [reflexivity|]. cbn [store].
    rewrite Hurl3. subst url. now rewrite <- !app_assoc.
Qed.

(** Linear arithmetic with divisions by constants. *)
Ltac zlia := Z.div_mod_to_equations; lia.

(** ** Quoting *)

Lemma utf8_encode_char_bytes c bs :
  utf8_encode_char c = Some bs -> Forall (fun b => 0 <= b < 256) bs.
Proof.
  unfold utf8_encode_char.
  repeat match goal with
         | |- context [?a <? ?b] => destruct (Z.ltb_spec a b)
         | |- context [?a <=? ?b] => destruct (Z.leb_spec a b)
         end; cbn [andb]; try discriminate; intros [= <-].
  all: repeat (constructor; [cbv beta; zlia|]); constructor.
Qed.

Lemma utf8_encode_bytes s bs :
  utf8_encode s = Some bs -> Forall (fun b => 0 <= b < 256) bs.
Proof.
  revert bs. induction s as [|c s IH]; intros bs; cbn [utf8_encode].
  - intros [= <-]. constructor.
  - destruct (utf8_encode_char c) as [b1|] eqn:E1; [|discriminate].
    destruct (utf8_encode s) as [b2|]; [|discriminate].
    intros [= <-]. apply Forall_app. split; [|now apply IH].
    eapply utf8_encode_char_bytes, E1.
Qed.

Lemma utf8_encode_ascii s :
  Forall (fun c => 0 <= c < 128) s -> utf8_encode s = Some s.
Proof.
  induction 1 as [|c s Hc _ IH]; [reflexivity|].
  cbn [utf8_encode]. rewrite IH. unfold utf8_encode_char.
  destruct (Z.ltb_spec c 0); [lia|]. destruct (Z.ltb_spec c 128); [|lia].
  reflexivity.
Qed.

Lemma always_safe_ascii c : always_safe c = true -> 0 <= c < 128.
Proof. unfold always_safe, is_alnum. lia. Qed.

Lemma hex_digit_safe n : 0 <= n < 16 -> always_safe (hex_digit n) = true.
Proof. unfold hex_digit, always_safe, is_alnum. intros H. destruct (Z.ltb_spec n 10); lia. Qed.

Lemma quote_byte_chars b :
  0 <= b < 256 -> Forall (fun c => quoted_char c = true) (quote_byte b).
Proof.
  intros Hb. unfold quote_byte.
  destruct (always_safe b) eqn:Es.
  - repeat constructor. unfold quoted_char. now rewrite Es.
  - destruct (Z.eqb_spec b 32).
    + repeat constructor.
    + assert (H1 : always_safe (hex_digit (b / 16)) = true)
        by (apply hex_digit_safe; zlia).
      assert (H2 : always_safe (hex_digit (b mod 16)) = true)
        by (apply hex_digit_safe; zlia).
      unfold quoted_char. repeat constructor; [now rewrite H1 | now rewrite H2].
Qed.

Lemma quote_plus_chars s q :
  quote_plus s = Some q -> Forall (fun c => quoted_char c = true) q.
Proof.
  unfold quote_plus. destruct (utf8_encode s) as [bs|] eqn:E; [|discriminate].
  intros [= <-]. apply utf8_encode_bytes in E.
  induction E as [|b bs Hb _ IH]; cbn [flat_map]; [constructor|].
  apply Forall_app. split; [now apply quote_byte_chars | assumption].
Qed.

Lemma quote_plus_safe s :
  Forall (fun c => always_safe c = true) s -> quote_plus s = Some s.
Proof.
  intros H. unfold quote_plus. rewrite utf8_encode_ascii.
  - cbn. f_equal. induction H as [|c s Hc _ IH]; [reflexivity|].
    cbn [flat_map]. unfold quote_byte at 1. rewrite Hc. cbn. now rewrite IH.
  - eapply Forall_impl; [exact H|]. apply always_safe_ascii.
Qed.

Lemma decimal_safe s : Forall decimal_char s -> Forall (fun c => always_safe c = true) s.
Proof.
  intros H. eapply Forall_impl; [exact H|].
  unfold decimal_char, always_safe, is_alnum. lia.
Qed.

Lemma str_int_nonempty n : str_int n <> [].
Proof.
  unfold str_int. destruct (Z.to_int n) as [d|d]; cbn [NilZero.string_of_int].
  - destruct d; discriminate.
  - discriminate.
Qed.
(** ** The URL of the request *)

(** The page-state marker of a page after the first. *)
Lemma query_params_first query page :
  page <= 1 -> query_params query page = [(py "q", QStr query); (py "pq", QStr query)].
Proof.
  intros H. unfold query_params.
  destruct (Z.ltb_spec 1 page); [lia|].
  destruct (Z.eqb_spec page 2); [lia|].
  destruct (Z.ltb_spec 2 page); [lia|]. reflexivity.
Qed.

Lemma query_params_later query page :
  2 <= page ->
  query_params query page
  = [(py "q", QStr query); (py "pq", QStr query);
     (py "first", QInt ((page - 1) * 10 + 1));
     (py "FORM", QStr (if page =? 2 then py "PERE" else py "PERE" ++ str_int (page - 2)))].
Proof.
  intros H. unfold query_params, _page_offset.
  destruct (Z.ltb_spec 1 page); [|lia].
  destruct (Z.eqb_spec page 2); [reflexivity|].
  destruct (Z.ltb_spec 2 page); [|lia]. reflexivity.
Qed.

Lemma quote_plus_literal (s : string) :
  forallb always_safe (py s) = true -> quote_plus (py s) = Some (py s).
Proof.
  intros H. apply quote_plus_safe. apply (forallb_Forall always_safe); auto.
Qed.

Lemma quote_plus_str_int n : quote_plus (str_int n) = Some (str_int n).
Proof. apply quote_plus_safe, decimal_safe, str_int_chars. Qed.

Lemma quote_plus_marker page :
  let marker := if page =? 2 then py "PERE" else py "PERE" ++ str_int (page - 2) in
  quote_plus marker = Some marker.
Proof.
  cbv zeta. apply quote_plus_safe. destruct (page =? 2).
  - apply (forallb_Forall always_safe); [auto | reflexivity].
  - apply Forall_app. split.
    + apply (forallb_Forall always_safe); [auto | reflexivity].
    + apply decimal_safe, str_int_chars.
Qed.

Lemma urlencode_first query quoted page :
  quote_plus query = Some quoted -> page <= 1 ->
  urlencode (query_params query page)
  = Some (py "q=" ++ quoted ++ py "&pq=" ++ quoted).
Proof.
  intros Hq Hp. rewrite query_params_first by assumption.
  unfold urlencode. cbn [urlencode_items str_qvalue].
  rewrite Hq, !quote_plus_literal by reflexivity.
  cbn [fmap option_fmap option_map join]. now rewrite <- !app_assoc.
Qed.

Lemma urlencode_later query quoted page :
  quote_plus query = Some quoted -> 2 <= page ->
  urlencode (query_params query page)
  = Some (py "q=" ++ quoted ++ py "&pq=" ++ quoted
          ++ py "&first=" ++ str_int ((page - 1) * 10 + 1)
          ++ py "&FORM=" ++ (if page =? 2 then py "PERE" else py "PERE" ++ str_int (page - 2))).
Proof.
  intros Hq Hp. rewrite query_params_later by assumption.
  unfold urlencode. cbn [urlencode_items str_qvalue].
  rewrite Hq, !quote_plus_literal, quote_plus_str_int, quote_plus_marker by reflexivity.
  cbn [fmap option_fmap option_map join]. now rewrite <- !app_assoc.
Qed.
(** ** The query parameters of the URL *)

Lemma filter_all {A} (P : A -> Prop) `{forall x, Decision (P x)} (l : list A) :
  Forall P l -> filter P l = l.
Proof.
  induction 1 as [|x l Hx _ IH]; [reflexivity|].
  rewrite filter_cons_True by assumption. now rewrite IH.
Qed.

Lemma url_plain_spec c : url_plain c = true -> (c <> 9 /\ c <> 10 /\ c <> 13) /\ c <> 35.
Proof. unfold url_plain. lia. Qed.

Lemma urlparse_query_after path qs :
  Forall (fun c => url_plain c = true /\ c <> 63) path ->
  Forall (fun c => url_plain c = true) qs ->
  urlparse_query (path ++ 63 :: qs) = qs.
Proof.
  intros Hpath Hqs.
  assert (Hall : Forall (fun c => url_plain c = true) (path ++ 63 :: qs)).
  { apply Forall_app. split.
    - eapply Forall_impl; [exact Hpath|]. now intros c [H _].
    - constructor; [reflexivity | assumption]. }
  unfold urlparse_query.
  rewrite filter_all by (eapply Forall_impl; [exact Hall|]; intros c Hc;
                         now apply url_plain_spec in Hc).
  rewrite partition_plain by (eapply Forall_impl; [exact Hall|]; intros c Hc;
                              now apply url_plain_spec in Hc).
  rewrite partition_app; [reflexivity|].
  eapply Forall_impl; [exact Hpath|]. now intros c [_ H].
Qed.

Lemma literal_path (s : string) :
  forallb (fun c => url_plain c && negb (c =? 63)) (py s) = true ->
  Forall (fun c => url_plain c = true /\ c <> 63) (py s).
Proof.
  apply forallb_Forall. intros c. rewrite andb_true_iff. intros [H1 H2].
  split; [assumption|lia].
Qed.

Lemma urlparse_query_base qs :
  Forall (fun c => url_plain c = true) qs ->
  urlparse_query (base_url ++ py "?" ++ qs) = qs.
Proof.
  intros Hqs. change (py "?" ++ qs) with (63 :: qs).
  apply urlparse_query_after; [|assumption]. now apply literal_path.
Qed.

Lemma join_amp_cons field fields :
  fields <> [] -> join (py "&") (field :: fields) = field ++ 38 :: join (py "&") fields.
Proof. destruct fields; [congruence | reflexivity]. Qed.

Lemma parse_qsl_join fields :
  fields <> [] ->
  Forall (Forall (fun c => c <> 38)) fields ->
  parse_qsl (join (py "&") fields) = flat_map parse_name_value fields.
Proof.
  intros Hne Hall. unfold parse_qsl. f_equal.
  induction Hall as [|field fields Hf Hfs IH]; [congruence|].
  destruct fields as [|field' fields].
  - cbn [join]. now apply split_on_plain.
  - rewrite join_amp_cons by discriminate.
    rewrite split_on_app by assumption. f_equal. now apply IH.
Qed.

Lemma unquote_plain s :
  Forall (fun c => c <> 37 /\ c <> 43) s -> unquote (plus_to_space s) = s.
Proof.
  intros H.
  assert (Hp : plus_to_space s = s).
  { induction H as [|c s [_ Hc] _ IH]; [reflexivity|].
    cbn [plus_to_space map]. fold (plus_to_space s). rewrite IH.
    destruct (Z.eqb_spec c 43); [contradiction | reflexivity]. }
  rewrite Hp. unfold unquote.
  destruct (decide (37 ∈ s)) as [Hin|_]; [|reflexivity].
  rewrite Forall_forall in H. now destruct (H 37 Hin).
Qed.

Lemma field_values k name value :
  Forall (fun c => c <> 61) name ->
  values_of k (parse_name_value (name ++ py "=" ++ value))
  = if decide (value = []) then []
    else if decide (unquote (plus_to_space name) = k)
         then [unquote (plus_to_space value)] else [].
Proof.
  intros Hname. unfold parse_name_value.
  change (py "=" ++ value) with (61 :: value).
  rewrite partition_app by assumption.
  destruct (decide (name ++ 61 :: value = [])) as [E|_].
  { now destruct name. }
  destruct (decide (value = [])); [reflexivity|].
  unfold values_of. cbn [List.filter fst].
  destruct (decide (unquote (plus_to_space name) = k)).
  - now rewrite bool_decide_eq_true_2.
  - now rewrite bool_decide_eq_false_2.
Qed.

(** The filter code of a supported time range. *)
Lemma time_code_chars d tr code :
  time_ranges_map d !! tr = Some code ->
  Forall (fun c => decimal_char c \/ c = 95) code.
Proof.
  assert (Hlit : forall s : string,
            forallb (fun c => (c =? 45) || in_range 48 57 c || (c =? 95)) (py s) = true ->
            Forall (fun c => decimal_char c \/ c = 95) (py s)).
  { intros s. apply forallb_Forall. intros c. unfold in_range, decimal_char. lia. }
  unfold time_ranges_map. cbn [list_to_map foldr uncurry].
  rewrite !lookup_insert. repeat case_decide.
  1-3: intros Hc; apply (inj Some) in Hc; subst code; now apply Hlit.
  - assert (Hint : forall n, Forall (fun c => decimal_char c \/ c = 95) (str_int n)).
    { intros n. eapply Forall_impl; [apply str_int_chars|]. now left. }
    intros Hc. apply (inj Some) in Hc. subst code.
    apply Forall_app; split; [now apply Hlit|].
    apply Forall_app; split; [apply Hint|].
    apply Forall_app; split; [now apply Hlit | apply Hint].
  - now rewrite lookup_empty.
Qed.
Lemma field_other k (name : string) value :
  forallb name_char (py name) = true -> py name <> k ->
  values_of k (parse_name_value (py name ++ py "=" ++ value)) = [].
Proof.
  intros Hname Hk.
  rewrite field_values
    by (apply (forallb_Forall name_char); [unfold name_char; lia | exact Hname]).
  rewrite unquote_plain
    by (apply (forallb_Forall name_char); [unfold name_char; lia | exact Hname]).
  destruct (decide (value = [])); [reflexivity|].
  destruct (decide (py name = k)); [contradiction | reflexivity].
Qed.

Lemma field_same (name : string) value :
  forallb name_char (py name) = true -> value <> [] ->
  Forall (fun c => c <> 37 /\ c <> 43) value ->
  values_of (py name) (parse_name_value (py name ++ py "=" ++ value)) = [value].
Proof.
  intros Hname Hv Hplain.
  rewrite field_values
    by (apply (forallb_Forall name_char); [unfold name_char; lia | exact Hname]).
  rewrite !unquote_plain; try assumption.
  - destruct (decide (value = [])); [contradiction|].
    destruct (decide (py name = py name)); [reflexivity | congruence].
  - apply (forallb_Forall name_char); [unfold name_char; lia | exact Hname].
Qed.

Lemma url_params_fields (k : pystr) fields :
  fields <> [] ->
  Forall (Forall (fun c => url_plain c = true /\ c <> 38)) fields ->
  url_params (base_url ++ py "?" ++ join (py "&") fields) !! k
  = match values_of k (flat_map parse_name_value fields) with
    | [] => None
    | vs => Some vs
    end.
Proof.
  intros Hne Hall. unfold url_params.
  rewrite urlparse_query_base.
  - rewrite parse_qs_lookup, parse_qsl_join; [reflexivity | assumption |].
    eapply Forall_impl; [exact Hall|]. intros field Hf.
    eapply Forall_impl; [exact Hf|]. now intros c [_ H].
  - clear Hne. induction Hall as [|field fields Hf _ IH]; [constructor|].
    assert (Hf' : Forall (fun c => url_plain c = true) field).
    { eapply Forall_impl; [exact Hf|]. now intros c [H _]. }
    destruct fields as [|field' fields]; [exact Hf'|].
    rewrite join_amp_cons by discriminate.
    apply Forall_app. split; [exact Hf'|]. constructor; [reflexivity | exact IH].
Qed.

Lemma quoted_field c : quoted_char c = true -> url_plain c = true /\ c <> 38.
Proof. unfold quoted_char, always_safe, is_alnum, url_plain. lia. Qed.

Lemma decimal_field c : decimal_char c \/ c = 95 -> url_plain c = true /\ c <> 38.
Proof. unfold decimal_char, url_plain. lia. Qed.

Lemma literal_field (s : string) :
  forallb (fun c => url_plain c && negb (c =? 38)) (py s) = true ->
  Forall (fun c => url_plain c = true /\ c <> 38) (py s).
Proof. apply forallb_Forall. intros c. rewrite andb_true_iff. intros [H1 H2]. split; [assumption|lia]. Qed.

Lemma join_snoc sep fields field :
  fields <> [] -> join sep (fields ++ [field]) = join sep fields ++ sep ++ field.
Proof.
  induction fields as [|f fields IH]; [congruence|]. intros _.
  destruct fields as [|f' fields]; [reflexivity|].
  change (join sep ((f :: f' :: fields) ++ [field]))
    with (f ++ sep ++ join sep ((f' :: fields) ++ [field])).
  rewrite IH by discriminate.
  change (join sep (f :: f' :: fields)) with (f ++ sep ++ join sep (f' :: fields)).
  now rewrite <- !app_assoc.
Qed.

(** The field a time range adds to the query, if any. *)
Lemma time_range_fields now v filter lines :
  time_range_accepted now v filter lines ->
  exists extra,
    (forall fields, fields <> [] ->
       join (py "&") fields ++ filter = join (py "&") (fields ++ extra))
    /\ Forall (Forall (fun c => url_plain c = true /\ c <> 38)) extra
    /\ values_of (py "first") (flat_map parse_name_value extra) = []
    /\ values_of (py "FORM") (flat_map parse_name_value extra) = [].
Proof.
  assert (Hnone : exists extra : list pystr,
    (forall fields, fields <> [] ->
       join (py "&") fields ++ [] = join (py "&") (fields ++ extra))
    /\ Forall (Forall (fun c => url_plain c = true /\ c <> 38)) extra
    /\ values_of (py "first") (flat_map parse_name_value extra) = []
    /\ values_of (py "FORM") (flat_map parse_name_value extra) = []).
  { exists []. repeat split; try constructor.
    intros fields _. now rewrite !app_nil_r. }
  intros [ | | | tr code Hcode | tr line Hne Hcode Hline]; try exact Hnone.
  unfold time_filter. rewrite Hcode.
  set (value := py "ex1:" ++ [34] ++ py "ez" ++ code ++ [34]).
  exists [py "filters" ++ py "=" ++ value]. split; [|split; [|split]].
  - intros fields Hf. subst value. rewrite join_snoc by assumption.
    f_equal.
  - constructor; [|constructor]. subst value.
    apply Forall_app; split; [now apply literal_field|].
    apply Forall_app; split; [now apply literal_field|].
    apply Forall_app; split; [now apply literal_field|].
    assert (Hquote : Forall (fun c => url_plain c = true /\ c <> 38) [34])
      by (constructor; [split; [reflexivity | lia] | constructor]).
    apply Forall_app; split; [exact Hquote|].
    apply Forall_app; split; [now apply literal_field|].
    apply Forall_app; split; [|exact Hquote].
    eapply Forall_impl; [eapply time_code_chars, Hcode|]. apply decimal_field.
  - cbn [flat_map]. rewrite app_nil_r. apply field_other; [reflexivity | py_neq].
  - cbn [flat_map]. rewrite app_nil_r. apply field_other; [reflexivity | py_neq].
Qed.
Lemma page_marker_plain page :
  page_marker page <> [] /\ Forall (fun c => c <> 37 /\ c <> 43) (page_marker page)
  /\ Forall (fun c => url_plain c = true /\ c <> 38) (page_marker page).
Proof.
  assert (Hd : forall n, Forall (fun c => (c <> 37 /\ c <> 43)
                                          /\ url_plain c = true /\ c <> 38) (str_int n)).
  { intros n. eapply Forall_impl; [apply str_int_chars|].
    unfold decimal_char, url_plain. lia. }
  assert (Hl : Forall (fun c => (c <> 37 /\ c <> 43)
                                /\ url_plain c = true /\ c <> 38) (py "PERE")).
  { apply (forallb_Forall (fun c => negb (c =? 37) && negb (c =? 43)
                                    && url_plain c && negb (c =? 38)));
      [|reflexivity].
    intros c. unfold url_plain. lia. }
  assert (Hall : Forall (fun c => (c <> 37 /\ c <> 43)
                                  /\ url_plain c = true /\ c <> 38) (page_marker page)).
  { unfold page_marker. destruct (page =? 2); [exact Hl|].
    apply Forall_app. split; [exact Hl | apply Hd]. }
  split; [|split].
  - unfold page_marker. destruct (page =? 2); discriminate.
  - eapply Forall_impl; [exact Hall|]. now intros c [H _].
  - eapply Forall_impl; [exact Hall|]. now intros c [_ H].
Qed.

(** C1. For a page number [page >= 2], [request] returns with a URL
    that carries, after the two copies of the quoted query, the offset
    parameter [first] with the value [(page - 1) * 10 + 1] and the marker
    [FORM] with the value [PERE] for page 2 and [PERE] followed by the
    decimal rendering of [page - 2] for a later page; read back from the
    URL, these are the values of [first] and of [FORM].  For page 1 (or
    below) the URL holds neither parameter. *)
Theorem request_pagination traits now query quoted params out page filter lines :
  quote_plus query = Some quoted ->
  typed_params params page ->
  time_range_accepted now (params !! py "time_range") filter lines ->
  exists params' url,
    request traits now query (World params out)
    = (World params' (out ++ lines), Returned params')
    /\ params' !! py "url" = Some (VStr url)
    /\ (2 <= page ->
        url = base_url ++ py "?q=" ++ quoted ++ py "&pq=" ++ quoted
              ++ py "&first=" ++ str_int ((page - 1) * 10 + 1)
              ++ py "&FORM=" ++ page_marker page ++ filter
        /\ page_marker page
           = (if page =? 2 then py "PERE" else py "PERE" ++ str_int (page - 2))
        /\ url_params url !! py "first" = Some [str_int ((page - 1) * 10 + 1)]
        /\ url_params url !! py "FORM" = Some [page_marker page])
    /\ (page <= 1 ->
        url = base_url ++ py "?q=" ++ quoted ++ py "&pq=" ++ quoted ++ filter
        /\ url_params url !! py "first" = None
        /\ url_params url !! py "FORM" = None).
Proof.
  intros Hq Htyped Hacc.
  destruct (time_range_fields _ _ _ _ Hacc) as (extra & Hjoin & Hextra & Hx1 & Hx2).
  assert (Hquoted : Forall (fun c => url_plain c = true /\ c <> 38) quoted).
  { eapply Forall_impl; [eapply quote_plus_chars, Hq|]. apply quoted_field. }
  assert (Hfq : Forall (fun c => url_plain c = true /\ c <> 38) (py "q" ++ py "=" ++ quoted)).
  { apply Forall_app; split; [now apply literal_field|].
    apply Forall_app; split; [now apply literal_field | exact Hquoted]. }
  assert (Hfpq : Forall (fun c => url_plain c = true /\ c <> 38) (py "pq" ++ py "=" ++ quoted)).
  { apply Forall_app; split; [now apply literal_field|].
    apply Forall_app; split; [now apply literal_field | exact Hquoted]. }
  destruct (Z.le_gt_cases 2 page) as [Hp|Hp].
  - destruct (request_returns traits now query params out page _ filter lines
                Htyped (urlencode_later _ _ _ Hq Hp) Hacc) as (params' & Hrun & Hurl).
    exists params'. eexists. split; [exact Hrun|]. split; [exact Hurl|].
    split; [|lia]. intros _.
    destruct (page_marker_plain page) as (Hm1 & Hm2 & Hm3).
    set (offset := str_int ((page - 1) * 10 + 1)).
    assert (Ho : Forall (fun c => url_plain c = true /\ c <> 38) offset).
    { eapply Forall_impl; [apply str_int_chars|]. intros c Hc. apply decimal_field. now left. }
    set (fields := [py "q" ++ py "=" ++ quoted; py "pq" ++ py "=" ++ quoted;
                    py "first" ++ py "=" ++ offset;
                    py "FORM" ++ py "=" ++ page_marker page]).
    assert (Hshape :
      base_url ++ py "?" ++
        (py "q=" ++ quoted ++ py "&pq=" ++ quoted ++ py "&first=" ++ offset
         ++ py "&FORM=" ++ (if page =? 2 then py "PERE" else py "PERE" ++ str_int (page - 2)))
        ++ filter
      = base_url ++ py "?" ++ join (py "&") (fields ++ extra)).
    { rewrite <- Hjoin by discriminate. subst fields. cbn [join].
      fold (page_marker page). now rewrite <- !app_assoc. }
    rewrite Hshape.
    assert (Hfields : Forall (Forall (fun c => url_plain c = true /\ c <> 38))
                        (fields ++ extra)).
    { apply Forall_app. split; [|exact Hextra]. subst fields.
      constructor; [exact Hfq|]. constructor; [exact Hfpq|].
      constructor; [|constructor; [|constructor]].
      - apply Forall_app; split; [now apply literal_field|].
        apply Forall_app; split; [now apply literal_field | exact Ho].
      - apply Forall_app; split; [now apply literal_field|].
        apply Forall_app; split; [now apply literal_field | exact Hm3]. }
    assert (Hne : fields ++ extra <> []) by (subst fields; discriminate).
    split; [|split; [reflexivity|split]].
    + rewrite <- Hshape. fold (page_marker page). now rewrite <- !app_assoc.
    + rewrite url_params_fields by assumption.
      rewrite flat_map_app, values_of_app, Hx1, app_nil_r.
      subst fields. cbn [flat_map]. rewrite !values_of_app, app_nil_r.
      rewrite (field_other _ "q"), (field_other _ "pq"), (field_other _ "FORM")
        by (reflexivity || py_neq).
      rewrite field_same; [reflexivity | reflexivity | apply str_int_nonempty |].
      eapply Forall_impl; [apply str_int_chars|]. unfold decimal_char. lia.
    + rewrite url_params_fields by assumption.
      rewrite flat_map_app, values_of_app, Hx2, app_nil_r.
      subst fields. cbn [flat_map]. rewrite !values_of_app, app_nil_r.
      rewrite (field_other _ "q"), (field_other _ "pq"), (field_other _ "first")
        by (reflexivity || py_neq).
      rewrite field_same; [reflexivity | reflexivity | exact Hm1 | exact Hm2].
  - assert (Hp1 : page <= 1) by lia.
    destruct (request_returns traits now query params out page _ filter lines
                Htyped (urlencode_first _ _ _ Hq Hp1) Hacc) as (params' & Hrun & Hurl).
    exists params'. eexists. split; [exact Hrun|]. split; [exact Hurl|].
    split; [lia|]. intros _.
    set (fields := [py "q" ++ py "=" ++ quoted; py "pq" ++ py "=" ++ quoted]).
    assert (Hshape :
      base_url ++ py "?" ++ (py "q=" ++ quoted ++ py "&pq=" ++ quoted) ++ filter
      = base_url ++ py "?" ++ join (py "&") (fields ++ extra)).
    { rewrite <- Hjoin by discriminate. subst fields. cbn [join].
      now rewrite <- !app_assoc. }
    rewrite Hshape.
    assert (Hfields : Forall (Forall (fun c => url_plain c = true /\ c <> 38))
                        (fields ++ extra)).
    { apply Forall_app. split; [|exact Hextra]. subst fields.
      constructor; [exact Hfq|]. constructor; [exact Hfpq | constructor]. }
    assert (Hne : fields ++ extra <> []) by (subst fields; discriminate).
    split; [|split].
    + rewrite <- Hshape. now rewrite <- !app_assoc.
    + rewrite url_params_fields by assumption.
      rewrite flat_map_app, values_of_app, Hx1, app_nil_r.
      subst fields. cbn [flat_map]. rewrite !values_of_app, app_nil_r.
      now rewrite (field_other _ "q"), (field_other _ "pq") by (reflexivity || py_neq).
    + rewrite url_params_fields by assumption.
      rewrite flat_map_app, values_of_app, Hx2, app_nil_r.
      subst fields. cbn [flat_map]. rewrite !values_of_app, app_nil_r.
      now rewrite (field_other _ "q"), (field_other _ "pq") by (reflexivity || py_neq).
Qed.

(** ** What [request] leaves alone *)

Lemma same_insert_url (original params : gmap pystr pyval) (v : pyval) :
  same_but_url_cookies original params ->
  same_but_url_cookies original (<[py "url" := v]> params).
Proof. intros H k Hu Hc. rewrite lookup_insert_ne by congruence. now apply H. Qed.

Lemma same_insert_cookies (original params : gmap pystr pyval) (v : pyval) :
  same_but_url_cookies original params ->
  same_but_url_cookies original (<[py "cookies" := v]> params).
Proof. intros H k Hu Hc. rewrite lookup_insert_ne by congruence. now apply H. Qed.

Lemma set_cookie_same (original : gmap pystr pyval) (name value : pystr)
    (w : world (gmap pystr pyval)) :
  same_but_url_cookies original (store w) ->
  same_but_url_cookies original (store (set_cookie name value w).1).
Proof.
  intros H. unfold set_cookie.
  rewrite (bind_run _ _ w w (store w)) by reflexivity.
  destruct (store w !! py "cookies") as [[| | |d]|]; try exact H.
  now apply same_insert_cookies.
Qed.

Lemma bind_same {A B : Type} (original : gmap pystr pyval) (m : M (gmap pystr pyval) A)
    (k : A -> M (gmap pystr pyval) B) (w : world (gmap pystr pyval)) :
  same_but_url_cookies original (store (m w).1) ->
  (forall a w1, m w = (w1, Returned a) ->
     same_but_url_cookies original (store (k a w1).1)) ->
  same_but_url_cookies original (store ((m ≫= k) w).1).
Proof.
  intros Hm Hk. unfold mbind, M_bind.
  destruct (m w) as [w1 [a|e]] eqn:E; [now apply Hk | exact Hm].
Qed.

Lemma set_bing_cookies_same (original : gmap pystr pyval) (lang market : pystr)
    (w : world (gmap pystr pyval)) :
  same_but_url_cookies original (store w) ->
  same_but_url_cookies original (store (set_bing_cookies lang market w).1).
Proof.
  intros H. unfold set_bing_cookies.
  rewrite (bind_run _ _ w w (store w)) by reflexivity.
  apply bind_same.
  - destruct (decide (store w !! py "cookies" = None)); [|exact H].
    now apply same_insert_cookies.
  - intros [] w1 E1.
    assert (H1 : same_but_url_cookies original (store w1)).
    { destruct (decide (store w !! py "cookies" = None));
        unfold put_store, mret, M_ret in E1; injection E1 as <-;
        [now apply same_insert_cookies | exact H]. }
    apply bind_same; [now apply set_cookie_same|].
    intros [] w2 E2.
    assert (H2 : same_but_url_cookies original (store w2)).
    { pose proof (set_cookie_same original (py "_EDGE_CD")
                    (py "m=" ++ market ++ py "&u=" ++ lang) w1 H1) as H2.
      now rewrite E2 in H2. }
    apply bind_same; [now apply set_cookie_same|].
    intros [] w3 E3.
    pose proof (set_cookie_same original (py "_EDGE_S")
                  (py "mkt=" ++ market ++ py "&ui=" ++ lang) w2 H2) as H3.
    now rewrite E3 in H3.
Qed.

Lemma append_url_same (original : gmap pystr pyval) (suffix : pystr)
    (w : world (gmap pystr pyval)) :
  same_but_url_cookies original (store w) ->
  same_but_url_cookies original (store (append_url suffix w).1).
Proof.
  intros H. unfold append_url.
  rewrite (bind_run _ _ w w (store w)) by reflexivity.
  destruct (store w !! py "url") as [[| |url|]|]; try exact H.
  now apply same_insert_url.
Qed.

Lemma warning_same (original : gmap pystr pyval) (msg : pystr)
    (w : world (gmap pystr pyval)) :
  same_but_url_cookies original (store w) ->
  same_but_url_cookies original (store (Logger.warning msg w).1).
Proof.
  intros H. unfold Logger.warning.
  now destruct (percent_format (py "WARNING: " ++ msg)).
Qed.

Lemma time_range_step_same (original : gmap pystr pyval) (now : Z)
    (w : world (gmap pystr pyval)) :
  same_but_url_cookies original (store w) ->
  same_but_url_cookies original (store (time_range_step now w).1).
Proof.
  intros H. unfold time_range_step.
  rewrite (bind_run _ _ w w (store w)) by reflexivity.
  destruct (store w !! py "time_range") as [[|n|tr|d]|]; try exact H.
  - destruct (n =? 0); [exact H | now apply warning_same].
  - destruct (decide (tr = [])); [exact H|].
    destruct (time_ranges_map (now `quot` 86400) !! tr);
      [now apply append_url_same | now apply warning_same].
  - now destruct (decide (size d = 0%nat)).
Qed.

Lemma frame_of_raised (params : gmap pystr pyval)
    (w : world (gmap pystr pyval)) (e : exn) :
  same_but_url_cookies params (store w) ->
  frame_post params (w, Raised e).
Proof.
  intros H. unfold frame_post. cbn [fst snd].
  split; [|split; [|split]].
  - intros k Hu _ Hc. now apply H.
  - intros headers Hh. rewrite <- Hh. apply H; py_neq.
  - intros Hh. left. rewrite <- Hh. apply H; py_neq.
  - discriminate.
Qed.

Lemma frame_of_request (traits : EngineTraits) (now : Z) (query : pystr)
    (params : gmap pystr pyval) (out : list pystr) :
  frame_post params (request traits now query (World params out)).
Proof.
  assert (H0 : same_but_url_cookies params params) by (intros k _ _; reflexivity).
  unfold request.
  rewrite (bind_run _ _ _ (World params out) params) by reflexivity.
  set (locale := default (VStr (py "en-US")) (params !! py "searxng_locale")).
  unfold lift.
  destruct (get_region traits locale (all_locale traits)) as [market|e] eqn:Em.
  2: { rewrite (bind_raised _ _ _ (World params out) e) by reflexivity.
       now apply frame_of_raised. }
  rewrite (bind_run _ _ _ (World params out) market) by reflexivity.
  destruct (get_language traits locale market) as [lang|e] eqn:El.
  2: { rewrite (bind_raised _ _ _ (World params out) e) by reflexivity.
       now apply frame_of_raised. }
  rewrite (bind_run _ _ _ (World params out) lang) by reflexivity.
  pose proof (set_bing_cookies_same params lang market (World params out) H0) as H1.
  destruct (set_bing_cookies lang market (World params out)) as [w1 [[]|e]] eqn:E1;
    cbn [fst] in H1.
  2: { rewrite (bind_raised _ _ _ w1 e E1). now apply frame_of_raised. }
  rewrite (bind_run _ _ _ w1 tt E1).
  rewrite (bind_run _ _ w1 w1 (store w1)) by reflexivity.
  destruct (default (VInt 1) (store w1 !! py "pageno")) as [|page|s|d].
  1,3,4: rewrite (bind_raised _ _ _ w1 TypeError) by reflexivity;
         now apply frame_of_raised.
  rewrite (bind_run _ _ _ w1 page) by reflexivity.
  destruct (urlencode (query_params query page)) as [encoded|].
  2: now apply frame_of_raised.
  rewrite (bind_run _ _ w1 w1 (store w1)) by reflexivity.
  set (w2 := World (<[py "url" := VStr (base_url ++ py "?" ++ encoded)]> (store w1))
                   (stdout w1)).
  rewrite (bind_run _ _ w1 w2 tt) by reflexivity.
  assert (H2 : same_but_url_cookies params (store w2))
    by (now apply same_insert_url).
  pose proof (time_range_step_same params now w2 H2) as H3.
  destruct (time_range_step now w2) as [w3 [[]|e]] eqn:E3; cbn [fst] in H3.
  2: { rewrite (bind_raised _ _ _ w3 e E3). now apply frame_of_raised. }
  rewrite (bind_run _ _ _ w3 tt E3).
  rewrite (bind_run _ _ w3 w3 (store w3)) by reflexivity.
  assert (Hh3 : store w3 !! py "headers" = params !! py "headers")
    by (apply H3; py_neq).
  destruct (decide (store w3 !! py "headers" = None)) as [Hnone|Hsome].
  - rewrite (bind_run _ _ w3
               (World (<[py "headers" := VDict default_headers]> (store w3)) (stdout w3))
               tt) by reflexivity.
    unfold frame_post, get_store. cbn [fst snd store].
    split; [|split; [|split]].
    + intros k Hu Hh Hc. rewrite lookup_insert_ne by congruence. now apply H3.
    + intros headers Hh. congruence.
    + intros _. right. apply lookup_insert_eq.
    + intros returned [= <-]. split; [reflexivity|]. intros _. apply lookup_insert_eq.
  - rewrite (bind_run _ _ w3 w3 tt) by reflexivity.
    unfold frame_post, get_store. cbn [fst snd store].
    split; [|split; [|split]].
    + intros k Hu Hh Hc. now apply H3.
    + intros headers Hh. congruence.
    + intros Hh. congruence.
    + intros returned [= <-]. split; [reflexivity|]. intros Hh. congruence.
Qed.

(** C9. Whatever the run of [request] on [params] does (return or
    raise): a [headers] entry the caller supplied is still there,
    unchanged; when there was none, the store holds either none or the
    default headers, and it holds the default headers whenever [request]
    returns; every entry other than [url], [headers] and [cookies] is
    unchanged; and the dictionary returned is the store itself. *)
Theorem request_frame (traits : EngineTraits) (now : Z) (query : pystr)
    (params : gmap pystr pyval) (out : list pystr) :
  let r := request traits now query (World params out) in
  (forall headers, params !! py "headers" = Some headers ->
     store r.1 !! py "headers" = Some headers)
  /\ (params !! py "headers" = None ->
      (store r.1 !! py "headers" = None
       \/ store r.1 !! py "headers" = Some (VDict default_headers))
      /\ forall returned, r.2 = Returned returned ->
           returned !! py "headers" = Some (VDict default_headers))
  /\ (forall k, k <> py "url" -> k <> py "headers" -> k <> py "cookies" ->
        store r.1 !! k = params !! k)
  /\ (forall returned, r.2 = Returned returned -> returned = store r.1).
Proof.
  cbv zeta.
  destruct (frame_of_request traits now query params out) as (Hk & Hh & Hn & Hr).
  split; [exact Hh|]. split; [|split; [exact Hk|]].
  - intros Hnone. split; [now apply Hn|].
    intros returned Hret. destruct (Hr returned Hret) as [-> Hd]. now apply Hd.
  - intros returned Hret. now destruct (Hr returned Hret).
Qed.

Lemma request_frame_witness :
  let r := request sample_traits sample_now (py "rocq prover")
             (World sample_params_with_headers []) in
  sample_params_with_headers !! py "headers" = Some (VDict sample_headers)
  /\ store r.1 !! py "headers" = Some (VDict sample_headers)
  /\ store r.1 !! py "pageno" = Some (VInt 1).
Proof.
  cbv zeta.
  pose proof (request_frame sample_traits sample_now (py "rocq prover")
                sample_params_with_headers []) as H.
  cbv zeta in H. destruct H as (Hh & _ & Hk & _).
  split; [reflexivity|]. split.
  - apply Hh. reflexivity.
  - rewrite Hk; [reflexivity | | |]; intros E; vm_compute in E; discriminate E.
Defined.

(** ** The time range *)

Lemma time_ranges_map_other unix_day (tr : pystr) :
  tr <> py "day" -> tr <> py "week" -> tr <> py "month" -> tr <> py "year" ->
  time_ranges_map unix_day !! tr = None.
Proof.
  intros H1 H2 H3 H4. unfold time_ranges_map.
  rewrite !list_to_map_cons, list_to_map_nil. cbn [fst snd].
  rewrite !lookup_insert_ne by congruence. apply lookup_empty.
Qed.

(** The filter of each supported time range; [unix_day] is
    [floor(now / 86400)] as soon as the clock is not negative. *)
Lemma time_filter_supported now :
  0 <= now ->
  let unix_day := now / 86400 in
  time_filter now (py "day") = py "&filters=ex1:" ++ [34] ++ py "ez" ++ py "1" ++ [34]
  /\ time_filter now (py "week") = py "&filters=ex1:" ++ [34] ++ py "ez" ++ py "2" ++ [34]
  /\ time_filter now (py "month") = py "&filters=ex1:" ++ [34] ++ py "ez" ++ py "3" ++ [34]
  /\ time_filter now (py "year")
     = py "&filters=ex1:" ++ [34] ++ py "ez"
       ++ (py "5_" ++ str_int (unix_day - 365) ++ py "_" ++ str_int unix_day) ++ [34].
Proof.
  intros Hnow. cbv zeta. rewrite <- Z.quot_div_nonneg by lia.
  unfold time_filter, time_ranges_map.
  rewrite !list_to_map_cons, list_to_map_nil. cbn [fst snd].
  split; [|split; [|split]].
  - now rewrite lookup_insert_eq.
  - rewrite lookup_insert_ne by py_neq. now rewrite lookup_insert_eq.
  - rewrite !lookup_insert_ne by py_neq. now rewrite lookup_insert_eq.
  - rewrite !lookup_insert_ne by py_neq. now rewrite lookup_insert_eq.
Qed.

(** With a supported time range, [request] returns, appends the filter
    of that range to the URL, and prints nothing. *)
Lemma request_time_range_supported traits now query params out page encoded
    (tr : pystr) :
  typed_params params page ->
  urlencode (query_params query page) = Some encoded ->
  params !! py "time_range" = Some (VStr tr) ->
  tr = py "day" \/ tr = py "week" \/ tr = py "month" \/ tr = py "year" ->
  exists params',
    request traits now query (World params out) = (World params' out, Returned params')
    /\ params' !! py "url"
       = Some (VStr (base_url ++ py "?" ++ encoded ++ time_filter now tr))
    /\ time_filter now tr <> [].
Proof.
  intros Htyped Henc Htr Hsup.
  assert (Hcode : exists code, time_ranges_map (now `quot` 86400) !! tr = Some code).
  { unfold time_ranges_map. rewrite !list_to_map_cons, list_to_map_nil. cbn [fst snd].
    destruct Hsup as [-> | [-> | [-> | ->]]].
    - eexists. apply lookup_insert_eq.
    - eexists. rewrite lookup_insert_ne by py_neq. apply lookup_insert_eq.
    - eexists. rewrite !lookup_insert_ne by py_neq. apply lookup_insert_eq.
    - eexists. rewrite !lookup_insert_ne by py_neq. apply lookup_insert_eq. }
  destruct Hcode as [code Hcode].
  destruct (request_returns traits now query params out page encoded
              (time_filter now tr) [] Htyped Henc) as (params' & Hrun & Hurl).
  { rewrite Htr. now apply (tr_supported now tr code). }
  exists params'. rewrite app_nil_r in Hrun. split; [exact Hrun|]. split; [exact Hurl|].
  unfold time_filter. rewrite Hcode. discriminate.
Qed.

(** With any other time range whose text holds no [%], [request]
    returns, leaves the URL without a filter, and prints a warning. *)
Lemma request_time_range_unsupported traits now query params out page encoded
    (tr : pystr) :
  typed_params params page ->
  urlencode (query_params query page) = Some encoded ->
  params !! py "time_range" = Some (VStr tr) ->
  tr <> [] ->
  tr <> py "day" -> tr <> py "week" -> tr <> py "month" -> tr <> py "year" ->
  Forall (fun c => c <> 37) tr ->
  exists params',
    request traits now query (World params out)
    = (World params'
         (out ++ [py "WARNING: Unsupported time_range specified: " ++ tr]),
       Returned params')
    /\ params' !! py "url" = Some (VStr (base_url ++ py "?" ++ encoded)).
Proof.
  intros Htyped Henc Htr Hne H1 H2 H3 H4 Hplain.
  destruct (request_returns traits now query params out page encoded []
              [py "WARNING: Unsupported time_range specified: " ++ tr]
              Htyped Henc) as (params' & Hrun & Hurl).
  { rewrite Htr. apply tr_unsupported; [assumption | now apply time_ranges_map_other |].
    apply percent_format_plain.
    apply Forall_app. split; [|exact Hplain].
    apply (forallb_Forall (fun c => negb (c =? 37))); [|reflexivity].
    intros c. lia. }
  exists params'. split; [exact Hrun|]. now rewrite app_nil_r in Hurl.
Qed.

(** C7, on the input [time_range = "100%"]: the warning that [request]
    builds for an unsupported time range goes through the [%] operator
    of the logger, which raises on the lone [%]; nothing is printed. *)
Theorem request_time_range_percent_raises :
  let r := request sample_traits sample_now (py "news")
             (World (sample_params 1 (Some (py "100%"))) []) in
  r.2 = Raised FormatError /\ stdout r.1 = [].
Proof. vm_compute. split; reflexivity. Qed.

Lemma request_pagination_witness :
  exists params' url,
    request sample_traits sample_now (py "rocq prover")
      (World (sample_params 3 (Some (py "week"))) [])
    = (World params' ([] ++ []), Returned params')
    /\ params' !! py "url" = Some (VStr url)
    /\ (2 <= 3 ->
        url = base_url ++ py "?q=" ++ py "rocq+prover" ++ py "&pq=" ++ py "rocq+prover"
              ++ py "&first=" ++ str_int ((3 - 1) * 10 + 1)
              ++ py "&FORM=" ++ page_marker 3 ++ time_filter sample_now (py "week")
        /\ page_marker 3
           = (if 3 =? 2 then py "PERE" else py "PERE" ++ str_int (3 - 2))
        /\ url_params url !! py "first" = Some [str_int ((3 - 1) * 10 + 1)]
        /\ url_params url !! py "FORM" = Some [page_marker 3])
    /\ (3 <= 1 ->
        url = base_url ++ py "?q=" ++ py "rocq+prover" ++ py "&pq=" ++ py "rocq+prover"
              ++ time_filter sample_now (py "week")
        /\ url_params url !! py "first" = None
        /\ url_params url !! py "FORM" = None).
Proof.
  apply (request_pagination sample_traits sample_now (py "rocq prover")
           (py "rocq+prover") (sample_params 3 (Some (py "week"))) [] 3
           (time_filter sample_now (py "week")) []).
  - reflexivity.
  - split.
    + intros d E. vm_compute in E. discriminate E.
    + left. reflexivity.
    + left. reflexivity.
  - apply (tr_supported sample_now (py "week") (py "2")). reflexivity.
Defined.

(** ** The page check of [response] *)

Lemma warning_plain {St} (msg : pystr) (w : world St) :
  Forall (fun c => c <> 37) msg ->
  Logger.warning msg w
  = (World (store w) (stdout w ++ [py "WARNING: " ++ msg]), Returned tt).
Proof.
  intros H. apply warning_run. apply percent_format_plain.
  apply Forall_app. split; [|exact H].
  apply (forallb_Forall (fun c => negb (c =? 37))); [|reflexivity].
  intros c. lia.
Qed.

Lemma plain_literal (s : string) :
  forallb (fun c => negb (c =? 37)) (py s) = true -> Forall (fun c => c <> 37) (py s).
Proof. apply forallb_Forall. intros c. lia. Qed.

Lemma plain_int n : Forall (fun c => c <> 37) (str_int n).
Proof. apply decimal_not_percent, str_int_chars. Qed.

Lemma page_one_warning_plain p e s t : Forall (fun c => c <> 37) (page_one_warning p e s t).
Proof.
  unfold page_one_warning.
  repeat (apply Forall_app; split;
          [first [apply plain_int | now apply plain_literal]|]).
  now apply plain_literal.
Qed.

Lemma mismatch_warning_plain p e s : Forall (fun c => c <> 37) (mismatch_warning p e s).
Proof.
  unfold mismatch_warning.
  repeat (apply Forall_app; split;
          [first [apply plain_int | now apply plain_literal]|]).
  now apply plain_literal.
Qed.

(** C2, as stated, fails on the page [sample_short_page] requested as
    page 3: [response] returns, and what it returns is the empty list,
    which ends with no summary. *)
Lemma response_summary_counterexample :
  ~ (forall dom requested_pageno w' returned,
       response dom requested_pageno (World ∅ []) = (w', Returned returned) ->
       exists results n, returned = results ++ [NumberOfResults n]).
Proof.
  intros H.
  destruct (H sample_short_page 3
              (response sample_short_page 3 (World ∅ [])).1 [])
    as (results & n & E).
  - apply injective_projections; [reflexivity | vm_compute; reflexivity].
  - now destruct results.
Qed.

(** ** Base64 *)

Lemma forall_below (P : Z -> bool) (n : nat) :
  forallb P (Z.of_nat <$> seq 0 n) = true ->
  forall z, 0 <= z < Z.of_nat n -> P z = true.
Proof.
  intros H z Hz. rewrite forallb_forall in H. apply H.
  apply list_elem_of_In, list_elem_of_fmap. exists (Z.to_nat z).
  split; [lia|]. apply list_elem_of_In, in_seq. lia.
Qed.

Lemma b64_value_char v :
  0 <= v < 64 ->
  b64_value (urlsafe_translate (b64_char v)) = Some v
  /\ (urlsafe_translate (b64_char v) =? 61) = false.
Proof.
  intros Hv.
  pose proof (forall_below
                (fun v => bool_decide (b64_value (urlsafe_translate (b64_char v)) = Some v)
                          && negb (urlsafe_translate (b64_char v) =? 61)) 64 eq_refl v Hv) as H.
  apply andb_prop in H as [H1 H2]. apply bool_decide_eq_true_1 in H1.
  split; [exact H1 | now apply negb_true_iff].
Qed.

Lemma b64_char_ascii v : 0 <= v < 64 -> in_range 0 127 (b64_char v) = true.
Proof. intros Hv. exact (forall_below (fun v => in_range 0 127 (b64_char v)) 64 eq_refl v Hv). Qed.

(** One character of the alphabet, read by the loop. *)
Lemma a2b_loop_data st ch v rest :
  (ch =? 61) = false -> b64_value ch = Some v ->
  a2b_loop st (ch :: rest)
  = a2b_loop
      (if quad_pos st =? 0 then
         {| quad_pos := 1; leftchar := v; pads := 0; bin_data := bin_data st |}
       else if quad_pos st =? 1 then
         {| quad_pos := 2; leftchar := Z.land v 0x0f; pads := 0;
            bin_data := bin_data st ++
              [Z.lor (Z.shiftl (leftchar st) 2) (Z.shiftr v 4) mod 256] |}
       else if quad_pos st =? 2 then
         {| quad_pos := 3; leftchar := Z.land v 0x03; pads := 0;
            bin_data := bin_data st ++
              [Z.lor (Z.shiftl (leftchar st) 4) (Z.shiftr v 2) mod 256] |}
       else
         {| quad_pos := 0; leftchar := 0; pads := 0;
            bin_data := bin_data st ++
              [Z.lor (Z.shiftl (leftchar st) 6) v mod 256] |})
      rest.
Proof. intros H61 Hv. cbn [a2b_loop]. now rewrite H61, Hv. Qed.

Lemma forall_below3 (P : Z -> Z -> Z -> bool) (n1 n2 n3 : nat) :
  forallb (fun x => forallb (fun y => forallb (P x y) (Z.of_nat <$> seq 0 n3))
                            (Z.of_nat <$> seq 0 n2))
          (Z.of_nat <$> seq 0 n1) = true ->
  forall x y z, 0 <= x < Z.of_nat n1 -> 0 <= y < Z.of_nat n2 -> 0 <= z < Z.of_nat n3 ->
                P x y z = true.
Proof.
  intros H x y z Hx Hy Hz.
  pose proof (forall_below _ n1 H x Hx) as H1. cbv beta in H1.
  pose proof (forall_below _ n2 H1 y Hy) as H2. cbv beta in H2.
  exact (forall_below _ n3 H2 z Hz).
Qed.

(** The three bytes a quad of characters decodes to. *)
Lemma quad_bytes a b c :
  0 <= a < 256 -> 0 <= b < 256 -> 0 <= c < 256 ->
  Z.lor (Z.shiftl (a / 4) 2) (Z.shiftr (a mod 4 * 16 + b / 16) 4) mod 256 = a
  /\ Z.lor (Z.shiftl (Z.land (a mod 4 * 16 + b / 16) 15) 4)
           (Z.shiftr (b mod 16 * 4 + c / 64) 2) mod 256 = b
  /\ Z.lor (Z.shiftl (Z.land (b mod 16 * 4 + c / 64) 3) 6) (c mod 64) mod 256 = c.
Proof.
  intros Ha Hb Hc.
  assert (H1 : forall a1 a0 b1, 0 <= a1 < 64 -> 0 <= a0 < 4 -> 0 <= b1 < 16 ->
            Z.lor (Z.shiftl a1 2) (Z.shiftr (a0 * 16 + b1) 4) mod 256 = 4 * a1 + a0).
  { intros a1 a0 b1 H1 H0 H2. apply Z.eqb_eq.
    exact (forall_below3
             (fun a1 a0 b1 =>
                Z.lor (Z.shiftl a1 2) (Z.shiftr (a0 * 16 + b1) 4) mod 256 =? 4 * a1 + a0)
             64 4 16 eq_refl a1 a0 b1 H1 H0 H2). }
  assert (H2 : forall a0 b1 t, 0 <= a0 < 4 -> 0 <= b1 < 16 -> 0 <= t < 64 ->
            Z.lor (Z.shiftl (Z.land (a0 * 16 + b1) 15) 4) (Z.shiftr t 2) mod 256
            = 16 * b1 + t / 4).
  { intros a0 b1 t H0 H1' H2. apply Z.eqb_eq.
    exact (forall_below3
             (fun a0 b1 t =>
                Z.lor (Z.shiftl (Z.land (a0 * 16 + b1) 15) 4) (Z.shiftr t 2) mod 256
                =? 16 * b1 + t / 4)
             4 16 64 eq_refl a0 b1 t H0 H1' H2). }
  assert (H3 : forall t c0 (_ : Z), 0 <= t < 64 -> 0 <= c0 < 64 -> 0 <= 0 < 1 ->
            Z.lor (Z.shiftl (Z.land t 3) 6) c0 mod 256 = 64 * (t mod 4) + c0).
  { intros t c0 z H0 H1' H2'. apply Z.eqb_eq.
    exact (forall_below3
             (fun t c0 _ =>
                Z.lor (Z.shiftl (Z.land t 3) 6) c0 mod 256 =? 64 * (t mod 4) + c0)
             64 64 1 eq_refl t c0 0 H0 H1' H2'). }
  split; [|split].
  - rewrite H1 by zlia. zlia.
  - rewrite H2 by zlia. zlia.
  - rewrite (H3 _ _ 0) by zlia. zlia.
Qed.

Lemma list_ind3 {A} (P : list A -> Prop) :
  P [] -> (forall a, P [a]) -> (forall a b, P [a; b]) ->
  (forall a b c rest, P rest -> P (a :: b :: c :: rest)) ->
  forall l, P l.
Proof.
  intros H0 H1 H2 H3.
  fix IH 1. intros [|a [|b [|c rest]]]; [exact H0 | apply H1 | apply H2 |].
  apply H3, IH.
Qed.

Lemma sextets a b c :
  0 <= a < 256 -> 0 <= b < 256 -> 0 <= c < 256 ->
  0 <= a / 4 < 64 /\ 0 <= a mod 4 * 16 + b / 16 < 64
  /\ 0 <= b mod 16 * 4 + c / 64 < 64 /\ 0 <= c mod 64 < 64.
Proof. intros. repeat split; zlia. Qed.

(** The loop of [a2b_base64] reads an encoding back: it ends between
    two quads, with the encoded bytes after the ones it had. *)
Lemma a2b_loop_encode bs :
  Forall (fun b => 0 <= b < 256) bs ->
  forall l p out,
    let st := a2b_loop {| quad_pos := 0; leftchar := l; pads := p; bin_data := out |}
                       (urlsafe_translate <$> urlsafe_b64encode bs) in
    quad_pos st = 0 /\ bin_data st = out ++ bs.
Proof.
  induction bs as [|a|a b|a b c rest IH] using list_ind3; intros Hbs l p out; cbv zeta.
  - cbn. now rewrite app_nil_r.
  - apply Forall_cons in Hbs as [Ha _].
    destruct (sextets a 0 0 Ha) as (S1 & S2 & _); [lia | lia |].
    destruct (quad_bytes a 0 0 Ha) as (Q1 & _); [lia | lia |].
    replace (a mod 4 * 16 + 0 / 16) with (a mod 4 * 16) in * by zlia.
    destruct (b64_value_char _ S1) as [V1 E1]. destruct (b64_value_char _ S2) as [V2 E2].
    cbn [urlsafe_b64encode fmap list_fmap].
    rewrite (a2b_loop_data _ _ _ _ E1 V1). cbv beta iota delta [quad_pos leftchar pads bin_data Z.eqb Pos.eqb].
    rewrite (a2b_loop_data _ _ _ _ E2 V2). cbv beta iota delta [quad_pos leftchar pads bin_data Z.eqb Pos.eqb].
    rewrite Q1. cbn. split; reflexivity.
  - apply Forall_cons in Hbs as [Ha Hbs]. apply Forall_cons in Hbs as [Hb _].
    destruct (sextets a b 0 Ha Hb) as (S1 & S2 & S3 & _); [lia|].
    destruct (quad_bytes a b 0 Ha Hb) as (Q1 & Q2 & _); [lia|].
    replace (b mod 16 * 4 + 0 / 64) with (b mod 16 * 4) in * by zlia.
    destruct (b64_value_char _ S1) as [V1 E1]. destruct (b64_value_char _ S2) as [V2 E2].
    destruct (b64_value_char _ S3) as [V3 E3].
    cbn [urlsafe_b64encode fmap list_fmap].
    rewrite (a2b_loop_data _ _ _ _ E1 V1). cbv beta iota delta [quad_pos leftchar pads bin_data Z.eqb Pos.eqb].
    rewrite (a2b_loop_data _ _ _ _ E2 V2). cbv beta iota delta [quad_pos leftchar pads bin_data Z.eqb Pos.eqb].
    rewrite (a2b_loop_data _ _ _ _ E3 V3). cbv beta iota delta [quad_pos leftchar pads bin_data Z.eqb Pos.eqb].
    rewrite Q1, Q2. cbn. rewrite <- app_assoc. split; reflexivity.
  - apply Forall_cons in Hbs as [Ha Hbs]. apply Forall_cons in Hbs as [Hb Hbs].
    apply Forall_cons in Hbs as [Hc Hrest].
    destruct (sextets a b c Ha Hb Hc) as (S1 & S2 & S3 & S4).
    destruct (quad_bytes a b c Ha Hb Hc) as (Q1 & Q2 & Q3).
    destruct (b64_value_char _ S1) as [V1 E1]. destruct (b64_value_char _ S2) as [V2 E2].
    destruct (b64_value_char _ S3) as [V3 E3]. destruct (b64_value_char _ S4) as [V4 E4].
    cbn [urlsafe_b64encode app fmap list_fmap].
    rewrite (a2b_loop_data _ _ _ _ E1 V1). cbv beta iota delta [quad_pos leftchar pads bin_data Z.eqb Pos.eqb].
    rewrite (a2b_loop_data _ _ _ _ E2 V2). cbv beta iota delta [quad_pos leftchar pads bin_data Z.eqb Pos.eqb].
    rewrite (a2b_loop_data _ _ _ _ E3 V3). cbv beta iota delta [quad_pos leftchar pads bin_data Z.eqb Pos.eqb].
    rewrite (a2b_loop_data _ _ _ _ E4 V4). cbv beta iota delta [quad_pos leftchar pads bin_data Z.eqb Pos.eqb].
    rewrite Q1, Q2, Q3.
    destruct (IH Hrest 0 0 (((out ++ [a]) ++ [b]) ++ [c])) as [IH1 IH2].
    split; [exact IH1|]. etransitivity; [exact IH2|]. now rewrite <- !app_assoc.
Qed.

Lemma urlsafe_b64encode_ascii bs :
  Forall (fun b => 0 <= b < 256) bs ->
  forallb (fun c => in_range 0 127 c) (urlsafe_b64encode bs) = true.
Proof.
  induction bs as [|a|a b|a b c rest IH] using list_ind3; intros Hbs.
  - reflexivity.
  - apply Forall_cons in Hbs as [Ha _].
    cbn [urlsafe_b64encode forallb].
    rewrite !b64_char_ascii by zlia. reflexivity.
  - apply Forall_cons in Hbs as [Ha Hbs]. apply Forall_cons in Hbs as [Hb _].
    cbn [urlsafe_b64encode forallb].
    rewrite !b64_char_ascii by zlia. reflexivity.
  - apply Forall_cons in Hbs as [Ha Hbs]. apply Forall_cons in Hbs as [Hb Hbs].
    apply Forall_cons in Hbs as [Hc Hrest].
    cbn [urlsafe_b64encode app forallb].
    rewrite !b64_char_ascii by zlia. cbn [andb]. now apply IH.
Qed.

(** Decoding an encoding gives the bytes back. *)
Lemma urlsafe_b64decode_encode bs :
  Forall (fun b => 0 <= b < 256) bs ->
  urlsafe_b64decode (urlsafe_b64encode bs) = inr bs.
Proof.
  intros Hbs. unfold urlsafe_b64decode.
  rewrite urlsafe_b64encode_ascii by assumption.
  unfold a2b_base64.
  destruct (a2b_loop_encode bs Hbs 0 0 []) as [H1 H2]. cbv zeta in H1, H2.
  change (map urlsafe_translate (urlsafe_b64encode bs))
    with (urlsafe_translate <$> urlsafe_b64encode bs).
  now rewrite H1, H2.
Qed.

Lemma urlsafe_b64encode_length bs :
  (- Z.of_nat (length (urlsafe_b64encode bs))) mod 4 = 0.
Proof.
  induction bs as [|a|a b|a b c rest IH] using list_ind3; try reflexivity.
  cbn [urlsafe_b64encode app length].
  replace (- Z.of_nat (S (S (S (S (length (urlsafe_b64encode rest)))))))
    with (- Z.of_nat (length (urlsafe_b64encode rest)) + (-1) * 4) by lia.
  now rewrite Z.mod_add.
Qed.

Lemma b64_padding_encode bs : b64_padding (urlsafe_b64encode bs) = [].
Proof. unfold b64_padding. now rewrite urlsafe_b64encode_length. Qed.

(** ** UTF-8 *)

Ltac bool_cases :=
  repeat match goal with
         | |- context [?a =? ?b] => destruct (Z.eqb_spec a b); try zlia
         | |- context [?a <? ?b] => destruct (Z.ltb_spec a b); try zlia
         | |- context [?a <=? ?b] => destruct (Z.leb_spec a b); try zlia
         end.

(** The decoder reads the encoding of one character back. *)
Lemma utf8_step_encode c bs rest :
  utf8_encode_char c = Some bs ->
  match bs with
  | [] => False
  | b1 :: tl => utf8_step b1 (tl ++ rest) = Utf8Char c (length bs)
  end.
Proof.
  assert (H64 : c / 64 / 64 = c / 4096) by (rewrite Z.div_div by lia; reflexivity).
  assert (H4096 : c / 4096 / 64 = c / 262144) by (rewrite Z.div_div by lia; reflexivity).
  unfold utf8_encode_char.
  destruct (Z.ltb_spec c 0); [discriminate|].
  destruct (Z.ltb_spec c 128).
  { intros [= <-]. unfold utf8_step. bool_cases. reflexivity. }
  destruct (Z.ltb_spec c 2048).
  { intros [= <-]. cbn [app length]. unfold utf8_step, is_cont, in_range.
    bool_cases; cbn [andb negb]; f_equal; zlia. }
  destruct (Z.ltb_spec c 65536).
  { destruct (Z.leb_spec 55296 c), (Z.leb_spec c 57343); cbn [andb];
      try discriminate; intros [= <-]; cbn [app length];
      unfold utf8_step, is_cont, in_range, second_lo, second_hi;
      bool_cases; cbn [andb negb]; f_equal; zlia. }
  destruct (Z.ltb_spec c 1114112); [|discriminate].
  intros [= <-]. cbn [app length].
  unfold utf8_step, is_cont, in_range, second_lo, second_hi.
  bool_cases; cbn [andb negb]; f_equal; zlia.
Qed.

Lemma utf8_encode_char_length c bs :
  utf8_encode_char c = Some bs -> (1 <= length bs <= 4)%nat.
Proof.
  unfold utf8_encode_char.
  repeat match goal with
         | |- context [?a <? ?b] => destruct (Z.ltb_spec a b)
         | |- context [?a <=? ?b] => destruct (Z.leb_spec a b)
         end; cbn [andb]; try discriminate; intros [= <-]; cbn; lia.
Qed.

Lemma utf8_decode_at_encode_char c bs rest pos :
  utf8_encode_char c = Some bs ->
  utf8_decode_at false pos (bs ++ rest)
  = on_ok (cons c) (utf8_decode_at false (pos + Z.of_nat (length bs)) rest).
Proof.
  intros Henc.
  pose proof (utf8_step_encode c bs rest Henc) as Hstep.
  pose proof (utf8_encode_char_length c bs Henc) as Hlen.
  destruct bs as [|b1 [|b2 [|b3 [|b4 [|b5 tl]]]]]; cbn [length] in Hlen; try lia;
    cbn [app utf8_decode_at]; cbn [app] in Hstep; rewrite Hstep; reflexivity.
Qed.

(** Decoding an encoding gives the text back. *)
Lemma utf8_decode_encode d bs :
  utf8_encode d = Some bs -> utf8_decode bs = inr d.
Proof.
  unfold utf8_decode. generalize 0 as pos. revert bs.
  induction d as [|c d IH]; intros bs pos; cbn [utf8_encode].
  - now intros [= <-].
  - destruct (utf8_encode_char c) as [cs|] eqn:Ec; [|discriminate].
    destruct (utf8_encode d) as [ds|] eqn:Ed; [|discriminate].
    intros [= <-]. rewrite (utf8_decode_at_encode_char c cs ds pos Ec).
    now rewrite (IH ds _ eq_refl).
Qed.

(** ** The redirect decoder *)

Lemma startswith_nonempty prefix s :
  prefix <> [] -> startswith prefix s = true -> s <> [].
Proof. intros Hp H ->. destruct prefix; [congruence | discriminate]. Qed.

Lemma startswith_app prefix s : startswith prefix (prefix ++ s) = true.
Proof. induction prefix as [|c p IH]; [reflexivity|]. cbn. now rewrite Z.eqb_refl. Qed.

(** The characters of an encoding: none that [urlparse] or [parse_qs]
    would change. *)
Lemma b64_char_plain v :
  0 <= v < 64 ->
  (url_plain (b64_char v) = true /\ b64_char v <> 38)
  /\ (b64_char v <> 37 /\ b64_char v <> 43).
Proof.
  intros Hv.
  pose proof (forall_below
                (fun v => url_plain (b64_char v) && negb (b64_char v =? 38)
                          && negb (b64_char v =? 37) && negb (b64_char v =? 43))
                64 eq_refl v Hv) as H.
  cbv beta in H. unfold url_plain in *. lia.
Qed.

Lemma urlsafe_b64encode_plain bs :
  Forall (fun b => 0 <= b < 256) bs ->
  Forall (fun c => (url_plain c = true /\ c <> 38) /\ (c <> 37 /\ c <> 43))
         (urlsafe_b64encode bs).
Proof.
  assert (Hpad : (url_plain 61 = true /\ 61 <> 38) /\ (61 <> 37 /\ 61 <> 43))
    by (repeat split; lia).
  induction bs as [|a|a b|a b c rest IH] using list_ind3; intros Hbs.
  - constructor.
  - apply Forall_cons in Hbs as [Ha _]. cbn [urlsafe_b64encode].
    repeat (constructor; [first [exact Hpad | apply b64_char_plain; zlia]|]).
    constructor.
  - apply Forall_cons in Hbs as [Ha Hbs]. apply Forall_cons in Hbs as [Hb _].
    cbn [urlsafe_b64encode].
    repeat (constructor; [first [exact Hpad | apply b64_char_plain; zlia]|]).
    constructor.
  - apply Forall_cons in Hbs as [Ha Hbs]. apply Forall_cons in Hbs as [Hb Hbs].
    apply Forall_cons in Hbs as [Hc Hrest]. cbn [urlsafe_b64encode app].
    constructor; [apply b64_char_plain; zlia|].
    constructor; [apply b64_char_plain; zlia|].
    constructor; [apply b64_char_plain; zlia|].
    constructor; [apply b64_char_plain; zlia|]. now apply IH.
Qed.

(** The text that [response] decodes out of the value of [u]. *)
Lemma b64_decode_text_encode d bs :
  utf8_encode d = Some bs ->
  b64_decode_text (urlsafe_b64encode bs ++ b64_padding (urlsafe_b64encode bs)) = inr d.
Proof.
  intros Henc. rewrite b64_padding_encode, app_nil_r. unfold b64_decode_text.
  rewrite urlsafe_b64decode_encode by (eapply utf8_encode_bytes, Henc).
  now apply utf8_decode_encode.
Qed.

(** The query of the synthetic tracking URL holds the value of [u]. *)
Lemma synthetic_tracking_url bs :
  Forall (fun b => 0 <= b < 256) bs ->
  parse_qs (urlparse_query (tracking_prefix ++ py "u=a1" ++ urlsafe_b64encode bs))
    !! py "u"
  = Some [py "a1" ++ urlsafe_b64encode bs].
Proof.
  intros Hbs. pose proof (urlsafe_b64encode_plain bs Hbs) as Hplain.
  set (value := py "a1" ++ urlsafe_b64encode bs).
  assert (Hvalue : Forall (fun c => (url_plain c = true /\ c <> 38) /\ (c <> 37 /\ c <> 43))
                     value).
  { apply Forall_app. split; [|exact Hplain].
    apply (forallb_Forall (fun c => url_plain c && negb (c =? 38)
                                    && negb (c =? 37) && negb (c =? 43)));
      [|reflexivity].
    intros c. unfold url_plain. lia. }
  change (tracking_prefix ++ py "u=a1" ++ urlsafe_b64encode bs)
    with (py "https://www.bing.com/ck/a" ++ 63 :: (py "u" ++ py "=" ++ value)).
  rewrite urlparse_query_after.
  - rewrite parse_qs_lookup.
    change (py "u" ++ py "=" ++ value) with (join (py "&") [py "u" ++ py "=" ++ value]).
    rewrite parse_qsl_join.
    + cbn [flat_map]. rewrite app_nil_r. rewrite field_same; [reflexivity | reflexivity | |].
      * subst value. discriminate.
      * eapply Forall_impl; [exact Hvalue|]. now intros c [_ H].
    + discriminate.
    + constructor; [|constructor].
      apply Forall_app. split; [now constructor|].
      apply Forall_app. split; [now constructor|].
      eapply Forall_impl; [exact Hvalue|]. now intros c [[_ H] _].
  - now apply literal_path.
  - apply Forall_app. split; [now constructor|].
    apply Forall_app. split; [now constructor|].
    eapply Forall_impl; [exact Hvalue|]. now intros c [[H _] _].
Qed.

Lemma decode_redirect_value {St} (href : pystr) value rest d (w : world St) :
  startswith tracking_prefix href = true ->
  parse_qs (urlparse_query href) !! py "u" = Some (value :: rest) ->
  b64_decode_text (drop 2 value ++ b64_padding (drop 2 value)) = inr d ->
  decode_redirect (Some href) w = (w, Returned (Some d)).
Proof.
  intros Hprefix Hu Hdec. unfold decode_redirect.
  rewrite Hprefix.
  rewrite bool_decide_eq_false_2
    by (eapply startswith_nonempty; [|exact Hprefix]; discriminate).
  cbn [negb andb]. rewrite Hu. now rewrite Hdec.
Qed.

(** The padding [response] adds is the one the encoder had written. *)
Lemma b64_padding_quad c1 c2 c3 c4 s :
  b64_padding (c1 :: c2 :: c3 :: c4 :: s) = b64_padding s.
Proof.
  unfold b64_padding. cbn [length]. f_equal. f_equal.
  replace (- Z.of_nat (S (S (S (S (length s))))))
    with (- Z.of_nat (length s) + (-1) * 4) by lia.
  now rewrite Z.mod_add.
Qed.

Lemma b64_padding_restores bs :
  urlsafe_b64encode_unpadded bs ++ b64_padding (urlsafe_b64encode_unpadded bs)
  = urlsafe_b64encode bs.
Proof.
  induction bs as [|a|a b|a b c rest IH] using list_ind3; try reflexivity.
  cbn [urlsafe_b64encode_unpadded urlsafe_b64encode app].
  rewrite b64_padding_quad. now rewrite IH.
Qed.

(** The decoder also gives the destination back when the value of [u]
    comes without padding. *)
Lemma decode_redirect_unpadded {St} (w : world St) d bs (href : pystr) rest :
  utf8_encode d = Some bs ->
  startswith tracking_prefix href = true ->
  parse_qs (urlparse_query href) !! py "u"
  = Some ((py "a1" ++ urlsafe_b64encode_unpadded bs) :: rest) ->
  decode_redirect (Some href) w = (w, Returned (Some d)).
Proof.
  intros Henc Hprefix Hu.
  apply (decode_redirect_value href _ rest d w Hprefix Hu).
  change (drop 2 (py "a1" ++ urlsafe_b64encode_unpadded bs))
    with (urlsafe_b64encode_unpadded bs).
  rewrite b64_padding_restores.
  pose proof (b64_decode_text_encode d bs Henc) as H.
  now rewrite b64_padding_encode, app_nil_r in H.
Qed.

(** C5. The redirect decoder gives back the destination [d] from a
    tracking href whose parameter [u] is [a1] followed by the URL-safe
    base64 encoding of the UTF-8 bytes of [d] (first for any href that
    [parse_qs] reads so, then for the synthetic href made of the prefix
    and of that one parameter); and it gives back, unchanged, every href
    that does not start with the tracking prefix.  Nothing is printed. *)
Theorem decode_redirect_roundtrip {St} (w : world St) :
  (forall d bs href rest,
     utf8_encode d = Some bs ->
     startswith tracking_prefix href = true ->
     parse_qs (urlparse_query href) !! py "u"
     = Some ((py "a1" ++ urlsafe_b64encode bs) :: rest) ->
     decode_redirect (Some href) w = (w, Returned (Some d)))
  /\ (forall d bs,
        utf8_encode d = Some bs ->
        decode_redirect (Some (tracking_prefix ++ py "u=a1" ++ urlsafe_b64encode bs)) w
        = (w, Returned (Some d)))
  /\ (forall href,
        startswith tracking_prefix href = false ->
        decode_redirect (Some href) w = (w, Returned (Some href))).
Proof.
  assert (Hgeneral : forall d bs href rest,
     utf8_encode d = Some bs ->
     startswith tracking_prefix href = true ->
     parse_qs (urlparse_query href) !! py "u"
     = Some ((py "a1" ++ urlsafe_b64encode bs) :: rest) ->
     decode_redirect (Some href) w = (w, Returned (Some d))).
  { intros d bs href rest Henc Hprefix Hu.
    apply (decode_redirect_value href _ rest d w Hprefix Hu).
    change (drop 2 (py "a1" ++ urlsafe_b64encode bs)) with (urlsafe_b64encode bs).
    now apply b64_decode_text_encode. }
  split; [exact Hgeneral|]. split.
  - intros d bs Henc. apply (Hgeneral d bs _ [] Henc).
    + apply startswith_app.
    + apply synthetic_tracking_url. eapply utf8_encode_bytes, Henc.
  - intros href Hprefix. unfold decode_redirect. rewrite Hprefix.
    now rewrite andb_false_r.
Qed.

Lemma decode_redirect_roundtrip_witness :
  utf8_encode (py "https://example.com/x") = Some (py "https://example.com/x")
  /\ startswith tracking_prefix
       (py "https://www.bing.com/ck/a?!&&p=abc&u=a1aHR0cHM6Ly9leGFtcGxlLmNvbS94&ntb=1") = true
  /\ startswith tracking_prefix (py "https://example.com/x") = false
  /\ decode_redirect
       (Some (py "https://www.bing.com/ck/a?!&&p=abc&u=a1aHR0cHM6Ly9leGFtcGxlLmNvbS94&ntb=1"))
       (World tt [])
     = (World tt [], Returned (Some (py "https://example.com/x")))
  /\ decode_redirect (Some (py "https://www.bing.com/ck/a?u=a1aHR0cHM6Ly9leGFtcGxlLmNvbS94"))
       (World tt [])
     = (World tt [], Returned (Some (py "https://example.com/x")))
  /\ decode_redirect (Some (py "https://example.com/x")) (World tt [])
     = (World tt [], Returned (Some (py "https://example.com/x"))).
Proof.
  destruct (decode_redirect_roundtrip (World tt [])) as (H1 & H2 & H3).
  split; [reflexivity|]. split; [reflexivity|]. split; [reflexivity|]. split; [|split].
  - apply (H1 (py "https://example.com/x") (py "https://example.com/x") _ []);
      reflexivity.
  - apply (H2 (py "https://example.com/x") (py "https://example.com/x")). reflexivity.
  - apply H3. reflexivity.
Defined.

(** ** The fallback of the redirect decoder *)

Lemma error_run {St} msg line (w : world St) :
  percent_format (py "ERROR: " ++ msg) = Some line ->
  Logger.error msg w = (World (store w) (stdout w ++ [line]), Returned tt).
Proof. intros H. unfold Logger.error. now rewrite H. Qed.

Lemma a2b_loop_bytes ascii_data :
  forall st, Forall (fun b => 0 <= b < 256) (bin_data st) ->
             Forall (fun b => 0 <= b < 256) (bin_data (a2b_loop st ascii_data)).
Proof.
  induction ascii_data as [|ch rest IH]; intros st Hst; [exact Hst|].
  cbn [a2b_loop].
  destruct (ch =? 61).
  - destruct ((2 <=? quad_pos st) && (4 <=? quad_pos st + (pads st + 1)));
      [exact Hst | now apply IH].
  - destruct (b64_value ch) as [v|]; [|now apply IH].
    apply IH.
    destruct (quad_pos st =? 0); [exact Hst|].
    destruct (quad_pos st =? 1); [|destruct (quad_pos st =? 2)]; cbn [bin_data];
      (apply Forall_app; split; [exact Hst|]);
      (constructor; [apply Z.mod_pos_bound; lia | constructor]).
Qed.

Lemma urlsafe_b64decode_bytes s bs :
  urlsafe_b64decode s = inr bs -> Forall (fun b => 0 <= b < 256) bs.
Proof.
  unfold urlsafe_b64decode, a2b_base64.
  destruct (forallb _ s); [|discriminate].
  set (st := a2b_loop _ _).
  assert (Hst : Forall (fun b => 0 <= b < 256) (bin_data st))
    by (apply a2b_loop_bytes; constructor).
  destruct (quad_pos st =? 0); [|destruct (quad_pos st =? 1); discriminate].
  now intros [= <-].
Qed.

Lemma utf8_decode_at_error bs :
  Forall (fun b => 0 <= b < 256) bs ->
  forall pos e, utf8_decode_at false pos bs = inl e ->
                exists b start len reason,
                  e = UnicodeDecodeError b start len reason /\ 0 <= b < 256.
Proof.
  remember (length bs) as n eqn:Hn.
  assert (Hle : (length bs <= n)%nat) by lia. clear Hn.
  revert bs Hle. induction n as [|n IH]; intros bs Hle Hbs pos e.
  { destruct bs; [discriminate | cbn in Hle; lia]. }
  destruct bs as [|b1 r1]; [discriminate|]. cbn [length] in Hle.
  apply Forall_cons in Hbs as [Hb1 Hr1]. cbn [utf8_decode_at].
  assert (Hrec : forall k r, (length r <= n)%nat ->
                             Forall (fun b => 0 <= b < 256) r ->
                             forall e0 c, on_ok (cons c) (utf8_decode_at false k r) = inl e0 ->
                             exists b start len reason,
                               e0 = UnicodeDecodeError b start len reason /\ 0 <= b < 256).
  { intros k r Hlen Hr e0 c He.
    destruct (utf8_decode_at false k r) as [e1|s] eqn:E; [|discriminate].
    injection He as <-. exact (IH r Hlen Hr k e1 E). }
  destruct (utf8_step b1 r1) as [c n0|reason n0].
  - destruct n0 as [|[|[|[|[|n0]]]]]; try discriminate.
    + apply Hrec; [lia | assumption].
    + destruct r1 as [|b2 r2]; [discriminate|]. cbn [length] in Hle.
      apply Forall_cons in Hr1 as [_ Hr2]. apply Hrec; [lia | assumption].
    + destruct r1 as [|b2 [|b3 r3]]; try discriminate. cbn [length] in Hle.
      apply Forall_cons in Hr1 as [_ Hr2]. apply Forall_cons in Hr2 as [_ Hr3].
      apply Hrec; [lia | assumption].
    + destruct r1 as [|b2 [|b3 [|b4 r4]]]; try discriminate. cbn [length] in Hle.
      apply Forall_cons in Hr1 as [_ Hr2]. apply Forall_cons in Hr2 as [_ Hr3].
      apply Forall_cons in Hr3 as [_ Hr4].
      apply Hrec; [lia | assumption].
  - intros [= <-]. now exists b1, pos, n0, reason.
Qed.

(** No text of an exception of the decoding holds a [%]. *)
Lemma decode_error_text_plain s e :
  b64_decode_text s = inl e -> Forall (fun c => c <> 37) (decode_error_text e).
Proof.
  unfold b64_decode_text.
  destruct (urlsafe_b64decode s) as [e1|bs] eqn:Eb.
  - intros [= <-]. unfold urlsafe_b64decode, a2b_base64 in Eb.
    destruct (forallb _ s).
    + destruct (quad_pos _ =? 0); [discriminate|].
      destruct (quad_pos _ =? 1); injection Eb as <-.
      * cbn [decode_error_text].
        apply Forall_app; split; [now apply plain_literal|].
        apply Forall_app; split; [apply plain_int | now apply plain_literal].
      * now apply plain_literal.
    + injection Eb as <-. now apply plain_literal.
  - intros Hu. apply urlsafe_b64decode_bytes in Eb.
    destruct (utf8_decode_at_error bs Eb 0 e Hu) as (b & start & len & reason & -> & Hb).
    cbn [decode_error_text].
    apply Forall_app; split; [now apply plain_literal|].
    apply Forall_app; split.
    + destruct (decide (len = 1%nat)).
      * apply Forall_app; split; [now apply plain_literal|].
        apply Forall_app; split.
        -- unfold hex_lower.
           constructor; [destruct (Z.ltb_spec (b / 16) 10); zlia|].
           constructor; [destruct (Z.ltb_spec (b mod 16) 10); zlia | constructor].
        -- apply Forall_app; split; [now apply plain_literal | apply plain_int].
      * apply Forall_app; split; [now apply plain_literal|].
        apply Forall_app; split; [apply plain_int|].
        apply Forall_app; split; [now apply plain_literal | apply plain_int].
    + apply Forall_app; split; [now apply plain_literal|].
      destruct reason; now apply plain_literal.
Qed.

(** On a tracking href that holds no [%]: when [u] is missing or its
    payload cannot be decoded, the decoder prints one line and gives the
    href back. *)
Lemma decode_redirect_fallback {St} (href : pystr) (w : world St) :
  startswith tracking_prefix href = true ->
  Forall (fun c => c <> 37) href ->
  (parse_qs (urlparse_query href) !! py "u" = None
   \/ exists value rest e,
        parse_qs (urlparse_query href) !! py "u" = Some (value :: rest)
        /\ b64_decode_text (drop 2 value ++ b64_padding (drop 2 value)) = inl e) ->
  exists line,
    decode_redirect (Some href) w
    = (World (store w) (stdout w ++ [line]), Returned (Some href)).
Proof.
  intros Hprefix Hplain Hcase. unfold decode_redirect. rewrite Hprefix.
  rewrite bool_decide_eq_false_2
    by (eapply startswith_nonempty; [|exact Hprefix]; discriminate).
  cbn [negb andb].
  destruct Hcase as [Hnone | (value & rest & e & Hu & Hdec)].
  - rewrite Hnone. eexists. erewrite bind_run; [reflexivity|].
    apply warning_plain. apply Forall_app; split; [now apply plain_literal | exact Hplain].
  - rewrite Hu, Hdec. eexists. erewrite bind_run; [reflexivity|].
    apply error_run. apply percent_format_plain.
    apply Forall_app; split; [now apply plain_literal|].
    apply Forall_app; split; [now apply plain_literal|].
    apply Forall_app; split; [eapply decode_error_text_plain, Hdec|].
    apply Forall_app; split; [now apply plain_literal | exact Hplain].
Qed.

(** C6, on hrefs that hold a [%]: with no parameter [u], and with a
    payload that is not UTF-8, the line the decoder hands to the logger
    goes through the [%] operator, which raises; the exception leaves
    [response], and no item is returned. *)
Theorem decode_redirect_percent_raises :
  decode_redirect (Some (py "https://www.bing.com/ck/a?q=50%25+off")) (World tt [])
  = (World tt [], Raised FormatError)
  /\ decode_redirect (Some (py "https://www.bing.com/ck/a?p=caf%C3%A9&u=a1_w")) (World tt [])
     = (World tt [], Raised FormatError)
  /\ (response
        (sample_page "1-10 of 15 results"%string
           [sample_block (Some "https://www.bing.com/ck/a?q=50%25+off"%string)])
        1 (World ∅ [])).2
     = Raised FormatError.
Proof. vm_compute. repeat split. Qed.

(** ** One result block *)

Lemma remove_icon_returns (icon : xitem) (w : world (gset (list nat))) :
  exists detached, remove_icon icon w = (World detached (stdout w), Returned tt).
Proof.
  destruct w as [detached out]. destruct icon as [p|s]; [|now exists detached].
  unfold remove_icon.
  rewrite (bind_run _ _ _ (World detached out) detached) by reflexivity.
  destruct (getparent detached p); eexists; reflexivity.
Qed.

Lemma for_each_returns {A : Type} (body : A -> M (gset (list nat)) unit)
    (xs : list A) :
  (forall x w, exists detached, body x w = (World detached (stdout w), Returned tt)) ->
  forall w, exists detached,
      for_each xs body w = (World detached (stdout w), Returned tt).
Proof.
  intros Hbody. induction xs as [|x xs IH]; intros w; cbn [for_each].
  - exists (store w). now destruct w.
  - destruct (Hbody x w) as [d1 E1]. rewrite (bind_run _ _ _ _ _ E1).
    destruct (IH (World d1 (stdout w))) as [d2 E2]. exists d2. exact E2.
Qed.

Lemma remove_icons_returns (dom : node) (paragraphs : list xitem)
    (w : world (gset (list nat))) :
  exists detached,
    remove_icons dom paragraphs w = (World detached (stdout w), Returned tt).
Proof.
  unfold remove_icons. apply for_each_returns. clear w. intros [p|s] w.
  - rewrite (bind_run _ _ w w (store w)) by reflexivity.
    apply for_each_returns. apply remove_icon_returns.
  - exists (store w). now destruct w.
Qed.

(** C10. For a result block, in any state of the document: when the
    first heading link of the block has no [href], [response_item] raises
    nothing, prints nothing, and gives an item whose [url] is [None]
    (with the title of the link and the text of the paragraphs); when the
    block has no heading link, it gives no item and changes nothing; and
    it gives no item in that case only. *)
Theorem response_item_without_href (dom : node) (block : list nat)
    (w : world (gset (list nat))) :
  let heading := eval_xpath_getindex dom (store w) (Some block) XHeadingLinks 0 in
  (forall link_element,
     heading = Some link_element -> link_href dom link_element = None ->
     exists detached,
       response_item dom (XElem block) w
       = (World detached (stdout w),
          Returned (Some (Item None
                            (extract_text dom (store w) [link_element])
                            (extract_text dom detached
                               (eval_xpath dom (store w) (Some block) XParagraphs))))))
  /\ (heading = None -> response_item dom (XElem block) w = (w, Returned None))
  /\ (forall w', response_item dom (XElem block) w = (w', Returned None) ->
                 heading = None).
Proof.
  cbv zeta. unfold response_item.
  rewrite (bind_run _ _ w w (store w)) by reflexivity. cbv zeta.
  destruct (eval_xpath_getindex dom (store w) (Some block) XHeadingLinks 0)
    as [link_element|] eqn:Elink.
  - destruct (remove_icons_returns dom
                (eval_xpath dom (store w) (Some block) XParagraphs) w) as [detached Erm].
    rewrite (bind_run _ _ _ _ _ Erm).
    rewrite (bind_run _ _ _ (World detached (stdout w)) detached) by reflexivity.
    split; [|split].
    + intros l [= <-] Hhref. exists detached. rewrite Hhref.
      unfold decode_redirect. now rewrite (bind_run _ _ _ (World detached (stdout w)) None).
    + discriminate.
    + intros w' H. exfalso.
      unfold mbind, M_bind in H.
      destruct (decode_redirect (link_href dom link_element) (World detached (stdout w)))
        as [w2 [url|e]]; discriminate H.
  - split; [discriminate|]. split; [|reflexivity].
    unfold Logger.debug. now rewrite (bind_run _ _ w w tt).
Qed.

Lemma response_item_without_href_witness :
  let dom := sample_page "1-10 of 15 results"%string [sample_block None] in
  eval_xpath_getindex dom ∅ (Some [0; 1; 0]%nat) XHeadingLinks 0
  = Some (XElem [0; 1; 0; 0; 0]%nat)
  /\ link_href dom (XElem [0; 1; 0; 0; 0]%nat) = None
  /\ (exists detached,
        response_item dom (XElem [0; 1; 0]%nat) (World ∅ [])
        = (World detached [],
           Returned (Some (Item None
                             (extract_text dom ∅ [XElem [0; 1; 0; 0; 0]%nat])
                             (extract_text dom detached
                                (eval_xpath dom ∅ (Some [0; 1; 0]%nat) XParagraphs))))))
  /\ (response dom 1 (World ∅ [])).2
     = Returned [Item None (py "Example") []; NumberOfResults 15].
Proof.
  cbv zeta. split; [reflexivity|]. split; [reflexivity|]. split.
  - refine (proj1 (response_item_without_href
                     (sample_page "1-10 of 15 results"%string [sample_block None])
                     [0; 1; 0]%nat (World ∅ []))
              (XElem [0; 1; 0; 0; 0]%nat) _ _); reflexivity.
  - vm_compute. reflexivity.
Defined.

(** ** Detaching the icons *)

Lemma node_children_ind (P : node -> Prop) :
  (forall tag attrib text children tail,
      Forall P children -> P (Element tag attrib text children tail)) ->
  (forall text tail, P (Comment text tail)) ->
  forall n, P n.
Proof.
  intros HE HC. fix IH 1. intros [tag attrib text children tail|text tail].
  - apply HE. induction children as [|c cs IHcs]; constructor; [apply IH | exact IHcs].
  - apply HC.
Qed.

Lemma walk_eq (detached : detached_t) (parent : option node) (depth : nat)
    (p : path) (n : node) :
  walk detached parent depth p n
  = Visit p n parent depth :: walk_children detached n depth p 0 (children_of n).
Proof.
  destruct n as [tag attrib text children tail|text tail]; [|reflexivity].
  cbn [walk children_of]. f_equal.
  generalize (Element tag attrib text children tail) at 1 2. intros n0.
  generalize 0%nat. induction children as [|c cs IH]; intros i; [reflexivity|].
  cbn [walk_children]. now rewrite <- IH.
Qed.

Lemma walk_children_icons (n0 : node) (cs : list node) :
  Forall icons_detached cs ->
  forall (d d' : detached_t) (depth : nat) (p : path) (i : nat),
    d ⊆ d' ->
    (forall v, v ∈ walk_children d n0 depth p i cs ->
               icon_visit v = true -> v_path v <> [] -> v_path v ∈ d') ->
    forall v, v ∈ walk_children d' n0 depth p i cs -> icon_visit v = false.
Proof.
  induction 1 as [|c cs Hc _ IH]; intros d d' depth p i Hsub Hin v Hv.
  - cbn [walk_children] in Hv. now apply elem_of_nil in Hv.
  - cbn [walk_children] in Hv, Hin. apply elem_of_app in Hv as [Hv|Hv].
    + destruct (decide (p ++ [i] ∈ d')) as [Hd'|Hd'];
        [now apply elem_of_nil in Hv|].
      assert (Hd : p ++ [i] ∉ d) by (intros Hd; apply Hd', Hsub, Hd).
      apply (Hc d d' (Some n0) depth (p ++ [i]) Hsub Hd'); [now destruct p| |exact Hv].
      intros v' Hv'. apply Hin, elem_of_app. left.
      now destruct (decide (p ++ [i] ∈ d)).
    + apply (IH d d' depth p (S i) Hsub); [|exact Hv].
      intros v' Hv'. apply Hin, elem_of_app. now right.
Qed.

Lemma walk_icons (n : node) : icons_detached n.
Proof.
  induction n as [tag attrib text children tail IH|text tail] using node_children_ind;
    intros d d' parent depth p Hsub Hp Hne Hin v Hv;
    rewrite walk_eq in Hv; apply elem_of_cons in Hv as [->|Hv].
  - destruct (icon_visit _) eqn:E; [|reflexivity].
    exfalso. apply Hp. apply (Hin _ ltac:(rewrite walk_eq; left) E Hne).
  - apply (walk_children_icons (Element tag attrib text children tail) children
             IH d d' (S depth) p 0%nat Hsub); [|exact Hv].
    intros v' Hv'. apply Hin. rewrite walk_eq. now right.
  - destruct (icon_visit _) eqn:E; [|reflexivity].
    exfalso. apply Hp. apply (Hin _ ltac:(rewrite walk_eq; left) E Hne).
  - cbn [children_of walk_children] in Hv. now apply elem_of_nil in Hv.
Qed.

Lemma xpath_eval_icons (dom : node) (d : detached_t) (p : path) :
  xpath_eval dom d p XIcons
  = XElem <$> (v_path <$>
      List.filter icon_visit
        (match node_at dom p with
         | Some n => walk_children d n 0 p 0 (children_of n)
         | None => []
         end)).
Proof.
  unfold xpath_eval. destruct (node_at dom p) as [n|]; [|reflexivity].
  rewrite walk_eq. cbn [List.filter]. unfold icon_visit at 1. cbn [v_depth].
  now rewrite andb_false_r.
Qed.

Lemma xpath_icons_detached (dom : node) (d d' : detached_t) (p : path) :
  d ⊆ d' ->
  (forall q, XElem q ∈ xpath_eval dom d p XIcons -> q <> [] -> q ∈ d') ->
  xpath_eval dom d' p XIcons = [].
Proof.
  intros Hsub Hin. rewrite xpath_eval_icons. rewrite xpath_eval_icons in Hin.
  destruct (node_at dom p) as [n|]; [|reflexivity].
  assert (Hnone : forall v, v ∈ walk_children d' n 0 p 0 (children_of n) ->
                            icon_visit v = false).
  { apply (walk_children_icons n (children_of n)
             ltac:(apply Forall_forall; intros c _; apply walk_icons)
             d d' 0%nat p 0%nat Hsub).
    intros v Hv E Hne. apply Hin; [|exact Hne].
      apply list_elem_of_fmap_2, list_elem_of_fmap_2.
      apply list_elem_of_In, filter_In. split; [now apply list_elem_of_In | exact E]. }
  replace (List.filter icon_visit (walk_children d' n 0 p 0 (children_of n)))
    with (@nil visit); [reflexivity|].
  symmetry. induction (walk_children d' n 0 p 0 (children_of n)) as [|v vs IH];
    [reflexivity|].
  cbn [List.filter]. rewrite (Hnone v) by left. apply IH.
  intros v' Hv'. apply Hnone. now right.
Qed.

Lemma for_each_remove_icon (icons : list xitem) (d : detached_t) (out : list pystr) :
  exists d', for_each icons remove_icon (World d out) = (World d' out, Returned tt)
             /\ d ⊆ d'
             /\ forall q, XElem q ∈ icons -> q <> [] -> q ∈ d'.
Proof.
  revert d. induction icons as [|icon icons IH]; intros d.
  - exists d. split; [reflexivity|]. split; [reflexivity|].
    intros q Hq. now apply elem_of_nil in Hq.
  - cbn [for_each].
    assert (Hstep : exists d1, remove_icon icon (World d out) = (World d1 out, Returned tt)
                               /\ d ⊆ d1
                               /\ forall q, icon = XElem q -> q <> [] -> q ∈ d1).
    { destruct icon as [q|s].
      - unfold remove_icon.
        rewrite (bind_run _ _ _ (World d out) d) by reflexivity.
        unfold getparent. destruct (decide (q = [])) as [->|Hq].
        + exists d. split; [reflexivity|]. split; [reflexivity|]. now intros q [= <-].
        + destruct (decide (q ∈ d)) as [Hd|Hd].
          * exists d. split; [reflexivity|]. split; [reflexivity|]. now intros q' [= <-].
          * exists ({[q]} ∪ d). split; [reflexivity|]. split; [set_solver|].
            intros q' [= <-] _. set_solver.
      - exists d. split; [reflexivity|]. split; [reflexivity|]. discriminate. }
    destruct Hstep as (d1 & E1 & Hsub1 & Hin1).
    rewrite (bind_run _ _ _ _ _ E1).
    destruct (IH d1) as (d' & E & Hsub & Hin).
    exists d'. split; [exact E|]. split; [set_solver|].
    intros q Hq Hne. apply elem_of_cons in Hq as [<-|Hq].
    + apply Hsub. now apply Hin1.
    + now apply Hin.
Qed.

(** The cleaning leaves no icon below any of the paragraphs. *)
Lemma remove_icons_clears (dom : node) (paragraphs : list xitem)
    (d : detached_t) (out : list pystr) :
  exists d', remove_icons dom paragraphs (World d out) = (World d' out, Returned tt)
             /\ d ⊆ d'
             /\ forall p, XElem p ∈ paragraphs -> xpath_eval dom d' p XIcons = [].
Proof.
  unfold remove_icons. revert d.
  induction paragraphs as [|p_elem paragraphs IH]; intros d.
  - exists d. split; [reflexivity|]. split; [reflexivity|].
    intros p Hp. now apply elem_of_nil in Hp.
  - cbn [for_each]. destruct p_elem as [p|s].
    + destruct (for_each_remove_icon (xpath_eval dom d p XIcons) d out)
        as (d1 & E1 & Hsub1 & Hin1).
      rewrite (bind_run _ _ _ (World d1 out) tt); cycle 1.
      { rewrite (bind_run _ _ _ (World d out) d) by reflexivity. exact E1. }
      destruct (IH d1) as (d' & E & Hsub & Hin).
      exists d'. split; [exact E|]. split; [set_solver|].
      intros p' Hp'. apply elem_of_cons in Hp' as [[= ->]|Hp'].
      * apply (xpath_icons_detached dom d d'); [set_solver|].
        intros q Hq Hne. apply Hsub. now apply Hin1.
      * now apply Hin.
    + rewrite (bind_run _ _ _ (World d out) tt) by reflexivity.
      destruct (IH d) as (d' & E & Hsub & Hin).
      exists d'. split; [exact E|]. split; [exact Hsub|].
      intros p' Hp'. apply elem_of_cons in Hp' as [[=]|Hp']. now apply Hin.
Qed.

(** C8, on the block of [sample_short_page], whose paragraph is
    [<p><span class="algoSlug_icon">Web</span>Some real text</p>]:
    [parent.remove(icon)] takes the tail of the icon with it, so the
    text of the paragraph is all gone and the item holds an empty
    [content], where [Some real text] is expected.  (That no icon is
    left below the paragraphs is [remove_icons_clears].) *)
Theorem response_snippet_loses_tail :
  text_content ∅ [0; 1; 0; 1]%nat
    (elt "p" [] ""
       [elt "span" [("class", "algoSlug_icon")] "Web" [] "Some real text"] "")%string
  = py "WebSome real text"
  /\ response sample_short_page 1 (World ∅ [])
     = (World {[ [0; 1; 0; 1; 0]%nat ]} [],
        Returned [Item (Some (py "https://example.com/x")) (py "Example") [];
                  NumberOfResults 15]).
Proof. vm_compute. split; reflexivity. Qed.

(** ** Unquoting what [quote_plus] wrote *)

Lemma utf8_decode_at_encode_char_any replace c bs rest pos :
  utf8_encode_char c = Some bs ->
  utf8_decode_at replace pos (bs ++ rest)
  = on_ok (cons c) (utf8_decode_at replace (pos + Z.of_nat (length bs)) rest).
Proof.
  intros Henc.
  pose proof (utf8_step_encode c bs rest Henc) as Hstep.
  pose proof (utf8_encode_char_length c bs Henc) as Hlen.
  destruct bs as [|b1 [|b2 [|b3 [|b4 [|b5 tl]]]]]; cbn [length] in Hlen; try lia;
    cbn [app utf8_decode_at]; cbn [app] in Hstep; rewrite Hstep; reflexivity.
Qed.

Lemma utf8_decode_replace_encode d bs :
  utf8_encode d = Some bs -> utf8_decode_replace bs = d.
Proof.
  unfold utf8_decode_replace.
  assert (H : forall pos, utf8_encode d = Some bs -> utf8_decode_at true pos bs = inr d).
  { revert bs. induction d as [|c d IH]; intros bs pos; cbn [utf8_encode].
    - now intros [= <-].
    - destruct (utf8_encode_char c) as [cs|] eqn:Ec; [|discriminate].
      destruct (utf8_encode d) as [ds|] eqn:Ed; [|discriminate].
      intros [= <-]. rewrite (utf8_decode_at_encode_char_any true c cs ds pos Ec).
      now rewrite (IH ds _ eq_refl). }
  intros Henc. now rewrite (H 0 Henc).
Qed.

Lemma unquote_to_bytes_plain c s :
  c <> 37 -> unquote_to_bytes (c :: s) = c :: unquote_to_bytes s.
Proof.
  intros Hc. cbn [unquote_to_bytes].
  destruct s as [|h1 [|h2 s']]; try reflexivity.
  destruct (hex_value h1), (hex_value h2); try reflexivity.
  destruct (Z.eqb_spec c 37); [contradiction | reflexivity].
Qed.

Lemma hex_value_digit n : 0 <= n < 16 -> hex_value (hex_digit n) = Some n.
Proof.
  intros Hn.
  pose proof (forall_below (fun n => match hex_value (hex_digit n) with
                                     | Some v => v =? n
                                     | None => false
                                     end) 16 eq_refl n Hn) as H.
  cbv beta in H. destruct (hex_value (hex_digit n)); [|discriminate].
  f_equal. lia.
Qed.

Lemma always_safe_plain c : always_safe c = true -> c <> 43 /\ c <> 37.
Proof. unfold always_safe, is_alnum. lia. Qed.

Lemma unquote_to_bytes_quoted bs :
  Forall (fun b => 0 <= b < 256) bs ->
  unquote_to_bytes (plus_to_space (flat_map quote_byte bs)) = bs.
Proof.
  unfold plus_to_space.
  induction 1 as [|b bs Hb _ IH]; [reflexivity|].
  cbn [flat_map]. rewrite map_app. unfold quote_byte at 1.
  destruct (always_safe b) eqn:Es.
  - cbn [map app]. pose proof (always_safe_plain b Es) as Hne.
    destruct (Z.eqb_spec b 43); [now destruct Hne|].
    rewrite unquote_to_bytes_plain by apply Hne. now rewrite IH.
  - destruct (Z.eqb_spec b 32) as [->|Hsp].
    + cbn [map app]. rewrite unquote_to_bytes_plain by discriminate. now rewrite IH.
    + cbn [map app].
      assert (H1 : 0 <= b / 16 < 16) by zlia.
      assert (H2 : 0 <= b mod 16 < 16) by zlia.
      pose proof (hex_digit_safe _ H1) as Hs1. pose proof (hex_digit_safe _ H2) as Hs2.
      assert (Hp1 : (hex_digit (b / 16) =? 43) = false)
        by (apply always_safe_plain in Hs1; lia).
      assert (Hp2 : (hex_digit (b mod 16) =? 43) = false)
        by (apply always_safe_plain in Hs2; lia).
      rewrite Hp1, Hp2. cbn [unquote_to_bytes].
      rewrite (hex_value_digit _ H1), (hex_value_digit _ H2).
      change (37 =? 37) with true. cbv iota. rewrite IH. f_equal. zlia.
Qed.

Lemma unquote_runs_ascii s :
  Forall (fun c => 0 <= c < 128) s ->
  forall run, unquote_runs run s = utf8_decode_replace (unquote_to_bytes (run ++ s)).
Proof.
  induction 1 as [|c s Hc _ IH]; intros run; cbn [unquote_runs].
  - now rewrite app_nil_r.
  - unfold in_range. destruct (Z.leb_spec 0 c); [|lia].
    destruct (Z.leb_spec c 127); [|lia]. cbn [andb].
    rewrite IH. now rewrite <- app_assoc.
Qed.

Lemma unquote_to_bytes_id s : Forall (fun c => c <> 37) s -> unquote_to_bytes s = s.
Proof.
  induction 1 as [|c s Hc _ IH]; [reflexivity|].
  rewrite unquote_to_bytes_plain by assumption. now rewrite IH.
Qed.

(** [unquote] gives back the text that [quote_plus] was given. *)
Lemma unquote_quote_plus query quoted :
  quote_plus query = Some quoted -> unquote (plus_to_space quoted) = query.
Proof.
  intros Hq. pose proof (quote_plus_chars _ _ Hq) as Hchars.
  unfold quote_plus in Hq. destruct (utf8_encode query) as [bs|] eqn:Henc; [|discriminate].
  injection Hq as <-.
  pose proof (utf8_encode_bytes _ _ Henc) as Hbs.
  pose proof (unquote_to_bytes_quoted bs Hbs) as Hbytes.
  pose proof (utf8_decode_replace_encode _ _ Henc) as Hdec.
  assert (Hascii : Forall (fun c => 0 <= c < 128)
                     (plus_to_space (flat_map quote_byte bs))).
  { unfold plus_to_space. apply Forall_map.
    eapply Forall_impl; [exact Hchars|]. intros c Hc. cbv beta.
    destruct (Z.eqb_spec c 43); [lia|].
    unfold quoted_char, always_safe, is_alnum in Hc. lia. }
  unfold unquote.
  destruct (decide (37 ∈ plus_to_space (flat_map quote_byte bs))) as [Hin|Hnot].
  - rewrite (unquote_runs_ascii _ Hascii []). cbn [app]. now rewrite Hbytes.
  - assert (Hid : unquote_to_bytes (plus_to_space (flat_map quote_byte bs))
                  = plus_to_space (flat_map quote_byte bs)).
    { apply unquote_to_bytes_id. apply Forall_forall. intros c Hc ->. now apply Hnot. }
    rewrite Hbytes in Hid. rewrite <- Hid. rewrite <- Hid in Hascii.
    assert (Hsame : utf8_encode bs = Some bs) by now apply utf8_encode_ascii.
    apply utf8_decode_replace_encode in Hsame. congruence.
Qed.

Lemma quote_plus_empty query quoted :
  quote_plus query = Some quoted -> (quoted = [] <-> query = []).
Proof.
  intros Hq. split.
  - intros ->. apply unquote_quote_plus in Hq. now cbn in Hq.
  - intros ->. cbn in Hq. now injection Hq as <-.
Qed.

(** ** Reading the URL of the request back *)

(** The field a time range adds to the query, for the other names. *)
Lemma time_range_field now v filter lines :
  time_range_accepted now v filter lines ->
  exists extra,
    (forall fields, fields <> [] ->
       join (py "&") fields ++ filter = join (py "&") (fields ++ extra))
    /\ Forall (Forall (fun c => url_plain c = true /\ c <> 38)) extra
    /\ (forall k, k <> py "filters" ->
          values_of k (flat_map parse_name_value extra) = [])
    /\ values_of (py "filters") (flat_map parse_name_value extra)
       = match filter with [] => [] | _ => [drop 9 filter] end.
Proof.
  assert (Hnone : exists extra : list pystr,
    (forall fields, fields <> [] ->
       join (py "&") fields ++ [] = join (py "&") (fields ++ extra))
    /\ Forall (Forall (fun c => url_plain c = true /\ c <> 38)) extra
    /\ (forall k, k <> py "filters" ->
          values_of k (flat_map parse_name_value extra) = [])
    /\ values_of (py "filters") (flat_map parse_name_value extra) = []).
  { exists []. repeat split; try constructor.
    intros fields _. now rewrite !app_nil_r. }
  intros [ | | | tr code Hcode | tr line Hne Hcode Hline]; try exact Hnone.
  unfold time_filter. rewrite Hcode.
  set (value := py "ex1:" ++ [34] ++ py "ez" ++ code ++ [34]).
  assert (Hcodechars : Forall (fun c => (url_plain c = true /\ c <> 38)
                                        /\ (c <> 37 /\ c <> 43)) code).
  { eapply Forall_impl; [eapply time_code_chars, Hcode|].
    intros c Hc. split; [now apply decimal_field|]. unfold decimal_char in Hc. lia. }
  assert (Hvalue : Forall (fun c => (url_plain c = true /\ c <> 38)
                                    /\ (c <> 37 /\ c <> 43)) value).
  { assert (Hlit : forall s : string,
              forallb (fun c => url_plain c && negb (c =? 38)
                                && negb (c =? 37) && negb (c =? 43)) (py s) = true ->
              Forall (fun c => (url_plain c = true /\ c <> 38)
                               /\ (c <> 37 /\ c <> 43)) (py s)).
    { intros s. apply forallb_Forall. intros c. unfold url_plain. lia. }
    assert (Hquote : Forall (fun c => (url_plain c = true /\ c <> 38)
                                      /\ (c <> 37 /\ c <> 43)) [34])
      by (constructor; [repeat split; lia | constructor]).
    subst value.
    apply Forall_app; split; [now apply Hlit|].
    apply Forall_app; split; [exact Hquote|].
    apply Forall_app; split; [now apply Hlit|].
    apply Forall_app; split; [exact Hcodechars | exact Hquote]. }
  exists [py "filters" ++ py "=" ++ value]. split; [|split; [|split]].
  - intros fields Hf. subst value. rewrite join_snoc by assumption.
    f_equal.
  - constructor; [|constructor].
    apply Forall_app; split; [now apply literal_field|].
    apply Forall_app; split; [now apply literal_field|].
    eapply Forall_impl; [exact Hvalue|]. now intros c [H _].
  - intros k Hk. cbn [flat_map]. rewrite app_nil_r.
    apply field_other; [reflexivity | congruence].
  - cbn [flat_map]. rewrite app_nil_r.
    rewrite field_same; [reflexivity | reflexivity | subst value; discriminate |].
    eapply Forall_impl; [exact Hvalue|]. now intros c [_ H].
Qed.

Lemma query_field_values (k : pystr) (name : string) query quoted :
  forallb name_char (py name) = true ->
  quote_plus query = Some quoted ->
  values_of k (parse_name_value (py name ++ py "=" ++ quoted))
  = if decide (query = []) then []
    else if decide (py name = k) then [query] else [].
Proof.
  intros Hname Hq.
  assert (Hn : Forall (fun c => c <> 61 /\ c <> 37 /\ c <> 43) (py name)).
  { revert Hname. apply forallb_Forall. intros c. unfold name_char. lia. }
  rewrite field_values by (eapply Forall_impl; [exact Hn|]; now intros c [H _]).
  rewrite unquote_plain by (eapply Forall_impl; [exact Hn|]; now intros c [_ H]).
  rewrite (unquote_quote_plus _ _ Hq).
  pose proof (quote_plus_empty _ _ Hq) as He.
  destruct (decide (quoted = [])) as [E|E], (decide (query = [])) as [E'|E'];
    try reflexivity; tauto.
Qed.

(** X1. What [request] wrote in the URL reads back: the query under [q] and
    [pq] (an empty query leaves neither, [parse_qs] drops blank values),
    and the time filter under [filters]. *)
Theorem request_url_reads_back (traits : EngineTraits) (now : Z) (query quoted : pystr)
    (params : gmap pystr pyval) (out : list pystr) (page : Z) (filter : pystr)
    (lines : list pystr) :
  quote_plus query = Some quoted ->
  typed_params params page ->
  time_range_accepted now (params !! py "time_range") filter lines ->
  exists params' url,
    request traits now query (World params out)
    = (World params' (out ++ lines), Returned params')
    /\ params' !! py "url" = Some (VStr url)
    /\ url_params url !! py "q" = (if decide (query = []) then None else Some [query])
    /\ url_params url !! py "pq" = (if decide (query = []) then None else Some [query])
    /\ (forall tr code,
          params !! py "time_range" = Some (VStr tr) ->
          time_ranges_map (Z.quot now 86400) !! tr = Some code ->
          url_params url !! py "filters"
          = Some [py "ex1:" ++ [34] ++ py "ez" ++ code ++ [34]])
    /\ (filter = [] -> url_params url !! py "filters" = None).
Proof.
  intros Hq Htyped Hacc.
  assert (Hweaken : forall params' url,
            request traits now query (World params out)
            = (World params' (out ++ lines), Returned params')
            /\ params' !! py "url" = Some (VStr url)
            /\ url_params url !! py "q" = (if decide (query = []) then None else Some [query])
            /\ url_params url !! py "pq" = (if decide (query = []) then None else Some [query])
            /\ url_params url !! py "filters"
               = match filter with [] => None | _ => Some [drop 9 filter] end ->
            request traits now query (World params out)
            = (World params' (out ++ lines), Returned params')
            /\ params' !! py "url" = Some (VStr url)
            /\ url_params url !! py "q" = (if decide (query = []) then None else Some [query])
            /\ url_params url !! py "pq" = (if decide (query = []) then None else Some [query])
            /\ (forall tr code,
                  params !! py "time_range" = Some (VStr tr) ->
                  time_ranges_map (Z.quot now 86400) !! tr = Some code ->
                  url_params url !! py "filters"
                  = Some [py "ex1:" ++ [34] ++ py "ez" ++ code ++ [34]])
            /\ (filter = [] -> url_params url !! py "filters" = None)).
  { intros params' url (H1 & H2 & H3 & H4 & H5).
    split; [exact H1|]. split; [exact H2|]. split; [exact H3|]. split; [exact H4|].
    split.
    - intros tr code Htr Hcode. rewrite Htr in Hacc.
      assert (Hfilter : filter = py "&filters=" ++ (py "ex1:" ++ [34] ++ py "ez" ++ code ++ [34])).
      { inversion Hacc as [ | | Hnil | tr' code' Hcode' | tr' line Hne Hnone Hline]; subst.
        - vm_compute in Hcode. discriminate.
        - unfold time_filter. rewrite Hcode. reflexivity.
        - congruence. }
      rewrite H5, Hfilter. reflexivity.
    - intros ->. exact H5. }
  cut (exists params' url,
         request traits now query (World params out)
         = (World params' (out ++ lines), Returned params')
         /\ params' !! py "url" = Some (VStr url)
         /\ url_params url !! py "q" = (if decide (query = []) then None else Some [query])
         /\ url_params url !! py "pq" = (if decide (query = []) then None else Some [query])
         /\ url_params url !! py "filters"
            = match filter with [] => None | _ => Some [drop 9 filter] end).
  { intros (params' & url & H). exists params', url. now apply Hweaken. }
  clear Hweaken.
  destruct (time_range_field _ _ _ _ Hacc) as (extra & Hjoin & Hextra & Hother & Hfilters).
  assert (Hquoted : Forall (fun c => url_plain c = true /\ c <> 38) quoted).
  { eapply Forall_impl; [eapply quote_plus_chars, Hq|]. apply quoted_field. }
  assert (Hfield : forall name : string,
            forallb (fun c => url_plain c && negb (c =? 38)) (py name) = true ->
            Forall (fun c => url_plain c = true /\ c <> 38) (py name ++ py "=" ++ quoted)).
  { intros name Hname.
    apply Forall_app; split; [now apply literal_field|].
    apply Forall_app; split; [now apply literal_field | exact Hquoted]. }
  assert (Hread : forall fields rest,
            fields = (py "q" ++ py "=" ++ quoted) :: (py "pq" ++ py "=" ++ quoted) :: rest ->
            Forall (Forall (fun c => url_plain c = true /\ c <> 38)) rest ->
            (forall k, k <> py "first" -> k <> py "FORM" ->
               values_of k (flat_map parse_name_value rest) = []) ->
            let url := base_url ++ py "?" ++ join (py "&") (fields ++ extra) in
            url_params url !! py "q" = (if decide (query = []) then None else Some [query])
            /\ url_params url !! py "pq"
               = (if decide (query = []) then None else Some [query])
            /\ url_params url !! py "filters"
               = match filter with [] => None | _ => Some [drop 9 filter] end).
  { intros fields rest -> Hrest Hnone. cbv zeta.
    assert (Hfields : Forall (Forall (fun c => url_plain c = true /\ c <> 38))
                        (((py "q" ++ py "=" ++ quoted)
                          :: (py "pq" ++ py "=" ++ quoted) :: rest) ++ extra)).
    { apply Forall_app. split; [|exact Hextra].
      constructor; [now apply Hfield|]. constructor; [now apply Hfield | exact Hrest]. }
    rewrite !url_params_fields by (assumption || discriminate).
    rewrite !flat_map_app, !values_of_app. cbn [flat_map].
    rewrite !values_of_app.
    rewrite !(query_field_values _ "q" query quoted eq_refl Hq).
    rewrite !(query_field_values _ "pq" query quoted eq_refl Hq).
    rewrite !Hnone by py_neq. rewrite !Hother by py_neq. rewrite Hfilters.
    assert (Hqq : (if decide (py "q" = py "q") then [query] else []) = [query])
      by (now destruct (decide (py "q" = py "q"))).
    assert (Hpp : (if decide (py "pq" = py "pq") then [query] else []) = [query])
      by (now destruct (decide (py "pq" = py "pq"))).
    assert (Hne : forall a b : string, py a <> py b ->
                    (if decide (py a = py b) then [query] else []) = [])
      by (intros a b Hab; now destruct (decide (py a = py b))).
    rewrite Hqq, Hpp.
    rewrite (Hne "pq" "q")%string, (Hne "q" "pq")%string, (Hne "q" "filters")%string,
      (Hne "pq" "filters")%string by py_neq.
    destruct (decide (query = [])) as [E|E]; cbn [app].
    - split; [reflexivity|]. split; [reflexivity|]. now destruct filter.
    - split; [reflexivity|]. split; [reflexivity|]. now destruct filter. }
  destruct (Z.le_gt_cases 2 page) as [Hp|Hp].
  - destruct (request_returns traits now query params out page _ filter lines
                Htyped (urlencode_later _ _ _ Hq Hp) Hacc) as (params' & Hrun & Hurl).
    destruct (page_marker_plain page) as (Hm1 & Hm2 & Hm3).
    set (offset := str_int ((page - 1) * 10 + 1)) in *.
    assert (Ho : Forall (fun c => url_plain c = true /\ c <> 38) offset).
    { eapply Forall_impl; [apply str_int_chars|]. intros c Hc. apply decimal_field. now left. }
    set (rest := [py "first" ++ py "=" ++ offset; py "FORM" ++ py "=" ++ page_marker page]).
    set (fields := (py "q" ++ py "=" ++ quoted) :: (py "pq" ++ py "=" ++ quoted) :: rest).
    assert (Hshape :
      base_url ++ py "?" ++
        (py "q=" ++ quoted ++ py "&pq=" ++ quoted ++ py "&first=" ++ offset
         ++ py "&FORM=" ++ (if page =? 2 then py "PERE" else py "PERE" ++ str_int (page - 2)))
        ++ filter
      = base_url ++ py "?" ++ join (py "&") (fields ++ extra)).
    { rewrite <- Hjoin by discriminate. subst fields rest. cbn [join].
      fold (page_marker page). now rewrite <- !app_assoc. }
    rewrite Hshape in Hurl.
    exists params'. eexists. split; [exact Hrun|]. split; [exact Hurl|].
    apply (Hread fields rest eq_refl).
    + subst rest. constructor; [|constructor; [|constructor]].
      * apply Forall_app; split; [now apply literal_field|].
        apply Forall_app; split; [now apply literal_field | exact Ho].
      * apply Forall_app; split; [now apply literal_field|].
        apply Forall_app; split; [now apply literal_field | exact Hm3].
    + intros k Hk1 Hk2. subst rest. cbn [flat_map]. rewrite !values_of_app, app_nil_r.
      rewrite (field_other _ "first"), (field_other _ "FORM")
        by (reflexivity || congruence). reflexivity.
  - assert (Hp1 : page <= 1) by lia.
    destruct (request_returns traits now query params out page _ filter lines
                Htyped (urlencode_first _ _ _ Hq Hp1) Hacc) as (params' & Hrun & Hurl).
    set (fields := [py "q" ++ py "=" ++ quoted; py "pq" ++ py "=" ++ quoted]).
    assert (Hshape :
      base_url ++ py "?" ++ (py "q=" ++ quoted ++ py "&pq=" ++ quoted) ++ filter
      = base_url ++ py "?" ++ join (py "&") (fields ++ extra)).
    { rewrite <- Hjoin by discriminate. subst fields. cbn [join].
      now rewrite <- !app_assoc. }
    rewrite Hshape in Hurl.
    exists params'. eexists. split; [exact Hrun|]. split; [exact Hurl|].
    apply (Hread fields [] eq_refl); [constructor|].
    intros k _ _. reflexivity.
Qed.

Lemma request_url_reads_back_witness :
  exists params' url,
    request sample_traits sample_now (py "caf" ++ [233] ++ py " & th" ++ [233])
      (World (sample_params 3 (Some (py "week"))) [])
    = (World params' ([] ++ []), Returned params')
    /\ params' !! py "url" = Some (VStr url)
    /\ url_params url !! py "q" = Some [py "caf" ++ [233] ++ py " & th" ++ [233]]
    /\ url_params url !! py "pq" = Some [py "caf" ++ [233] ++ py " & th" ++ [233]]
    /\ url_params url !! py "filters" = Some [py "ex1:" ++ [34] ++ py "ez2" ++ [34]].
Proof.
  destruct (request_url_reads_back sample_traits sample_now
              (py "caf" ++ [233] ++ py " & th" ++ [233]) (py "caf%C3%A9+%26+th%C3%A9")
              (sample_params 3 (Some (py "week"))) [] 3
              (time_filter sample_now (py "week")) [])
    as (params' & url & Hrun & Hurl & Hq & Hpq & Hf & _).
  - vm_compute. reflexivity.
  - split; [intros d; py_neq | left; reflexivity | left; reflexivity].
  - apply (tr_supported sample_now (py "week") (py "2")). reflexivity.
  - exists params', url. split; [exact Hrun|]. split; [exact Hurl|].
    split; [exact Hq|]. split; [exact Hpq|].
    apply (Hf (py "week") (py "2")); reflexivity.
Defined.

(** ** The store [request] leaves *)

Lemma set_bing_cookies_store (lang market : pystr) (params : gmap pystr pyval)
    (out : list pystr) :
  params !! py "cookies" = None \/ (exists d, params !! py "cookies" = Some (VDict d)) ->
  set_bing_cookies lang market (World params out)
  = (World (<[py "cookies" := VDict (bing_cookies lang market (cookies_of params))]> params)
       out, Returned tt).
Proof.
  intros H. unfold set_bing_cookies.
  rewrite (bind_run _ _ _ (World params out) params) by reflexivity.
  assert (Hfin : forall d params0,
    params0 !! py "cookies" = Some (VDict d) ->
    <[py "cookies" := VDict d]> params = params0 ->
    (set_cookie (py "_EDGE_CD") (py "m=" ++ market ++ py "&u=" ++ lang);;
     set_cookie (py "_EDGE_S") (py "mkt=" ++ market ++ py "&ui=" ++ lang);;
     Logger.debug (py "Bing cookies set: %s")) (World params0 out)
    = (World (<[py "cookies" := VDict (bing_cookies lang market d)]> params) out,
       Returned tt)).
  { intros d params0 Hd Hp.
    rewrite (bind_run _ _ _ _ _ (set_cookie_run _ _ _ _ _ Hd)).
    rewrite (bind_run _ _ _ _ _
               (set_cookie_run _ _ _ _ _ (lookup_insert_eq _ _ _))).
    unfold Logger.debug. rewrite ret_run.
    rewrite insert_insert_eq. rewrite <- Hp. rewrite insert_insert_eq. reflexivity. }
  unfold cookies_of. destruct H as [H | [d H]].
  - rewrite H. destruct (decide (None = None)) as [_|]; [|congruence].
    rewrite (bind_run _ _ _ (World (<[py "cookies" := VDict ∅]> params) out) tt)
      by reflexivity.
    apply (Hfin ∅); [apply lookup_insert_eq | reflexivity].
  - rewrite H. destruct (decide (Some (VDict d) = None)) as [|_]; [congruence|].
    rewrite (bind_run _ _ _ (World params out) tt) by reflexivity.
    apply (Hfin d); [exact H | now apply insert_id].
Qed.

Lemma set_bing_cookies_raises (lang market : pystr) (params : gmap pystr pyval)
    (out : list pystr) (v : pyval) :
  params !! py "cookies" = Some v -> (forall d, v <> VDict d) ->
  set_bing_cookies lang market (World params out) = (World params out, Raised TypeError).
Proof.
  intros Hv Hnd. unfold set_bing_cookies.
  rewrite (bind_run _ _ _ (World params out) params) by reflexivity.
  rewrite Hv. destruct (decide (Some v = None)) as [|_]; [congruence|].
  rewrite (bind_run _ _ _ (World params out) tt) by reflexivity.
  apply bind_raised. unfold set_cookie.
  rewrite (bind_run _ _ _ (World params out) params) by reflexivity.
  rewrite Hv. destruct v as [|n|s|d]; try reflexivity. now destruct (Hnd d).
Qed.

Lemma request_store (traits : EngineTraits) (now : Z) (query : pystr)
    (params : gmap pystr pyval) (out : list pystr) (page : Z)
    (encoded filter : pystr) (lines : list pystr) (locale : pystr) :
  typed_params params page ->
  locale_of params = VStr locale ->
  urlencode (query_params query page) = Some encoded ->
  time_range_accepted now (params !! py "time_range") filter lines ->
  request traits now query (World params out)
  = (World (requested traits locale (base_url ++ py "?" ++ encoded ++ filter) params)
       (out ++ lines),
     Returned (requested traits locale (base_url ++ py "?" ++ encoded ++ filter) params)).
Proof.
  intros [Hloc Hpage Hcookies] Hlocale Henc Hacc. unfold request.
  rewrite (bind_run _ _ _ (World params out) params) by reflexivity.
  fold (locale_of params). rewrite Hlocale.
  unfold get_region, get_language, lift. cbn [table_get].
  fold (market_code traits locale).
  rewrite (bind_run _ _ _ (World params out) (market_code traits locale)) by reflexivity.
  fold (language_code traits locale).
  rewrite (bind_run _ _ _ (World params out) (language_code traits locale)) by reflexivity.
  rewrite (bind_run _ _ _ _ _
             (set_bing_cookies_store (language_code traits locale)
                (market_code traits locale) params out Hcookies)).
  set (cookies := bing_cookies _ _ _).
  set (params1 := <[py "cookies" := VDict cookies]> params).
  rewrite (bind_run _ _ _ (World params1 out) params1) by reflexivity.
  assert (Hp1 : default (VInt 1) (params1 !! py "pageno") = VInt page).
  { subst params1. rewrite lookup_insert_ne by py_neq.
    destruct Hpage as [-> | [-> ->]]; reflexivity. }
  rewrite Hp1.
  rewrite (bind_run _ _ _ (World params1 out) page) by reflexivity.
  rewrite Henc.
  rewrite (bind_run _ _ _ (World params1 out) params1) by reflexivity.
  set (url := base_url ++ py "?" ++ encoded).
  set (params2 := <[py "url" := VStr url]> params1).
  rewrite (bind_run _ _ _ (World params2 out) tt) by reflexivity.
  assert (Htr : params2 !! py "time_range" = params !! py "time_range").
  { subst params2 params1. now rewrite !lookup_insert_ne by py_neq. }
  rewrite <- Htr in Hacc.
  rewrite (bind_run _ _ _ _ _
             (time_range_step_run now params2 out url filter lines
                (lookup_insert_eq _ _ _) Hacc)).
  set (params3 := <[py "url" := VStr (url ++ filter)]> params2).
  rewrite (bind_run _ _ _ (World params3 (out ++ lines)) params3) by reflexivity.
  assert (Hh3 : params3 !! py "headers" = params !! py "headers").
  { subst params3 params2 params1. now rewrite !lookup_insert_ne by py_neq. }
  assert (E3 : params3 = <[py "url" := VStr (base_url ++ py "?" ++ encoded ++ filter)]> params1).
  { subst params3 params2 url. rewrite insert_insert_eq. now rewrite <- !app_assoc. }
  unfold requested. cbv zeta. fold cookies. fold params1. rewrite <- E3.
  rewrite Hh3.
  destruct (decide (params !! py "headers" = None)) as [Hh|Hh].
  - rewrite (bind_run _ _ _
               (World (<[py "headers" := VDict default_headers]> params3) (out ++ lines))
               tt) by reflexivity.
    reflexivity.
  - rewrite (bind_run _ _ _ (World params3 (out ++ lines)) tt) by reflexivity.
    reflexivity.
Qed.

Lemma urlencode_some (query quoted : pystr) (page : Z) :
  quote_plus query = Some quoted ->
  exists encoded, urlencode (query_params query page) = Some encoded.
Proof.
  intros Hq. destruct (Z.le_gt_cases 2 page) as [Hp|Hp].
  - eexists. apply urlencode_later; [exact Hq | exact Hp].
  - eexists. apply urlencode_first; [exact Hq | lia].
Qed.

Lemma bing_cookies_lookup (lang market : pystr) (cookies : gmap pystr pyval) :
  bing_cookies lang market cookies !! py "_EDGE_CD"
  = Some (VStr (py "m=" ++ market ++ py "&u=" ++ lang))
  /\ bing_cookies lang market cookies !! py "_EDGE_S"
     = Some (VStr (py "mkt=" ++ market ++ py "&ui=" ++ lang))
  /\ forall k, k <> py "_EDGE_CD" -> k <> py "_EDGE_S" ->
               bing_cookies lang market cookies !! k = cookies !! k.
Proof.
  unfold bing_cookies. split; [|split].
  - rewrite lookup_insert_ne by py_neq. apply lookup_insert_eq.
  - apply lookup_insert_eq.
  - intros k H1 H2. now rewrite !lookup_insert_ne by congruence.
Qed.

(** X3. [set_bing_cookies] writes its two cookies over the ones the caller
    gave and keeps the others; on a [cookies] entry that is not a
    dictionary it raises and changes nothing. *)
Theorem set_bing_cookies_entries (lang market : pystr) (params : gmap pystr pyval)
    (out : list pystr) :
  (params !! py "cookies" = None \/ (exists d, params !! py "cookies" = Some (VDict d)) ->
   exists cookies,
     set_bing_cookies lang market (World params out)
     = (World (<[py "cookies" := VDict cookies]> params) out, Returned tt)
     /\ cookies !! py "_EDGE_CD" = Some (VStr (py "m=" ++ market ++ py "&u=" ++ lang))
     /\ cookies !! py "_EDGE_S" = Some (VStr (py "mkt=" ++ market ++ py "&ui=" ++ lang))
     /\ forall k, k <> py "_EDGE_CD" -> k <> py "_EDGE_S" ->
                  cookies !! k = cookies_of params !! k)
  /\ (forall v, params !! py "cookies" = Some v -> (forall d, v <> VDict d) ->
        set_bing_cookies lang market (World params out)
        = (World params out, Raised TypeError)).
Proof.
  split.
  - intros H. exists (bing_cookies lang market (cookies_of params)).
    split; [now apply set_bing_cookies_store|]. apply bing_cookies_lookup.
  - intros v Hv Hnd. now apply (set_bing_cookies_raises lang market params out v).
Qed.

Lemma set_bing_cookies_entries_witness :
  let params : gmap pystr pyval :=
    {[py "cookies" := VDict {[py "SRCHHPGUSR" := VStr (py "ADLT=OFF")]}]} in
  (exists cookies,
     set_bing_cookies (py "de-de") (py "de-at") (World params [])
     = (World (<[py "cookies" := VDict cookies]> params) [], Returned tt)
     /\ cookies !! py "_EDGE_CD" = Some (VStr (py "m=de-at&u=de-de"))
     /\ cookies !! py "_EDGE_S" = Some (VStr (py "mkt=de-at&ui=de-de"))
     /\ cookies !! py "SRCHHPGUSR" = Some (VStr (py "ADLT=OFF")))
  /\ set_bing_cookies (py "de-de") (py "de-at")
       (World {[py "cookies" := VNone]} [])
     = (World {[py "cookies" := VNone]} [], Raised TypeError).
Proof.
  cbv zeta. split.
  - destruct (set_bing_cookies_entries (py "de-de") (py "de-at")
                {[py "cookies" := VDict {[py "SRCHHPGUSR" := VStr (py "ADLT=OFF")]}]} [])
      as [H _].
    destruct H as (cookies & Hrun & Hcd & Hs & Hother).
    { right. eexists. reflexivity. }
    exists cookies. split; [exact Hrun|]. split; [exact Hcd|]. split; [exact Hs|].
    rewrite Hother by py_neq. reflexivity.
  - destruct (set_bing_cookies_entries (py "de-de") (py "de-at")
                {[py "cookies" := VNone]} []) as [_ H].
    apply (H VNone); [reflexivity | discriminate].
Defined.

(** X2. The cookies [request] leaves are read from the tables of the
    traits: the market code is the one of the locale, or [all_locale];
    the language code is the one of the locale, or the market code. *)
Theorem request_cookies (traits : EngineTraits) (now : Z) (query quoted : pystr)
    (params : gmap pystr pyval) (out : list pystr) (page : Z) (filter : pystr)
    (lines : list pystr) (locale : pystr) :
  quote_plus query = Some quoted ->
  typed_params params page ->
  default (VStr (py "en-US")) (params !! py "searxng_locale") = VStr locale ->
  time_range_accepted now (params !! py "time_range") filter lines ->
  let market := default (all_locale traits) (regions traits !! locale) in
  let lang := default market (languages traits !! locale) in
  exists params' cookies,
    request traits now query (World params out)
    = (World params' (out ++ lines), Returned params')
    /\ params' !! py "cookies" = Some (VDict cookies)
    /\ cookies !! py "_EDGE_CD" = Some (VStr (py "m=" ++ market ++ py "&u=" ++ lang))
    /\ cookies !! py "_EDGE_S" = Some (VStr (py "mkt=" ++ market ++ py "&ui=" ++ lang))
    /\ forall k, k <> py "_EDGE_CD" -> k <> py "_EDGE_S" ->
                 cookies !! k = cookies_of params !! k.
Proof.
  intros Hq Htyped Hlocale Hacc. cbv zeta.
  destruct (urlencode_some query quoted page Hq) as [encoded Henc].
  eexists. exists (bing_cookies (language_code traits locale) (market_code traits locale)
                     (cookies_of params)).
  split; [exact (request_store traits now query params out page encoded filter lines
                   locale Htyped Hlocale Henc Hacc)|].
  split; [|apply bing_cookies_lookup].
  unfold requested. cbv zeta.
  destruct (decide (params !! py "headers" = None)).
  - rewrite !lookup_insert_ne by py_neq. apply lookup_insert_eq.
  - rewrite lookup_insert_ne by py_neq. apply lookup_insert_eq.
Qed.

Lemma request_cookies_witness :
  let traits := {| languages := ∅; regions := {[py "de-AT" := py "de-at"]};
                   all_locale := py "en-us" |} in
  let params : gmap pystr pyval := {[py "searxng_locale" := VStr (py "de-AT")]} in
  exists params' cookies,
    request traits sample_now (py "wetter") (World params [])
    = (World params' ([] ++ []), Returned params')
    /\ params' !! py "cookies" = Some (VDict cookies)
    /\ cookies !! py "_EDGE_CD" = Some (VStr (py "m=de-at&u=de-at"))
    /\ cookies !! py "_EDGE_S" = Some (VStr (py "mkt=de-at&ui=de-at")).
Proof.
  cbv zeta.
  destruct (request_cookies
              {| languages := ∅; regions := {[py "de-AT" := py "de-at"]};
                 all_locale := py "en-us" |}
              sample_now (py "wetter") (py "wetter")
              {[py "searxng_locale" := VStr (py "de-AT")]} [] 1 [] [] (py "de-AT"))
    as (params' & cookies & Hrun & Hc & Hcd & Hs & _).
  - reflexivity.
  - split; [intros d; py_neq | right; split; reflexivity | left; reflexivity].
  - reflexivity.
  - apply tr_absent.
  - exists params', cookies. split; [exact Hrun|]. split; [exact Hc|].
    split; [exact Hcd | exact Hs].
Defined.

(** ** Running [request] again *)

Lemma bing_cookies_twice (lang market : pystr) (cookies : gmap pystr pyval) :
  bing_cookies lang market (bing_cookies lang market cookies)
  = bing_cookies lang market cookies.
Proof.
  apply map_eq. intros k.
  destruct (bing_cookies_lookup lang market cookies) as (H1 & H2 & H3).
  destruct (bing_cookies_lookup lang market (bing_cookies lang market cookies))
    as (H1' & H2' & H3').
  destruct (decide (k = py "_EDGE_CD")) as [->|Hk1]; [congruence|].
  destruct (decide (k = py "_EDGE_S")) as [->|Hk2]; [congruence|].
  now rewrite H3'.
Qed.

(** X4. [request] on the dictionary it returned: the same dictionary comes
    back, the time filter is not appended a second time; the warning of
    an unsupported time range is printed again. *)
Theorem request_twice (traits : EngineTraits) (now : Z) (query quoted : pystr)
    (params : gmap pystr pyval) (out : list pystr) (page : Z) (filter : pystr)
    (lines : list pystr) (locale : pystr) :
  quote_plus query = Some quoted ->
  typed_params params page ->
  default (VStr (py "en-US")) (params !! py "searxng_locale") = VStr locale ->
  time_range_accepted now (params !! py "time_range") filter lines ->
  exists params',
    request traits now query (World params out)
    = (World params' (out ++ lines), Returned params')
    /\ request traits now query (World params' (out ++ lines))
       = (World params' ((out ++ lines) ++ lines), Returned params').
Proof.
  intros Hq Htyped Hlocale Hacc.
  destruct (urlencode_some query quoted page Hq) as [encoded Henc].
  set (url := base_url ++ py "?" ++ encoded ++ filter).
  set (params' := requested traits locale url params).
  exists params'.
  split; [exact (request_store traits now query params out page encoded filter lines
                   locale Htyped Hlocale Henc Hacc)|].
  set (cookies := bing_cookies (language_code traits locale) (market_code traits locale)
                    (cookies_of params)).
  assert (Hother : forall k, k <> py "url" -> k <> py "cookies" -> k <> py "headers" ->
                             params' !! k = params !! k).
  { intros k H1 H2 H3. subst params'. unfold requested. cbv zeta.
    destruct (decide (params !! py "headers" = None));
      now rewrite !lookup_insert_ne by congruence. }
  assert (Hc : params' !! py "cookies" = Some (VDict cookies)).
  { subst params'. unfold requested. cbv zeta.
    destruct (decide (params !! py "headers" = None)).
    - rewrite !lookup_insert_ne by py_neq. apply lookup_insert_eq.
    - rewrite lookup_insert_ne by py_neq. apply lookup_insert_eq. }
  assert (Hu : params' !! py "url" = Some (VStr url)).
  { subst params'. unfold requested. cbv zeta.
    destruct (decide (params !! py "headers" = None)).
    - rewrite lookup_insert_ne by py_neq. apply lookup_insert_eq.
    - apply lookup_insert_eq. }
  assert (Hh : params' !! py "headers" <> None).
  { subst params'. unfold requested. cbv zeta.
    destruct (decide (params !! py "headers" = None)) as [E|E].
    - now rewrite lookup_insert_eq.
    - now rewrite !lookup_insert_ne by py_neq. }
  assert (Htyped' : typed_params params' page).
  { destruct Htyped as [Hloc Hpage Hcookies]. split.
    - intros d. rewrite Hother by py_neq. apply Hloc.
    - now rewrite Hother by py_neq.
    - right. now exists cookies. }
  assert (Hlocale' : default (VStr (py "en-US")) (params' !! py "searxng_locale") = VStr locale)
    by (now rewrite Hother by py_neq).
  assert (Hacc' : time_range_accepted now (params' !! py "time_range") filter lines)
    by (now rewrite Hother by py_neq).
  rewrite (request_store traits now query params' (out ++ lines) page encoded filter lines
             locale Htyped' Hlocale' Henc Hacc').
  fold url.
  assert (Hsame : requested traits locale url params' = params').
  { unfold requested at 1. cbv zeta.
    destruct (decide (params' !! py "headers" = None)) as [E|_]; [contradiction|].
    unfold cookies_of. rewrite Hc. fold cookies.
    assert (Hcc : bing_cookies (language_code traits locale) (market_code traits locale)
                    cookies = cookies) by apply bing_cookies_twice.
    rewrite Hcc. rewrite (insert_id params' (py "cookies")) by exact Hc.
    now apply insert_id. }
  now rewrite Hsame.
Qed.

Lemma request_twice_witness :
  exists params',
    request sample_traits sample_now (py "rocq prover")
      (World (sample_params 3 (Some (py "week"))) [])
    = (World params' ([] ++ []), Returned params')
    /\ request sample_traits sample_now (py "rocq prover") (World params' ([] ++ []))
       = (World params' (([] ++ []) ++ []), Returned params').
Proof.
  refine (request_twice sample_traits sample_now (py "rocq prover") (py "rocq+prover")
            (sample_params 3 (Some (py "week"))) [] 3
            (time_filter sample_now (py "week")) [] (py "en-US") _ _ _ _).
  - reflexivity.
  - split; [intros d; py_neq | left; reflexivity | left; reflexivity].
  - reflexivity.
  - apply (tr_supported sample_now (py "week") (py "2")). reflexivity.
Defined.

(** ** The errors of [request] *)

Lemma utf8_encode_surrogate (query : pystr) (c : Z) :
  c ∈ query -> 0xD800 <= c <= 0xDFFF -> utf8_encode query = None.
Proof.
  intros Hin Hc. induction query as [|c' query IH]; [now apply elem_of_nil in Hin|].
  cbn [utf8_encode]. apply elem_of_cons in Hin as [<-|Hin].
  - assert (E : utf8_encode_char c = None).
    { unfold utf8_encode_char.
      destruct (Z.ltb_spec c 0); [reflexivity|].
      destruct (Z.ltb_spec c 128); [lia|].
      destruct (Z.ltb_spec c 2048); [lia|].
      destruct (Z.ltb_spec c 65536); [|lia].
      destruct (Z.leb_spec 55296 c); [|lia].
      destruct (Z.leb_spec c 57343); [reflexivity | lia]. }
    now rewrite E.
  - rewrite (IH Hin). now destruct (utf8_encode_char c').
Qed.

Lemma urlencode_none (query : pystr) (page : Z) :
  utf8_encode query = None -> urlencode (query_params query page) = None.
Proof.
  intros Hq.
  assert (Hhead : exists rest, query_params query page = (py "q", QStr query) :: rest).
  { destruct (Z.le_gt_cases 2 page) as [Hp|Hp].
    - eexists. now apply query_params_later.
    - eexists. apply query_params_first. lia. }
  destruct Hhead as [rest ->]. unfold urlencode. cbn [urlencode_items str_qvalue].
  unfold quote_plus at 2. rewrite Hq. cbn.
  now destruct (quote_plus (py "q")).
Qed.

Lemma request_until_page (traits : EngineTraits) (now : Z) (query : pystr)
    (params : gmap pystr pyval) (out : list pystr) (locale : pystr) :
  params !! py "cookies" = None \/ (exists d, params !! py "cookies" = Some (VDict d)) ->
  default (VStr (py "en-US")) (params !! py "searxng_locale") = VStr locale ->
  let params1 :=
    <[py "cookies" :=
        VDict (bing_cookies (language_code traits locale) (market_code traits locale)
                 (cookies_of params))]> params in
  request traits now query (World params out)
  = (page ← match default (VInt 1) (params1 !! py "pageno") with
            | VInt page => mret page
            | _ => raise TypeError
            end;
     match urlencode (query_params query page) with
     | None => raise UnicodeEncodeError
     | Some encoded =>
         params ← get_store;
         put_store (<[py "url" := VStr (base_url ++ py "?" ++ encoded)]> params);;
         time_range_step now;;
         params ← get_store;
         (if decide (params !! py "headers" = None)
          then put_store (<[py "headers" := VDict default_headers]> params)
          else mret tt);;
         get_store
     end) (World params1 out).
Proof.
  intros Hcookies Hlocale. cbv zeta. unfold request.
  rewrite (bind_run _ _ _ (World params out) params) by reflexivity.
  rewrite Hlocale.
  unfold get_region, get_language, lift. cbn [table_get].
  fold (market_code traits locale).
  rewrite (bind_run _ _ _ (World params out) (market_code traits locale)) by reflexivity.
  fold (language_code traits locale).
  rewrite (bind_run _ _ _ (World params out) (language_code traits locale)) by reflexivity.
  rewrite (bind_run _ _ _ _ _
             (set_bing_cookies_store (language_code traits locale)
                (market_code traits locale) params out Hcookies)).
  set (params1 := <[py "cookies" := VDict _]> params).
  now rewrite (bind_run _ _ _ (World params1 out) params1) by reflexivity.
Qed.

(** X5. A query that holds a surrogate cannot be encoded: [request] raises
    [UnicodeEncodeError] once the cookies are set; it writes no URL and no
    headers, and prints nothing. *)
Theorem request_unencodable_query (traits : EngineTraits) (now : Z) (query : pystr)
    (params : gmap pystr pyval) (out : list pystr) (page : Z) (locale : pystr) (c : Z) :
  typed_params params page ->
  default (VStr (py "en-US")) (params !! py "searxng_locale") = VStr locale ->
  c ∈ query -> 0xD800 <= c <= 0xDFFF ->
  let market := default (all_locale traits) (regions traits !! locale) in
  let lang := default market (languages traits !! locale) in
  exists cookies,
    request traits now query (World params out)
    = (World (<[py "cookies" := VDict cookies]> params) out, Raised UnicodeEncodeError)
    /\ cookies !! py "_EDGE_CD" = Some (VStr (py "m=" ++ market ++ py "&u=" ++ lang))
    /\ cookies !! py "_EDGE_S" = Some (VStr (py "mkt=" ++ market ++ py "&ui=" ++ lang)).
Proof.
  intros [Hloc Hpage Hcookies] Hlocale Hin Hc. cbv zeta.
  exists (bing_cookies (language_code traits locale) (market_code traits locale)
            (cookies_of params)).
  split.
  - rewrite (request_until_page traits now query params out locale Hcookies Hlocale).
    cbv zeta. set (params1 := <[py "cookies" := VDict _]> params).
    assert (Hp1 : default (VInt 1) (params1 !! py "pageno") = VInt page).
    { subst params1. rewrite lookup_insert_ne by py_neq.
      destruct Hpage as [-> | [-> ->]]; reflexivity. }
    rewrite Hp1.
    rewrite (bind_run _ _ _ (World params1 out) page) by reflexivity.
    now rewrite (urlencode_none query page (utf8_encode_surrogate query c Hin Hc)).
  - destruct (bing_cookies_lookup (language_code traits locale) (market_code traits locale)
                (cookies_of params)) as (H1 & H2 & _).
    split; assumption.
Qed.

Lemma request_unencodable_query_witness :
  exists cookies,
    request sample_traits sample_now (py "a" ++ [0xD83D]) (World (sample_params 1 None) [])
    = (World (<[py "cookies" := VDict cookies]> (sample_params 1 None)) [],
       Raised UnicodeEncodeError)
    /\ cookies !! py "_EDGE_CD" = Some (VStr (py "m=en-us&u=en-us"))
    /\ cookies !! py "_EDGE_S" = Some (VStr (py "mkt=en-us&ui=en-us")).
Proof.
  refine (request_unencodable_query sample_traits sample_now (py "a" ++ [0xD83D])
            (sample_params 1 None) [] 1 (py "en-US") 0xD83D _ _ _ _).
  - split; [intros d; py_neq | left; reflexivity | left; reflexivity].
  - reflexivity.
  - apply elem_of_app. right. left.
  - lia.
Defined.

(** X6. The type errors of [request]: a locale that is a dictionary, before
    anything is written; a [cookies] entry that is not a dictionary,
    likewise; a page number that is not an integer (a string is not
    converted), once the cookies are set. *)
Theorem request_type_errors (traits : EngineTraits) (now : Z) (query : pystr)
    (params : gmap pystr pyval) (out : list pystr) :
  (forall d, params !! py "searxng_locale" = Some (VDict d) ->
     request traits now query (World params out) = (World params out, Raised TypeError))
  /\ (forall v,
        (forall d, params !! py "searxng_locale" <> Some (VDict d)) ->
        params !! py "cookies" = Some v -> (forall d, v <> VDict d) ->
        request traits now query (World params out) = (World params out, Raised TypeError))
  /\ (forall locale v,
        default (VStr (py "en-US")) (params !! py "searxng_locale") = VStr locale ->
        params !! py "cookies" = None \/ (exists d, params !! py "cookies" = Some (VDict d)) ->
        params !! py "pageno" = Some v -> (forall n, v <> VInt n) ->
        exists cookies,
          request traits now query (World params out)
          = (World (<[py "cookies" := VDict cookies]> params) out, Raised TypeError)).
Proof.
  split; [|split].
  - intros d Hd. unfold request.
    rewrite (bind_run _ _ _ (World params out) params) by reflexivity.
    rewrite Hd. reflexivity.
  - intros v Hloc Hv Hnd. unfold request.
    rewrite (bind_run _ _ _ (World params out) params) by reflexivity.
    set (locale := default (VStr (py "en-US")) (params !! py "searxng_locale")).
    assert (Hhash : forall d, locale <> VDict d).
    { intros d. subst locale. destruct (params !! py "searxng_locale") as [v'|] eqn:E.
      - cbn. intros ->. now apply (Hloc d).
      - discriminate. }
    destruct (table_get_returns (regions traits) locale (all_locale traits) Hhash)
      as [market Hm].
    destruct (table_get_returns (languages traits) locale market Hhash) as [lang Hl].
    unfold get_region, get_language, lift.
    rewrite (bind_run _ _ _ (World params out) market) by (now rewrite Hm).
    rewrite (bind_run _ _ _ (World params out) lang) by (now rewrite Hl).
    apply bind_raised. now apply (set_bing_cookies_raises lang market params out v).
  - intros locale v Hlocale Hcookies Hv Hni. eexists.
    rewrite (request_until_page traits now query params out locale Hcookies Hlocale).
    cbv zeta. rewrite lookup_insert_ne by py_neq. rewrite Hv. cbn [default].
    apply bind_raised. destruct v as [|n|s|d]; try reflexivity. now destruct (Hni n).
Qed.

Lemma request_type_errors_witness :
  request sample_traits sample_now (py "news")
    (World {[py "searxng_locale" := VDict ∅]} [])
  = (World {[py "searxng_locale" := VDict ∅]} [], Raised TypeError)
  /\ request sample_traits sample_now (py "news") (World {[py "cookies" := VStr (py "a=b")]} [])
     = (World {[py "cookies" := VStr (py "a=b")]} [], Raised TypeError)
  /\ exists cookies,
       request sample_traits sample_now (py "news") (World {[py "pageno" := VStr (py "2")]} [])
       = (World (<[py "cookies" := VDict cookies]> {[py "pageno" := VStr (py "2")]}) [],
          Raised TypeError).
Proof.
  split; [|split].
  - destruct (request_type_errors sample_traits sample_now (py "news")
                {[py "searxng_locale" := VDict ∅]} []) as (H & _ & _).
    apply (H ∅). reflexivity.
  - destruct (request_type_errors sample_traits sample_now (py "news")
                {[py "cookies" := VStr (py "a=b")]} []) as (_ & H & _).
    apply (H (VStr (py "a=b"))); [intros d; py_neq | reflexivity | discriminate].
  - destruct (request_type_errors sample_traits sample_now (py "news")
                {[py "pageno" := VStr (py "2")]} []) as (_ & _ & H).
    apply (H (py "en-US") (VStr (py "2")));
      [reflexivity | left; reflexivity | reflexivity | discriminate].
Defined.

(** ** The request of [perform_search] *)

Lemma time_range_step_raises (now : Z) (params : gmap pystr pyval) (out : list pystr)
    (tr : pystr) :
  params !! py "time_range" = Some (VStr tr) ->
  tr <> [] ->
  time_ranges_map (Z.quot now 86400) !! tr = None ->
  percent_format (py "WARNING: Unsupported time_range specified: " ++ tr) = None ->
  time_range_step now (World params out) = (World params out, Raised FormatError).
Proof.
  intros Htr Hne Hcode Hfmt. unfold time_range_step.
  rewrite (bind_run _ _ _ (World params out) params) by reflexivity.
  rewrite Htr. destruct (decide (tr = [])) as [|_]; [contradiction|].
  rewrite Hcode. unfold Logger.warning.
  change (py "WARNING: " ++ py "Unsupported time_range specified: " ++ tr)
    with (py "WARNING: Unsupported time_range specified: " ++ tr).
  now rewrite Hfmt.
Qed.

Lemma request_time_range_raises (traits : EngineTraits) (now : Z) (query : pystr)
    (params : gmap pystr pyval) (out : list pystr) (page : Z)
    (encoded : pystr) (locale : pystr) (tr : pystr) :
  typed_params params page ->
  locale_of params = VStr locale ->
  urlencode (query_params query page) = Some encoded ->
  params !! py "time_range" = Some (VStr tr) ->
  tr <> [] ->
  time_ranges_map (Z.quot now 86400) !! tr = None ->
  percent_format (py "WARNING: Unsupported time_range specified: " ++ tr) = None ->
  exists params',
    request traits now query (World params out) = (World params' out, Raised FormatError).
Proof.
  intros [Hloc Hpage Hcookies] Hlocale Henc Htr Hne Hcode Hfmt. unfold request.
  rewrite (bind_run _ _ _ (World params out) params) by reflexivity.
  fold (locale_of params). rewrite Hlocale.
  unfold get_region, get_language, lift. cbn [table_get].
  fold (market_code traits locale).
  rewrite (bind_run _ _ _ (World params out) (market_code traits locale)) by reflexivity.
  fold (language_code traits locale).
  rewrite (bind_run _ _ _ (World params out) (language_code traits locale)) by reflexivity.
  rewrite (bind_run _ _ _ _ _
             (set_bing_cookies_store (language_code traits locale)
                (market_code traits locale) params out Hcookies)).
  set (cookies := bing_cookies _ _ _).
  set (params1 := <[py "cookies" := VDict cookies]> params).
  rewrite (bind_run _ _ _ (World params1 out) params1) by reflexivity.
  assert (Hp1 : default (VInt 1) (params1 !! py "pageno") = VInt page).
  { subst params1. rewrite lookup_insert_ne by py_neq.
    destruct Hpage as [-> | [-> ->]]; reflexivity. }
  rewrite Hp1.
  rewrite (bind_run _ _ _ (World params1 out) page) by reflexivity.
  rewrite Henc.
  rewrite (bind_run _ _ _ (World params1 out) params1) by reflexivity.
  set (url := base_url ++ py "?" ++ encoded).
  set (params2 := <[py "url" := VStr url]> params1).
  rewrite (bind_run _ _ _ (World params2 out) tt) by reflexivity.
  exists params2. apply bind_raised.
  apply time_range_step_raises with (tr := tr); try assumption.
  subst params2 params1. now rewrite !lookup_insert_ne by py_neq.
Qed.

(** X7. The request that [perform_search] prepares, for a query that
    [quote_plus] encodes.  When the time range is one that [request]
    goes through (none, empty, supported, or unsupported with a warning
    the logger can format), [request] returns: the locale asked for is
    the key of the tables installed, so the two cookies carry the
    lower-case code of the language and the region, and are the only
    cookies; the page number is kept, the default headers are set.  On
    any other time range, an unsupported one whose warning the logger
    cannot format, [request] raises. *)
Theorem perform_search_request (lower upper : pystr -> pystr) (now : Z)
    (query quoted : pystr) (pageno : Z) (language region : pystr)
    (time_range : option pystr) (out : list pystr) :
  let req_params := perform_search_params lower upper pageno language region time_range in
  let code := lower language ++ py "-" ++ lower region in
  quote_plus query = Some quoted ->
  (forall (filter : pystr) (lines : list pystr),
      time_range_accepted now (req_params !! py "time_range") filter lines ->
      exists search_request_details,
        request (perform_search_traits lower upper language region) now query
          (World req_params out)
        = (World search_request_details (out ++ lines), Returned search_request_details)
        /\ search_request_details !! py "cookies"
           = Some (VDict (<[py "_EDGE_S" := VStr (py "mkt=" ++ code ++ py "&ui=" ++ code)]>
                            (<[py "_EDGE_CD" := VStr (py "m=" ++ code ++ py "&u=" ++ code)]> ∅)))
        /\ search_request_details !! py "pageno" = Some (VInt pageno)
        /\ search_request_details !! py "headers" = Some (VDict default_headers))
  /\ (forall tr : pystr,
        time_range = Some tr -> tr <> [] ->
        time_ranges_map (Z.quot now 86400) !! tr = None ->
        percent_format (py "WARNING: Unsupported time_range specified: " ++ tr) = None ->
        exists params',
          request (perform_search_traits lower upper language region) now query
            (World req_params out)
          = (World params' out, Raised FormatError)).
Proof.
  cbv zeta. intros Hq.
  set (req_params := perform_search_params lower upper pageno language region time_range) in *.
  set (locale := lower language ++ py "-" ++ upper region).
  assert (Hloc : req_params !! py "searxng_locale" = Some (VStr locale)).
  { subst req_params. unfold perform_search_params. cbv zeta.
    destruct time_range as [tr|]; [destruct (decide (tr = []))|];
      rewrite ?(lookup_insert_ne _ (py "time_range")) by py_neq; apply lookup_insert_eq. }
  assert (Hpage : req_params !! py "pageno" = Some (VInt pageno)).
  { subst req_params. unfold perform_search_params. cbv zeta.
    destruct time_range as [tr|]; [destruct (decide (tr = []))|];
      rewrite ?(lookup_insert_ne _ (py "time_range")) by py_neq;
      rewrite (lookup_insert_ne _ (py "searxng_locale")) by py_neq; apply lookup_insert_eq. }
  assert (Hnone : forall k, k <> py "searxng_locale" -> k <> py "pageno" ->
                            k <> py "time_range" -> req_params !! k = None).
  { intros k H1 H2 H3. subst req_params. unfold perform_search_params. cbv zeta.
    destruct time_range as [tr|]; [destruct (decide (tr = []))|];
      now rewrite !lookup_insert_ne by congruence. }
  assert (Htyped : typed_params req_params pageno).
  { split.
    - intros d. rewrite Hloc. discriminate.
    - now left.
    - left. apply Hnone; py_neq. }
  assert (Hlocale : default (VStr (py "en-US")) (req_params !! py "searxng_locale")
                    = VStr locale) by (now rewrite Hloc).
  destruct (urlencode_some query quoted pageno Hq) as [encoded Henc].
  split.
  - intros filter lines Hacc. eexists.
    split; [exact (request_store _ now query req_params out pageno encoded filter lines
                     locale Htyped Hlocale Henc Hacc)|].
    assert (Hh : req_params !! py "headers" = None) by (apply Hnone; py_neq).
    unfold requested. cbv zeta.
    destruct (decide (req_params !! py "headers" = None)) as [_|]; [|contradiction].
    split; [|split].
    + rewrite !lookup_insert_ne by py_neq. rewrite lookup_insert_eq.
      unfold cookies_of. rewrite (Hnone (py "cookies")) by py_neq.
      unfold bing_cookies, language_code, market_code, perform_search_traits.
      cbn [regions languages all_locale].
      fold locale. rewrite !lookup_singleton_eq. reflexivity.
    + now rewrite !lookup_insert_ne by py_neq.
    + apply lookup_insert_eq.
  - intros tr Etr Hne Hcode Hfmt.
    apply (request_time_range_raises _ now query req_params out pageno encoded locale tr);
      try assumption.
    subst req_params time_range. unfold perform_search_params. cbv zeta.
    destruct (decide (tr = [])) as [|_]; [contradiction|]. apply lookup_insert_eq.
Qed.

Lemma perform_search_request_witness :
  exists search_request_details,
    request (perform_search_traits ascii_lower ascii_upper (py "DE") (py "at"))
      sample_now (py "wetter")
      (World (perform_search_params ascii_lower ascii_upper 2 (py "DE") (py "at")
                (Some (py "week"))) [])
    = (World search_request_details ([] ++ []), Returned search_request_details)
    /\ search_request_details !! py "cookies"
       = Some (VDict (<[py "_EDGE_S" := VStr (py "mkt=de-at&ui=de-at")]>
                        (<[py "_EDGE_CD" := VStr (py "m=de-at&u=de-at")]> ∅)))
    /\ search_request_details !! py "pageno" = Some (VInt 2)
    /\ search_request_details !! py "headers" = Some (VDict default_headers).
Proof.
  refine (proj1 (perform_search_request ascii_lower ascii_upper sample_now (py "wetter")
                   (py "wetter") 2 (py "DE") (py "at") (Some (py "week")) [] _)
            (time_filter sample_now (py "week")) [] _).
  - reflexivity.
  - apply (tr_supported sample_now (py "week") (py "2")). reflexivity.
Defined.

(** ** The logger *)

Lemma percent_format_lone (a b : pystr) :
  Forall (fun c => c <> 37) a ->
  match b with [] => True | d :: _ => d <> 37 end ->
  percent_format (a ++ 37 :: b) = None.
Proof.
  intros Ha Hb. induction Ha as [|c a Hc _ IH].
  - cbn [app percent_format]. change (37 =? 37) with true. cbv iota.
    destruct b as [|d b]; [reflexivity|].
    destruct (Z.eqb_spec d 37); [contradiction | reflexivity].
  - cbn [app percent_format]. destruct (Z.eqb_spec c 37); [contradiction|].
    now rewrite IH.
Qed.

Lemma percent_format_doubled (a b : pystr) :
  Forall (fun c => c <> 37) a ->
  percent_format (a ++ 37 :: 37 :: b) = (fun s => a ++ 37 :: s) <$> percent_format b.
Proof.
  intros Ha. induction Ha as [|c a Hc _ IH].
  - cbn [app percent_format]. change (37 =? 37) with true. cbv iota.
    now destruct (percent_format b).
  - cbn [app percent_format]. destruct (Z.eqb_spec c 37); [contradiction|].
    rewrite IH. now destruct (percent_format b).
Qed.

(** X8. The two printing methods of the logger: a message without [%] is
    printed after its prefix; a message whose first [%] is not doubled
    raises and nothing is printed; a doubled [%] is printed as one. *)
Theorem logger_percent {St : Type} (w : world St) (a b : pystr) :
  Forall (fun c => c <> 37) a ->
  Logger.warning a w = (World (store w) (stdout w ++ [py "WARNING: " ++ a]), Returned tt)
  /\ Logger.error a w = (World (store w) (stdout w ++ [py "ERROR: " ++ a]), Returned tt)
  /\ (match b with [] => True | d :: _ => d <> 37 end ->
      Logger.warning (a ++ 37 :: b) w = (w, Raised FormatError)
      /\ Logger.error (a ++ 37 :: b) w = (w, Raised FormatError))
  /\ (Forall (fun c => c <> 37) b ->
      Logger.warning (a ++ 37 :: 37 :: b) w
      = (World (store w) (stdout w ++ [py "WARNING: " ++ a ++ 37 :: b]), Returned tt)
      /\ Logger.error (a ++ 37 :: 37 :: b) w
         = (World (store w) (stdout w ++ [py "ERROR: " ++ a ++ 37 :: b]), Returned tt)).
Proof.
  intros Ha.
  assert (Hw : Forall (fun c => c <> 37) (py "WARNING: " ++ a)).
  { apply Forall_app; split; [now apply plain_literal | exact Ha]. }
  assert (He : Forall (fun c => c <> 37) (py "ERROR: " ++ a)).
  { apply Forall_app; split; [now apply plain_literal | exact Ha]. }
  split; [|split; [|split]].
  - now apply warning_plain.
  - apply error_run. now apply percent_format_plain.
  - intros Hb. unfold Logger.warning, Logger.error.
    rewrite !app_assoc. now rewrite !percent_format_lone.
  - intros Hb. unfold Logger.warning, Logger.error. rewrite !app_assoc.
    rewrite !percent_format_doubled by assumption.
    rewrite percent_format_plain by assumption. cbn [fmap option_fmap option_map].
    unfold print. now rewrite <- !app_assoc.
Qed.

Lemma logger_percent_witness :
  Logger.warning (py "rate ok") (World tt [])
  = (World tt ([] ++ [py "WARNING: rate ok"]), Returned tt)
  /\ Logger.error (py "rate ok") (World tt [])
     = (World tt ([] ++ [py "ERROR: rate ok"]), Returned tt)
  /\ Logger.warning (py "rate 100% sure") (World tt []) = (World tt [], Raised FormatError)
  /\ Logger.error (py "rate 100% sure") (World tt []) = (World tt [], Raised FormatError)
  /\ Logger.warning (py "rate 100%% sure") (World tt [])
     = (World tt ([] ++ [py "WARNING: rate 100% sure"]), Returned tt)
  /\ Logger.error (py "rate 100%% sure") (World tt [])
     = (World tt ([] ++ [py "ERROR: rate 100% sure"]), Returned tt).
Proof.
  assert (Hplain : forall s : string,
            forallb (fun c => negb (c =? 37)) (py s) = true ->
            Forall (fun c => c <> 37) (py s)) by (intros s; apply plain_literal).
  destruct (logger_percent (World tt []) (py "rate ok") [] (Hplain "rate ok"%string eq_refl))
    as (H1 & H2 & _ & _).
  destruct (logger_percent (World tt []) (py "rate 100") (py " sure")
              (Hplain "rate 100"%string eq_refl))
    as (_ & _ & H3 & H4).
  destruct (H3 ltac:(discriminate)) as [H3w H3e].
  destruct (H4 (Hplain " sure"%string eq_refl)) as [H4w H4e].
  split; [exact H1|]. split; [exact H2|]. split; [exact H3w|]. split; [exact H3e|].
  split; [exact H4w | exact H4e].
Defined.

(** ** The redirect decoder *)

Lemma tracking_url_value (value : pystr) :
  value <> [] ->
  Forall (fun c => (url_plain c = true /\ c <> 38) /\ (c <> 37 /\ c <> 43)) value ->
  parse_qs (urlparse_query (tracking_prefix ++ py "u=" ++ value)) !! py "u" = Some [value].
Proof.
  intros Hne Hvalue.
  change (tracking_prefix ++ py "u=" ++ value)
    with (py "https://www.bing.com/ck/a" ++ 63 :: (py "u" ++ py "=" ++ value)).
  rewrite urlparse_query_after.
  - rewrite parse_qs_lookup.
    change (py "u" ++ py "=" ++ value) with (join (py "&") [py "u" ++ py "=" ++ value]).
    rewrite parse_qsl_join.
    + cbn [flat_map]. rewrite app_nil_r.
      rewrite field_same; [reflexivity | reflexivity | exact Hne |].
      eapply Forall_impl; [exact Hvalue|]. now intros c [_ H].
    + discriminate.
    + constructor; [|constructor].
      apply Forall_app. split; [now constructor|].
      apply Forall_app. split; [now constructor|].
      eapply Forall_impl; [exact Hvalue|]. now intros c [[_ H] _].
  - now apply literal_path.
  - apply Forall_app. split; [now constructor|].
    apply Forall_app. split; [now constructor|].
    eapply Forall_impl; [exact Hvalue|]. now intros c [[H _] _].
Qed.

Lemma urlsafe_b64encode_unpadded_plain bs :
  Forall (fun b => 0 <= b < 256) bs ->
  Forall (fun c => (url_plain c = true /\ c <> 38) /\ (c <> 37 /\ c <> 43))
         (urlsafe_b64encode_unpadded bs).
Proof.
  induction bs as [|a|a b|a b c rest IH] using list_ind3; intros Hbs.
  - constructor.
  - apply Forall_cons in Hbs as [Ha _]. cbn [urlsafe_b64encode_unpadded].
    repeat (constructor; [apply b64_char_plain; zlia|]). constructor.
  - apply Forall_cons in Hbs as [Ha Hbs]. apply Forall_cons in Hbs as [Hb _].
    cbn [urlsafe_b64encode_unpadded].
    repeat (constructor; [apply b64_char_plain; zlia|]). constructor.
  - apply Forall_cons in Hbs as [Ha Hbs]. apply Forall_cons in Hbs as [Hb Hbs].
    apply Forall_cons in Hbs as [Hc Hrest]. cbn [urlsafe_b64encode_unpadded app].
    constructor; [apply b64_char_plain; zlia|].
    constructor; [apply b64_char_plain; zlia|].
    constructor; [apply b64_char_plain; zlia|].
    constructor; [apply b64_char_plain; zlia|]. now apply IH.
Qed.

(** X9. The tracking links carry their payload without the [=] padding: the
    decoder pads it again and gives the destination back. *)
Theorem decode_redirect_unpadded_roundtrip {St : Type} (w : world St) (d : pystr)
    (bs : list Z) :
  utf8_encode d = Some bs ->
  decode_redirect
    (Some (tracking_prefix ++ py "u=a1" ++ urlsafe_b64encode_unpadded bs)) w
  = (w, Returned (Some d))
  /\ Z.of_nat (length (urlsafe_b64encode_unpadded bs
                        ++ b64_padding (urlsafe_b64encode_unpadded bs))) mod 4 = 0.
Proof.
  intros Henc. pose proof (utf8_encode_bytes _ _ Henc) as Hbs. split.
  - apply (decode_redirect_unpadded w d bs _ [] Henc); [apply startswith_app|].
    change (py "u=a1" ++ urlsafe_b64encode_unpadded bs)
      with (py "u=" ++ (py "a1" ++ urlsafe_b64encode_unpadded bs)).
    apply tracking_url_value; [discriminate|].
    apply Forall_app. split; [|now apply urlsafe_b64encode_unpadded_plain].
    apply (forallb_Forall (fun c => url_plain c && negb (c =? 38)
                                    && negb (c =? 37) && negb (c =? 43)));
      [|reflexivity].
    intros c. unfold url_plain. lia.
  - rewrite b64_padding_restores.
    pose proof (urlsafe_b64encode_length bs) as H. revert H.
    generalize (Z.of_nat (length (urlsafe_b64encode bs))). intros n. zlia.
Qed.

Lemma decode_redirect_unpadded_roundtrip_witness :
  urlsafe_b64encode_unpadded (py "https://example.com/xy") = py "aHR0cHM6Ly9leGFtcGxlLmNvbS94eQ"
  /\ decode_redirect
       (Some (py "https://www.bing.com/ck/a?u=a1aHR0cHM6Ly9leGFtcGxlLmNvbS94eQ"))
       (World tt [])
     = (World tt [], Returned (Some (py "https://example.com/xy"))).
Proof.
  split; [reflexivity|].
  exact (proj1 (decode_redirect_unpadded_roundtrip (World tt [])
                  (py "https://example.com/xy") (py "https://example.com/xy") eq_refl)).
Defined.

(** ** Reading a decimal rendering back *)

Lemma int_of_digits_uint_acc d acc :
  fold_left (fun acc d => 10 * acc + (d - 48)) (py (NilEmpty.string_of_uint d)) (Z.pos acc)
  = Z.pos (Pos.of_uint_acc d acc).
Proof.
  revert acc. induction d; intros acc; cbn [NilEmpty.string_of_uint Pos.of_uint_acc];
    try reflexivity;
    change (py (String ?a ?s)) with (Z.of_N (N_of_ascii a) :: py s);
    cbn [fold_left]; rewrite <- IHd; f_equal; cbn; lia.
Qed.

Lemma int_of_digits_uint d :
  int_of_digits (py (NilEmpty.string_of_uint d)) = Z.of_N (Pos.of_uint d).
Proof.
  unfold int_of_digits.
  induction d; cbn [NilEmpty.string_of_uint Pos.of_uint]; try reflexivity;
    change (py (String ?a ?s)) with (Z.of_N (N_of_ascii a) :: py s);
    cbn [fold_left];
    first [ exact IHd
          | cbn [Z.of_N]; rewrite <- int_of_digits_uint_acc; f_equal ].
Qed.

Lemma int_of_digits_str_int n : 0 <= n -> int_of_digits (str_int n) = n.
Proof.
  intros Hn. unfold str_int.
  destruct n as [|p|p]; [reflexivity| |lia].
  cbn [Z.to_int NilZero.string_of_int].
  assert (Hnn : Pos.to_uint p <> Decimal.Nil) by apply DecimalPos.Unsigned.to_uint_nonnil.
  unfold NilZero.string_of_uint.
  destruct (Pos.to_uint p) eqn:E; try congruence;
    rewrite <- E; rewrite int_of_digits_uint, DecimalPos.Unsigned.of_to; reflexivity.
Qed.

(** ** The count banner *)

Lemma digits_only_digits a : Forall (fun c => is_digit c = true) a -> digits_only a = a.
Proof.
  induction 1 as [|c a Hc _ IH]; [reflexivity|].
  unfold digits_only in *. cbn [List.filter]. now rewrite Hc, IH.
Qed.

Lemma forallb_digits a : Forall (fun c => is_digit c = true) a -> forallb is_digit a = true.
Proof. induction 1 as [|c a Hc _ IH]; [reflexivity|]. cbn [forallb]. now rewrite Hc, IH. Qed.

Lemma contains_app sub u v : contains sub (u ++ sub ++ v) = true.
Proof.
  induction u as [|c u IH].
  - cbn [app]. destruct (sub ++ v) eqn:E; cbn [contains];
      rewrite <- E, startswith_app; reflexivity.
  - cbn [app contains]. rewrite IH. apply orb_true_r.
Qed.

Lemma is_digit_decimal c : is_digit c = true -> is_decimal c = true.
Proof.
  intros H. unfold is_decimal, decimal_ranges. cbn [existsb fst snd].
  unfold is_digit in H. now rewrite H.
Qed.

Lemma split_dash_digits_range a d rest :
  Forall (fun c => is_digit c = true) a -> is_digit d = true ->
  split_dash_digits (a ++ 45 :: d :: rest) = [a; lstrip_digits (d :: rest)].
Proof.
  intros Ha Hd. apply is_digit_decimal in Hd. induction Ha as [|c a Hc _ IH].
  - cbn [app split_dash_digits]. now rewrite Hd.
  - cbn [app split_dash_digits]. fold (a ++ 45 :: d :: rest). rewrite IH.
    assert (Hne : (c =? 45) = false) by (unfold is_digit, in_range in Hc; lia).
    now rewrite Hne.
Qed.

Lemma split_str_none sep s :
  contains sep s = false -> split_str sep 0 s = [s].
Proof.
  induction s as [|c s IH]; [reflexivity|].
  cbn [contains]. intros H. apply orb_false_elim in H as [H1 H2].
  cbn [split_str]. rewrite H1. now rewrite (IH H2).
Qed.

Lemma split_str_nonempty sep s : forall skip, split_str sep skip s <> [].
Proof.
  induction s as [|c s IH]; intros skip; [discriminate|].
  cbn [split_str]. destruct skip; [|apply IH].
  destruct (startswith sep (c :: s)); [discriminate|].
  destruct (split_str sep 0 s); discriminate.
Qed.

Lemma split_str_of_prefix u s :
  Forall (fun c => c <> 111) u ->
  split_str (py "of") 0 (u ++ s)
  = match split_str (py "of") 0 s with
    | p :: ps => (u ++ p) :: ps
    | [] => [u]
    end.
Proof.
  induction 1 as [|c u Hc _ IH].
  { cbn [app]. pose proof (split_str_nonempty (py "of") s 0%nat).
    now destruct (split_str _ _ s). }
  cbn [app split_str]. rewrite IH.
  assert (Hs : startswith (py "of") (c :: u ++ s) = false).
  { change (py "of") with [111; 102]. cbn [startswith].
    destruct (Z.eqb_spec 111 c); [congruence | reflexivity]. }
  rewrite Hs. now destruct (split_str (py "of") 0 s).
Qed.

(** ** Stripped texts *)

Lemma lstrip_clean s : starts_clean (lstrip s).
Proof.
  induction s as [|c s IH]; [exact I|].
  cbn [lstrip]. destruct (is_space c) eqn:E; [exact IH | exact E].
Qed.

Lemma lstrip_suffix s : exists ws, s = ws ++ lstrip s.
Proof.
  induction s as [|c s [ws IH]]; [now exists []|].
  cbn [lstrip]. destruct (is_space c).
  - exists (c :: ws). cbn [app]. now rewrite <- IH.
  - now exists [].
Qed.

Lemma strip_stripped s : stripped (strip s).
Proof.
  unfold stripped, strip. rewrite rev_involutive. split; [|apply lstrip_clean].
  destruct (lstrip_suffix (rev (lstrip s))) as [ws Hws].
  pose proof (lstrip_clean s) as Hclean.
  assert (Ht : lstrip s = rev (lstrip (rev (lstrip s))) ++ rev ws).
  { rewrite <- rev_app_distr, <- Hws. now rewrite rev_involutive. }
  destruct (rev (lstrip (rev (lstrip s)))) as [|c u]; [exact I|].
  rewrite Ht in Hclean. exact Hclean.
Qed.

Lemma extract_text_stripped (dom : node) (detached : detached_t) (elements : list xitem) :
  stripped (extract_text dom detached elements).
Proof. apply strip_stripped. Qed.

(** ** The redirect decoder on a plain [href] *)

Lemma decode_redirect_plain {St} (href : pystr) (w : world St) :
  href_plain href ->
  exists lines url,
    decode_redirect (Some href) w
    = (World (store w) (stdout w ++ lines), Returned (Some url))
    /\ (length lines <= 1)%nat
    /\ (lines = [] \/ url = href).
Proof.
  intros Hplain.
  assert (Hsame : forall (u : option pystr),
            (w, Returned u) = (World (store w) (stdout w ++ []), Returned u)).
  { intros u. rewrite app_nil_r. now destruct w. }
  destruct (startswith tracking_prefix href) eqn:Hprefix.
  - destruct Hplain as [Hno|Hplain]; [congruence|].
    destruct (parse_qs (urlparse_query href) !! py "u") as [[|value rest]|] eqn:Hu.
    + exists [py "WARNING: Could not parse 'u' parameter from Bing redirect URL: " ++ href],
             href.
      split; [|split; [cbn; lia | now right]].
      unfold decode_redirect. rewrite Hprefix.
      rewrite bool_decide_eq_false_2
        by (eapply startswith_nonempty; [|exact Hprefix]; discriminate).
      cbn [negb andb]. rewrite Hu. erewrite bind_run; [reflexivity|].
      rewrite (warning_plain _ w); [reflexivity|].
      apply Forall_app; split; [now apply plain_literal | exact Hplain].
    + destruct (b64_decode_text (drop 2 value ++ b64_padding (drop 2 value)))
        as [e|d] eqn:Hdec.
      * destruct (decode_redirect_fallback href w Hprefix Hplain) as [line Hline].
        { right. now exists value, rest, e. }
        exists [line], href. split; [exact Hline | split; [cbn; lia | now right]].
      * exists [], d. split; [|split; [cbn; lia | now left]].
        rewrite (decode_redirect_value href value rest d w Hprefix Hu Hdec).
        apply Hsame.
    + destruct (decode_redirect_fallback href w Hprefix Hplain) as [line Hline].
      { now left. }
      exists [line], href. split; [exact Hline | split; [cbn; lia | now right]].
  - exists [], href. split; [|split; [cbn; lia | now left]].
    unfold decode_redirect. rewrite Hprefix, andb_false_r. apply Hsame.
Qed.

(** X10. On a [href] that is not a tracking link, or that holds no [%], the
    redirect decoder returns: the decoded destination, or the [href]
    itself; it prints at most one line, and only when it keeps the
    [href]. *)
Theorem decode_redirect_returns {St : Type} (href : pystr) (w : world St) :
  href_plain href ->
  exists lines url,
    decode_redirect (Some href) w
    = (World (store w) (stdout w ++ lines), Returned (Some url))
    /\ (length lines <= 1)%nat
    /\ (lines = [] \/ url = href).
Proof. apply decode_redirect_plain. Qed.

Lemma decode_redirect_returns_witness :
  exists lines url,
    decode_redirect (Some (py "https://www.bing.com/ck/a?u=a1_w")) (World tt [])
    = (World tt ([] ++ lines), Returned (Some url))
    /\ (length lines <= 1)%nat
    /\ (lines = [] \/ url = py "https://www.bing.com/ck/a?u=a1_w").
Proof.
  refine (decode_redirect_returns (py "https://www.bing.com/ck/a?u=a1_w") (World tt []) _).
  right. apply (forallb_Forall (fun c => negb (c =? 37))); [|reflexivity].
  intros c. lia.
Defined.

(** ** The loop over the result blocks *)

Lemma link_href_plain (dom : node) (link_element : xitem) (href : pystr) :
  hrefs_plain dom -> link_href dom link_element = Some href -> href_plain href.
Proof.
  intros Hdom. destruct link_element as [link|s]; [|discriminate].
  cbn [link_href]. destruct (node_at dom link) as [n|] eqn:En; [|discriminate].
  cbn. intros Hhref. exact (Hdom link n href En Hhref).
Qed.

Lemma response_item_returns (dom : node) (block_element : xitem) (w : world detached_t) :
  hrefs_plain dom ->
  exists detached lines item,
    response_item dom block_element w
    = (World detached (stdout w ++ lines), Returned item).
Proof.
  intros Hdom.
  assert (Hsame : forall (u : option result),
            (w, Returned u) = (World (store w) (stdout w ++ []), Returned u)).
  { intros u. rewrite app_nil_r. now destruct w. }
  destruct block_element as [block|s].
  2:{ exists (store w), [], None. apply Hsame. }
  unfold response_item.
  rewrite (bind_run _ _ w w (store w)) by reflexivity. cbv zeta.
  destruct (eval_xpath_getindex dom (store w) (Some block) XHeadingLinks 0)
    as [link_element|] eqn:Elink.
  - destruct (remove_icons_returns dom
                (eval_xpath dom (store w) (Some block) XParagraphs) w) as [detached Erm].
    rewrite (bind_run _ _ _ _ _ Erm).
    rewrite (bind_run _ _ _ (World detached (stdout w)) detached) by reflexivity.
    destruct (link_href dom link_element) as [href|] eqn:Ehref.
    + destruct (decode_redirect_plain href (World detached (stdout w))
                  (link_href_plain dom link_element href Hdom Ehref))
        as (lines & url & Hdec & _ & _).
      rewrite (bind_run _ _ _ _ _ Hdec). cbn [store stdout].
      now eexists detached, lines, _.
    + exists detached, [], (Some (Item None
                                    (extract_text dom (store w) [link_element])
                                    (extract_text dom detached
                                       (eval_xpath dom (store w) (Some block) XParagraphs)))).
      rewrite app_nil_r. reflexivity.
  - exists (store w), [], None. unfold Logger.debug.
    rewrite (bind_run _ _ w w tt) by reflexivity. apply Hsame.
Qed.

Lemma response_items_returns (dom : node) (blocks : list xitem) :
  hrefs_plain dom ->
  forall w : world detached_t,
  exists detached lines results,
    response_items dom blocks w
    = (World detached (stdout w ++ lines), Returned results).
Proof.
  intros Hdom. induction blocks as [|block blocks IH]; intros w.
  - exists (store w), [], []. rewrite app_nil_r. now destruct w.
  - cbn [response_items].
    destruct (response_item_returns dom block w Hdom) as (d1 & l1 & item & E1).
    rewrite (bind_run _ _ _ _ _ E1).
    destruct (IH (World d1 (stdout w ++ l1))) as (d2 & l2 & results & E2).
    rewrite (bind_run _ _ _ _ _ E2). cbn [stdout].
    exists d2, (l1 ++ l2), (match item with Some r => r :: results | None => results end).
    now rewrite app_assoc.
Qed.

Lemma response_item_clean (dom : node) (block_element : xitem) (w w' : world detached_t)
    (r : result) :
  response_item dom block_element w = (w', Returned (Some r)) -> clean_item r.
Proof.
  destruct block_element as [block|s]; [|discriminate].
  unfold response_item.
  rewrite (bind_run _ _ w w (store w)) by reflexivity. cbv zeta.
  destruct (eval_xpath_getindex dom (store w) (Some block) XHeadingLinks 0)
    as [link_element|].
  - intros H. apply bind_returned in H as (w1 & [] & _ & H).
    rewrite (bind_run _ _ w1 w1 (store w1)) in H by reflexivity.
    apply bind_returned in H as (w2 & url & _ & H).
    injection H as _ <-. split; apply extract_text_stripped.
  - unfold Logger.debug. rewrite (bind_run _ _ w w tt) by reflexivity. discriminate.
Qed.

Lemma response_items_clean (dom : node) (blocks : list xitem) :
  forall (w w' : world detached_t) (results : list result),
    response_items dom blocks w = (w', Returned results) ->
    Forall clean_item results /\ (length results <= length blocks)%nat.
Proof.
  induction blocks as [|block blocks IH]; intros w w' results; cbn [response_items].
  - intros [= _ <-]. split; [constructor | reflexivity].
  - intros H. apply bind_returned in H as (w1 & item & E1 & H).
    apply bind_returned in H as (w2 & rest & E2 & H).
    injection H as _ <-. destruct (IH w1 w2 rest E2) as [Hall Hlen].
    destruct item as [r|].
    + split; [|cbn [length]; lia].
      constructor; [|exact Hall]. exact (response_item_clean dom block w w1 r E1).
    + split; [exact Hall | cbn [length]; lia].
Qed.

(** ** The nodes of a document *)

Lemma forall_nodes_eq (f : node -> bool) (n : node) :
  forall_nodes f n = f n && forallb (forall_nodes f) (children_of n).
Proof.
  destruct n as [tag attrib text children tail|text tail]; reflexivity.
Qed.

Lemma forall_nodes_at (f : node -> bool) (n : node) :
  forall_nodes f n = true ->
  forall (p : path) (m : node), node_at n p = Some m -> f m = true.
Proof.
  intros H p. revert n H. induction p as [|i p IH]; intros n H m.
  - cbn [node_at]. intros [= <-]. rewrite forall_nodes_eq in H.
    now apply andb_true_iff in H as [H _].
  - cbn [node_at]. destruct (children_of n !! i) as [c|] eqn:Ec; [|discriminate].
    apply IH. rewrite forall_nodes_eq in H. apply andb_true_iff in H as [_ H].
    rewrite forallb_forall in H. apply H.
    apply list_elem_of_In. eapply list_elem_of_lookup_2, Ec.
Qed.

Lemma hrefs_plain_check (dom : node) :
  forall_nodes href_plainb dom = true -> hrefs_plain dom.
Proof.
  intros H p n href Hn Hhref.
  pose proof (forall_nodes_at _ _ H p n Hn) as Hb. unfold href_plainb in Hb.
  rewrite Hhref in Hb. apply orb_true_iff in Hb as [Hb|Hb].
  - left. now destruct (startswith tracking_prefix href).
  - right. revert Hb. apply forallb_Forall. intros c. lia.
Qed.

Lemma walk_children_parents (P : node -> Prop) (n0 : node) (cs : list node) :
  P n0 -> Forall (parents_in P) cs ->
  forall (d : detached_t) (depth : nat) (p : path) (i : nat) (v : visit),
    v ∈ walk_children d n0 depth p i cs ->
    exists m, v_parent v = Some m /\ P m.
Proof.
  intros Hn0. induction 1 as [|c cs Hc _ IH]; intros d depth p i v Hv.
  - now apply elem_of_nil in Hv.
  - cbn [walk_children] in Hv. apply elem_of_app in Hv as [Hv|Hv].
    + destruct (decide (p ++ [i] ∈ d)); [now apply elem_of_nil in Hv|].
      destruct (Hc d (Some n0) (S depth) (p ++ [i]) v Hv) as [E|E]; [|exact E].
      now exists n0.
    + exact (IH d depth p (S i) v Hv).
Qed.

Lemma walk_parents (P : node -> Prop) (n : node) :
  (forall (p : path) (m : node), node_at n p = Some m -> P m) -> parents_in P n.
Proof.
  induction n as [tag attrib text children tail IH|text tail] using node_children_ind;
    intros Hall d parent depth p v Hv;
    rewrite walk_eq in Hv; apply elem_of_cons in Hv as [->|Hv]; try (now left).
  right.
    apply (walk_children_parents P (Element tag attrib text children tail) children)
      with (d := d) (depth := depth) (p := p) (i := 0%nat); [| |exact Hv].
    + now apply (Hall []).
    + apply Forall_forall. intros c Hc.
      rewrite Forall_forall in IH. apply (IH c Hc).
      intros q m Hq. apply list_elem_of_lookup_1 in Hc as [i Hi].
      apply (Hall (i :: q)). cbn [node_at children_of]. now rewrite Hi.
Qed.

Lemma result_elements_none (dom : node) :
  (forall (p : path) (n : node), node_at dom p = Some n -> results_list n = false) ->
  result_elements dom = [].
Proof.
  intros Hall. unfold result_elements, eval_xpath_list, eval_xpath, xpath_eval.
  pose proof (walk_parents (fun m => results_list m = false) dom Hall
                ∅ None 0%nat []) as Hpar.
  assert (Hnil : forall vs : list visit,
            (forall v, v ∈ vs -> v_parent v = None
                                 \/ exists m, v_parent v = Some m /\ results_list m = false) ->
            List.filter
              (fun v => has_tag (py "li") (v_node v)
                        && attrib_contains (py "class") (py "b_algo") (v_node v)
                        && parent_is (fun o => has_tag (py "ol") o
                                               && attrib_is (py "id") (py "b_results") o) v)
              vs = []).
  { induction vs as [|v vs IH]; intros Hvs; [reflexivity|].
    cbn [List.filter]. rewrite IH by (intros v' Hv'; apply Hvs; now right).
    assert (Hp : parent_is (fun o => has_tag (py "ol") o
                                     && attrib_is (py "id") (py "b_results") o) v = false).
    { unfold parent_is. destruct (Hvs v ltac:(left)) as [->|(m & -> & Hm)];
        [reflexivity | exact Hm]. }
    rewrite Hp. now rewrite andb_false_r. }
  cbn [node_at]. rewrite Hnil; [reflexivity|]. intros v Hv. now apply Hpar.
Qed.

(** X13. A page without the list of results: [response] returns the summary
    alone, with a total of [0]; it prints nothing and detaches nothing. *)
Theorem response_without_results_list (dom : node) (requested_pageno : Z)
    (out : list pystr) :
  (forall (p : path) (n : node), node_at dom p = Some n -> results_list n = false) ->
  response dom requested_pageno (World ∅ out)
  = (World ∅ out, Returned [NumberOfResults 0]).
Proof.
  intros Hall. pose proof (result_elements_none dom Hall) as Hnone.
  unfold response. fold (result_elements dom). rewrite Hnone.
  cbn [response_items].
  rewrite (bind_run _ _ _ (World ∅ out) []) by reflexivity.
  reflexivity.
Qed.

Lemma response_without_results_list_witness :
  response sample_notice_page 3 (World ∅ [])
  = (World ∅ [], Returned [NumberOfResults 0]).
Proof.
  refine (response_without_results_list sample_notice_page 3 [] _).
  intros p n Hn.
  pose proof (forall_nodes_at (fun n => negb (results_list n)) sample_notice_page
                ltac:(vm_compute; reflexivity) p n Hn) as H.
  cbv beta in H. now apply negb_true_iff in H.
Defined.

Lemma remove_icons_nothing (dom : node) (paragraphs : list xitem)
    (d : detached_t) (out : list pystr) :
  (forall p, XElem p ∈ paragraphs -> xpath_eval dom d p XIcons = []) ->
  remove_icons dom paragraphs (World d out) = (World d out, Returned tt).
Proof.
  unfold remove_icons. induction paragraphs as [|p_elem paragraphs IH]; intros Hnone.
  - reflexivity.
  - cbn [for_each].
    rewrite (bind_run _ _ _ (World d out) tt).
    + apply IH. intros p Hp. apply Hnone. now right.
    + destruct p_elem as [p|s]; [|reflexivity].
      rewrite (bind_run _ _ _ (World d out) d) by reflexivity.
      rewrite (Hnone p) by left. reflexivity.
Qed.

(** X16. The cleaning of the paragraphs of a block returns, leaves no icon
    below any of them, and has nothing left to do when it is run again. *)
Theorem remove_icons_cleans (dom : node) (paragraphs : list xitem)
    (d : detached_t) (out : list pystr) :
  exists d',
    remove_icons dom paragraphs (World d out) = (World d' out, Returned tt)
    /\ d ⊆ d'
    /\ (forall p, XElem p ∈ paragraphs -> xpath_eval dom d' p XIcons = [])
    /\ remove_icons dom paragraphs (World d' out) = (World d' out, Returned tt).
Proof.
  destruct (remove_icons_clears dom paragraphs d out) as (d' & Hrun & Hsub & Hnone).
  exists d'. repeat split; try assumption.
  now apply remove_icons_nothing.
Qed.

Lemma remove_icons_cleans_witness :
  exists d',
    remove_icons sample_short_page [XElem [0; 1; 0; 1]%nat] (World ∅ [])
    = (World d' [], Returned tt)
    /\ xpath_eval sample_short_page d' [0; 1; 0; 1]%nat XIcons = []
    /\ remove_icons sample_short_page [XElem [0; 1; 0; 1]%nat] (World d' [])
       = (World d' [], Returned tt).
Proof.
  destruct (remove_icons_cleans sample_short_page [XElem [0; 1; 0; 1]%nat] ∅ [])
    as (d' & Hrun & _ & Hnone & Hagain).
  exists d'. split; [exact Hrun|]. split; [|exact Hagain].
  apply Hnone. left.
Defined.

Lemma text_content_eq (detached : detached_t) (p : path) (n : node) :
  text_content detached p n
  = match n with
    | Element _ _ text children _ => text ++ content_children detached p 0 children
    | Comment _ _ => []
    end.
Proof.
  destruct n as [tag attrib text children tail|text tail]; [|reflexivity].
  cbn [text_content]. f_equal.
  generalize 0%nat. induction children as [|c cs IH]; intros i; [reflexivity|].
  cbn [content_children]. now rewrite <- IH.
Qed.

Lemma content_children_detached (d : detached_t) (n : node) (p : path) (cs : list node) :
  Forall (fun c => icon_span c = true) cs ->
  forall i : nat,
    List.filter icon_visit (walk_children d n 0 p i cs) = [] ->
    content_children d p i cs = [].
Proof.
  induction 1 as [|c cs Hc _ IH]; intros i Hnone; [reflexivity|].
  cbn [content_children walk_children] in *.
  rewrite List.filter_app in Hnone. apply app_eq_nil in Hnone as [H1 H2].
  rewrite (IH (S i) H2), app_nil_r.
  destruct (decide (p ++ [i] ∈ d)); [reflexivity|].
  exfalso. rewrite walk_eq in H1. cbn [List.filter] in H1.
  unfold icon_visit at 1 in H1. cbn [v_node v_depth] in H1.
  unfold icon_span in Hc. rewrite Hc in H1. discriminate H1.
Qed.

(** X17. A paragraph whose children are all badge spans: once cleaned, its
    content is its own leading text, stripped; the text of the badges
    and the text that follows each of them are gone. *)
Theorem cleaning_drops_tails (dom : node) (d : detached_t) (out : list pystr) (p : path)
    (tag : pystr) (attrib : list (pystr * pystr)) (text : pystr) (children : list node)
    (tail : pystr) :
  node_at dom p = Some (Element tag attrib text children tail) ->
  Forall (fun c => icon_span c = true) children ->
  exists d',
    remove_icons dom [XElem p] (World d out) = (World d' out, Returned tt)
    /\ extract_text dom d' [XElem p] = strip text.
Proof.
  intros Hp Hicons.
  destruct (remove_icons_clears dom [XElem p] d out) as (d' & Hrun & _ & Hnone).
  exists d'. split; [exact Hrun|].
  specialize (Hnone p ltac:(left)). rewrite xpath_eval_icons, Hp in Hnone.
  cbn [children_of] in Hnone.
  assert (Hfilter : List.filter icon_visit
                      (walk_children d' (Element tag attrib text children tail) 0 p 0 children)
                    = []).
  { destruct (List.filter icon_visit _); [reflexivity | discriminate Hnone]. }
  unfold extract_text. cbn [fmap list_fmap join item_text]. rewrite Hp.
  rewrite text_content_eq.
  rewrite (content_children_detached d' _ p children Hicons 0%nat Hfilter).
  now rewrite app_nil_r.
Qed.

Lemma cleaning_drops_tails_witness :
  exists d',
    remove_icons sample_short_page [XElem [0; 1; 0; 1]%nat] (World ∅ [])
    = (World d' [], Returned tt)
    /\ extract_text sample_short_page d' [XElem [0; 1; 0; 1]%nat] = strip (py "").
Proof.
  refine (cleaning_drops_tails sample_short_page ∅ [] [0; 1; 0; 1]%nat
            (py "p") [] (py "") _ (py "") _ _).
  - reflexivity.
  - repeat constructor.
Defined.

(** ** An ordinary link *)

(** X18. A result block whose first heading link has an ordinary
    [href] (one that does not start with the tracking prefix) gives one
    item: its [url] is the [href], unchanged; its title is the text of
    that link; its content is the text of the paragraphs of the block,
    read once the badges are detached.  Nothing is printed, and nothing
    that was detached comes back. *)
Theorem response_item_plain_link (dom : node) (block : path) (w : world detached_t)
    (link_element : xitem) (href : pystr) :
  eval_xpath_getindex dom (store w) (Some block) XHeadingLinks 0 = Some link_element ->
  link_href dom link_element = Some href ->
  startswith tracking_prefix href = false ->
  exists detached,
    response_item dom (XElem block) w
    = (World detached (stdout w),
       Returned (Some (Item (Some href)
                         (extract_text dom (store w) [link_element])
                         (extract_text dom detached
                            (eval_xpath dom (store w) (Some block) XParagraphs)))))
    /\ store w ⊆ detached
    /\ forall p, XElem p ∈ eval_xpath dom (store w) (Some block) XParagraphs ->
                 xpath_eval dom detached p XIcons = [].
Proof.
  intros Hlink Hhref Hplain. unfold response_item.
  rewrite (bind_run _ _ w w (store w)) by reflexivity. cbv zeta.
  rewrite Hlink.
  destruct w as [d out]. cbn [store stdout].
  destruct (remove_icons_clears dom (eval_xpath dom d (Some block) XParagraphs) d out)
    as (detached & Erm & Hsub & Hnone).
  exists detached. split; [|split; [exact Hsub | exact Hnone]].
  rewrite (bind_run _ _ _ _ _ Erm).
  rewrite (bind_run _ _ _ (World detached out) detached) by reflexivity.
  rewrite Hhref.
  assert (Hdec : decode_redirect (Some href) (World detached out)
                 = (World detached out, Returned (Some href))).
  { unfold decode_redirect. rewrite Hplain. now rewrite andb_false_r. }
  now rewrite (bind_run _ _ _ _ _ Hdec).
Qed.

Lemma response_item_plain_link_witness :
  exists detached,
    response_item sample_short_page (XElem [0; 1; 0]%nat) (World ∅ [])
    = (World detached [],
       Returned (Some (Item (Some (py "https://example.com/x"))
                         (extract_text sample_short_page ∅ [XElem [0; 1; 0; 0; 0]%nat])
                         (extract_text sample_short_page detached
                            (eval_xpath sample_short_page ∅ (Some [0; 1; 0]%nat)
                               XParagraphs)))))
    /\ extract_text sample_short_page ∅ [XElem [0; 1; 0; 0; 0]%nat] = py "Example".
Proof.
  destruct (response_item_plain_link sample_short_page [0; 1; 0]%nat (World ∅ [])
              (XElem [0; 1; 0; 0; 0]%nat) (py "https://example.com/x"))
    as (detached & Hrun & _ & _).
  - reflexivity.
  - reflexivity.
  - reflexivity.
  - exists detached. split; [exact Hrun | reflexivity].
Defined.

(** ** Reading the count banner *)

Lemma int_str_digits (s : pystr) :
  s <> [] -> (length s <= int_max_str_digits)%nat ->
  int_str s = Returned (int_of_digits s).
Proof.
  intros Hne Hlen. unfold int_str.
  rewrite bool_decide_eq_false_2 by assumption.
  destruct (Nat.ltb_spec int_max_str_digits (length s)); [lia | reflexivity].
Qed.

Lemma int_str_long (s : pystr) :
  (int_max_str_digits < length s)%nat -> int_str s = Raised ValueError.
Proof.
  intros Hlen. unfold int_str. destruct (bool_decide (s = [])); [reflexivity|].
  destruct (Nat.ltb_spec int_max_str_digits (length s)); [reflexivity | lia].
Qed.

Lemma int_str_cases (s : pystr) :
  int_str s = Returned (int_of_digits s) \/ int_str s = Raised ValueError.
Proof.
  unfold int_str. destruct (bool_decide (s = [])); [now right|].
  destruct (int_max_str_digits <? length s)%nat; [now right | now left].
Qed.

(** The parts of a banner [a-b of t]. *)
Lemma banner_range_parts (a b t : pystr) :
  Forall (fun c => is_digit c = true) a ->
  b <> [] -> Forall (fun c => is_digit c = true) b ->
  contains (py "of") t = false ->
  let banner := a ++ py "-" ++ b ++ py " of " ++ t in
  contains (py "-") banner = true
  /\ first_part_numeric banner = a
  /\ numeric_part_of_total_count banner = digits_only t.
Proof.
  intros Ha Hbne Hb Ht. cbv zeta.
  assert (Hdash : contains (py "-") (a ++ py "-" ++ b ++ py " of " ++ t) = true)
    by apply contains_app.
  assert (Hsplit : exists tl, split_dash_digits (a ++ py "-" ++ b ++ py " of " ++ t) = [a; tl]).
  { destruct b as [|d b]; [congruence|]. apply Forall_cons in Hb as [Hd _].
    eexists. apply (split_dash_digits_range a d _ Ha Hd). }
  destruct Hsplit as [tl Hsplit].
  split; [exact Hdash|]. split.
  - unfold first_part_numeric. rewrite Hsplit.
    change (default [] (head [a; tl])) with a. now apply digits_only_digits.
  - unfold numeric_part_of_total_count. rewrite Hdash.
    assert (Hof : contains (py "of") (a ++ py "-" ++ b ++ py " of " ++ t) = true).
    { replace (a ++ py "-" ++ b ++ py " of " ++ t)
        with ((a ++ py "-" ++ b ++ py " ") ++ py "of" ++ (32 :: t))
        by (now rewrite <- !app_assoc).
      apply contains_app. }
    rewrite Hof.
    assert (Hlast : split_str (py "of") 0 (a ++ py "-" ++ b ++ py " of " ++ t)
                    = [a ++ py "-" ++ b ++ py " "; 32 :: t]).
    { replace (a ++ py "-" ++ b ++ py " of " ++ t)
        with ((a ++ py "-" ++ b ++ py " ") ++ py "of" ++ (32 :: t))
        by (now rewrite <- !app_assoc).
      rewrite split_str_of_prefix.
      - change (py "of" ++ 32 :: t) with (111 :: 102 :: 32 :: t).
        cbn [split_str]. change (py "of") with [111; 102].
        cbn [startswith length Nat.sub]. rewrite !Z.eqb_refl. cbn [andb].
        rewrite split_str_none; [now rewrite app_nil_r|].
        cbn [contains startswith]. exact Ht.
      - assert (Hdig : forall l, Forall (fun c => is_digit c = true) l ->
                                 Forall (fun c => c <> 111) l).
        { intros l Hl. eapply Forall_impl; [exact Hl|].
          intros c Hc. unfold is_digit, in_range in Hc. lia. }
        assert (Hlit : forall l : string,
                  forallb (fun c => negb (c =? 111)) (py l) = true ->
                  Forall (fun c => c <> 111) (py l)).
        { intros l. apply forallb_Forall. intros c. lia. }
        apply Forall_app; split; [now apply Hdig|].
        apply Forall_app; split; [now apply Hlit|].
        apply Forall_app; split; [now apply Hdig | now apply Hlit]. }
    rewrite Hlast.
    change (default [] (last [a ++ py "-" ++ b ++ py " "; 32 :: t])) with (32 :: t).
    reflexivity.
Qed.

Lemma banner_start_index_digits (banner : pystr) :
  contains (py "-") banner = true -> first_part_numeric banner <> [] ->
  banner_start_index banner = int_str (first_part_numeric banner).
Proof.
  intros Hdash Hne. unfold banner_start_index. rewrite Hdash.
  rewrite bool_decide_eq_false_2 by assumption.
  assert (Hall : forallb is_digit (first_part_numeric banner) = true).
  { unfold first_part_numeric, digits_only. apply forallb_forall.
    intros c Hc. now apply filter_In in Hc. }
  now rewrite Hall.
Qed.

Lemma banner_total_read {St : Type} (banner : pystr) (w : world St) :
  (length (numeric_part_of_total_count banner) <= int_max_str_digits)%nat ->
  banner_total banner w
  = (w, Returned (int_of_digits (numeric_part_of_total_count banner))).
Proof.
  intros Hlen. unfold banner_total.
  destruct (numeric_part_of_total_count banner) as [|c s] eqn:E; [reflexivity|].
  change (0 <? length (c :: s))%nat with true. cbv iota.
  now rewrite int_str_digits.
Qed.

Lemma banner_total_long {St : Type} (banner : pystr) (w : world St) :
  (int_max_str_digits < length (numeric_part_of_total_count banner))%nat ->
  banner_total banner w
  = match percent_format
            (py "WARNING: " ++ py "Could not parse total_results_count from: '"
             ++ numeric_part_of_total_count banner
             ++ py "' (derived from raw string: '" ++ banner ++ py "')") with
    | Some line => (World (store w) (stdout w ++ [line]), Returned 0)
    | None => (w, Raised FormatError)
    end.
Proof.
  intros Hlen. unfold banner_total.
  assert (Hpos : (0 <? length (numeric_part_of_total_count banner))%nat = true)
    by (apply Nat.ltb_lt; lia).
  rewrite Hpos, (int_str_long _ Hlen).
  unfold Logger.warning, mbind, M_bind.
  destruct (percent_format _); reflexivity.
Qed.

(** The code reads the banners of the two shapes as the specification
    does, and prints nothing. *)
Lemma banner_reads_sound (banner : pystr) (start total : Z) :
  banner_reads banner start total ->
  banner_start_index banner = Returned start
  /\ forall (St : Type) (w : world St), banner_total banner w = (w, Returned total).
Proof.
  intros [a b t Hane Ha Hla Hbne Hb Ht Hlt | banner' Hdash Hlen].
  - destruct (banner_range_parts a b t Ha Hbne Hb Ht) as (Hdash & Hfirst & Hnum).
    split.
    + rewrite banner_start_index_digits by (rewrite ?Hfirst; assumption).
      rewrite Hfirst. now apply int_str_digits.
    + intros St w. rewrite banner_total_read by (now rewrite Hnum). now rewrite Hnum.
  - assert (Hnum : numeric_part_of_total_count banner' = digits_only banner')
      by (unfold numeric_part_of_total_count; now rewrite Hdash).
    split.
    + unfold banner_start_index. now rewrite Hdash.
    + intros St w. rewrite banner_total_read by (now rewrite Hnum). now rewrite Hnum.
Qed.

(** ** The runs of the page check *)

Lemma response_no_blocks (dom : node) (requested_pageno : Z) (out : list pystr) :
  result_elements dom = [] ->
  response dom requested_pageno (World ∅ out)
  = (World ∅ out, Returned [NumberOfResults 0]).
Proof.
  intros Hnone. unfold response. fold (result_elements dom). rewrite Hnone.
  cbn [response_items].
  rewrite (bind_run _ _ _ (World ∅ out) []) by reflexivity.
  reflexivity.
Qed.

Lemma response_loop_raises (dom : node) (requested_pageno : Z) (out : list pystr)
    (w1 : world detached_t) (e : exn) :
  response_items dom (result_elements dom) (World ∅ out) = (w1, Raised e) ->
  response dom requested_pageno (World ∅ out) = (w1, Raised e).
Proof. intros Hloop. unfold response. fold (result_elements dom). now apply bind_raised. Qed.

Lemma response_start_raises (dom : node) (requested_pageno : Z) (out : list pystr)
    (w1 : world detached_t) (results : list result) (e : exn) :
  response_items dom (result_elements dom) (World ∅ out) = (w1, Returned results) ->
  result_elements dom <> [] ->
  banner_start_index (result_count_container_str dom (store w1)) = Raised e ->
  response dom requested_pageno (World ∅ out) = (w1, Raised e).
Proof.
  intros Hloop Hne Hstart. unfold response. fold (result_elements dom).
  rewrite (bind_run _ _ _ _ _ Hloop).
  rewrite bool_decide_eq_false_2 by assumption.
  rewrite (bind_run _ _ w1 w1 (store w1)) by reflexivity. cbv zeta.
  apply bind_raised. unfold lift. now rewrite Hstart.
Qed.

Lemma response_total_raises (dom : node) (requested_pageno : Z) (out : list pystr)
    (w1 w2 : world detached_t) (results : list result) (start : Z) (e : exn) :
  response_items dom (result_elements dom) (World ∅ out) = (w1, Returned results) ->
  result_elements dom <> [] ->
  banner_start_index (result_count_container_str dom (store w1)) = Returned start ->
  banner_total (result_count_container_str dom (store w1)) w1 = (w2, Raised e) ->
  response dom requested_pageno (World ∅ out) = (w2, Raised e).
Proof.
  intros Hloop Hne Hstart Htotal. unfold response. fold (result_elements dom).
  rewrite (bind_run _ _ _ _ _ Hloop).
  rewrite bool_decide_eq_false_2 by assumption.
  rewrite (bind_run _ _ w1 w1 (store w1)) by reflexivity. cbv zeta.
  rewrite (bind_run _ _ w1 w1 start) by (unfold lift; now rewrite Hstart).
  now apply bind_raised.
Qed.

(** What [response] does once the loop over the blocks has returned
    [results] and the banner has given a start offset and a total. *)
Lemma response_checked (dom : node) (requested_pageno : Z) (out : list pystr)
    (w1 w2 : world detached_t) (results : list result) (start total : Z) :
  response_items dom (result_elements dom) (World ∅ out) = (w1, Returned results) ->
  result_elements dom <> [] ->
  banner_start_index (result_count_container_str dom (store w1)) = Returned start ->
  banner_total (result_count_container_str dom (store w1)) w1 = (w2, Returned total) ->
  response dom requested_pageno (World ∅ out)
  = if beyond_last_page requested_pageno start total then
      (World (store w2)
         (stdout w2 ++ [py "WARNING: "
                        ++ page_one_warning requested_pageno
                             (_page_offset requested_pageno) start total]),
       Returned [])
    else if (1 <? requested_pageno) && negb (start =? _page_offset requested_pageno) then
      (World (store w2)
         (stdout w2 ++ [py "WARNING: "
                        ++ mismatch_warning requested_pageno
                             (_page_offset requested_pageno) start]),
       Returned (results ++ [NumberOfResults total]))
    else (w2, Returned (results ++ [NumberOfResults total])).
Proof.
  intros Hloop Hne Hstart Htotal. unfold response. fold (result_elements dom).
  rewrite (bind_run _ _ _ _ _ Hloop).
  rewrite bool_decide_eq_false_2 by assumption.
  rewrite (bind_run _ _ w1 w1 (store w1)) by reflexivity. cbv zeta.
  rewrite (bind_run _ _ w1 w1 start) by (unfold lift; now rewrite Hstart).
  rewrite (bind_run _ _ _ _ _ Htotal).
  unfold beyond_last_page.
  destruct ((1 <? requested_pageno) && negb (start =? _page_offset requested_pageno));
    cbn [andb]; [|reflexivity].
  destruct ((total <? _page_offset requested_pageno) && (0 <? total) && (start =? 1))
    eqn:Ebeyond.
  - erewrite bind_run; [reflexivity|].
    apply (warning_plain (page_one_warning _ _ _ _)), page_one_warning_plain.
  - erewrite bind_run; [reflexivity|].
    apply (warning_plain (mismatch_warning _ _ _)), mismatch_warning_plain.
Qed.

(** What a run of [response] that returns went through. *)
Lemma response_returned (dom : node) (requested_pageno : Z) (out : list pystr)
    (w' : world detached_t) (returned : list result) :
  response dom requested_pageno (World ∅ out) = (w', Returned returned) ->
  exists w1 results,
    response_items dom (result_elements dom) (World ∅ out) = (w1, Returned results)
    /\ ((exists total, returned = results ++ [NumberOfResults total])
        \/ (returned = [] /\ 1 < requested_pageno /\ result_elements dom <> []
            /\ banner_start_index (result_count_container_str dom (store w1))
               = Returned 1)).
Proof.
  intros H.
  assert (Hloop : exists w1 results,
             response_items dom (result_elements dom) (World ∅ out) = (w1, Returned results)).
  { unfold response in H. fold (result_elements dom) in H.
    apply bind_returned in H as (w1 & results & E & _). now exists w1, results. }
  destruct Hloop as (w1 & results & Hloop). exists w1, results. split; [exact Hloop|].
  destruct (decide (result_elements dom = [])) as [Hnone|Hne].
  { rewrite (response_no_blocks dom requested_pageno out Hnone) in H.
    injection H as _ <-. left. exists 0.
    unfold response_items in Hloop. rewrite Hnone in Hloop.
    injection Hloop as _ <-. reflexivity. }
  destruct (banner_start_index (result_count_container_str dom (store w1)))
    as [start|e] eqn:Hstart.
  2:{ rewrite (response_start_raises dom requested_pageno out w1 results e Hloop Hne Hstart)
        in H. discriminate H. }
  destruct (banner_total (result_count_container_str dom (store w1)) w1)
    as [w2 [total|e]] eqn:Htotal.
  2:{ rewrite (response_total_raises dom requested_pageno out w1 w2 results start e
                 Hloop Hne Hstart Htotal) in H. discriminate H. }
  rewrite (response_checked dom requested_pageno out w1 w2 results start total
             Hloop Hne Hstart Htotal) in H.
  destruct (beyond_last_page requested_pageno start total) eqn:Eb.
  - injection H as _ <-. right. unfold beyond_last_page in Eb.
    assert (Hs : start = 1) by lia. subst start.
    repeat split; [lia | exact Hne].
  - left. exists total.
    destruct ((1 <? requested_pageno) && negb (start =? _page_offset requested_pageno));
      now injection H as _ <-.
Qed.

Lemma after_blocks_run (dom : node) (out : list pystr) (w1 : world detached_t)
    (o : outcome (list result)) :
  response_items dom (result_elements dom) (World ∅ out) = (w1, o) ->
  after_blocks dom out = w1.
Proof. intros H. unfold after_blocks. now rewrite H. Qed.

(** On a document whose hrefs hand no [%] to the logger and whose
    banner reads as [start] and [total], the loop returns and the page
    check goes by [start] and [total]. *)
Lemma response_reads (dom : node) (requested_pageno : Z) (out : list pystr)
    (start total : Z) :
  hrefs_plain dom -> result_elements dom <> [] ->
  banner_reads (count_banner dom out) start total ->
  exists (lines : list pystr) (results : list result),
    stdout (after_blocks dom out) = out ++ lines
    /\ response_items dom (result_elements dom) (World ∅ out)
       = (after_blocks dom out, Returned results)
    /\ response dom requested_pageno (World ∅ out)
       = if beyond_last_page requested_pageno start total then
           (World (store (after_blocks dom out))
              (stdout (after_blocks dom out)
               ++ [py "WARNING: "
                   ++ page_one_warning requested_pageno
                        (_page_offset requested_pageno) start total]),
            Returned [])
         else if (1 <? requested_pageno)
                 && negb (start =? _page_offset requested_pageno) then
           (World (store (after_blocks dom out))
              (stdout (after_blocks dom out)
               ++ [py "WARNING: "
                   ++ mismatch_warning requested_pageno
                        (_page_offset requested_pageno) start]),
            Returned (results ++ [NumberOfResults total]))
         else (after_blocks dom out, Returned (results ++ [NumberOfResults total])).
Proof.
  intros Hplain Hne Hreads.
  destruct (response_items_returns dom (result_elements dom) Hplain (World ∅ out))
    as (detached & lines & results & Hloop).
  cbn [stdout] in Hloop.
  pose proof (after_blocks_run _ _ _ _ Hloop) as Hafter.
  unfold count_banner in Hreads. rewrite Hafter in *.
  destruct (banner_reads_sound _ _ _ Hreads) as [Hstart Htotal].
  exists lines, results. split; [reflexivity|]. split; [exact Hloop|].
  exact (response_checked dom requested_pageno out _ _ results start total
           Hloop Hne Hstart (Htotal _ _)).
Qed.

(** A banner [a-b of t] given by its parts, with the conditions of
    [reads_range] as one boolean. *)
Lemma banner_reads_range_check (banner a b t : pystr) (start total : Z) :
  banner = a ++ py "-" ++ b ++ py " of " ++ t ->
  negb (bool_decide (a = [])) && forallb is_digit a
  && (length a <=? int_max_str_digits)%nat
  && negb (bool_decide (b = [])) && forallb is_digit b
  && negb (contains (py "of") t)
  && (length (digits_only t) <=? int_max_str_digits)%nat = true ->
  start = int_of_digits a -> total = int_of_digits (digits_only t) ->
  banner_reads banner start total.
Proof.
  intros -> H -> ->.
  repeat (apply andb_prop in H as [H ?]).
  apply reads_range.
  - apply negb_true_iff in H. now apply bool_decide_eq_false in H.
  - apply (forallb_Forall (fun c => is_digit c)); [intros c; tauto | assumption].
  - now apply Nat.leb_le.
  - match goal with Hb : negb (bool_decide (b = [])) = true |- _ =>
      apply negb_true_iff in Hb; now apply bool_decide_eq_false in Hb end.
  - apply (forallb_Forall (fun c => is_digit c)); [intros c; tauto | assumption].
  - now apply negb_true_iff.
  - now apply Nat.leb_le.
Qed.

(** C3. When the requested page is beyond the first, the banner reads
    a start offset 1 and a total that is positive and below the expected
    offset, and no href of the document hands a [%] to the logger,
    [response] prints the warning and returns the empty list.  The claim
    fails on two inputs that meet its conditions: on a tracking link
    without parameter [u] and with a [%] the logger raises inside the
    loop, and on a start offset written on more digits than [int] reads
    the conversion raises; [response] returns nothing on either. *)
Theorem response_beyond_last_page :
  (forall (dom : node) (requested_pageno : Z) (out : list pystr) (total : Z),
      hrefs_plain dom -> result_elements dom <> [] ->
      banner_reads (count_banner dom out) 1 total ->
      1 < requested_pageno ->
      1 <> _page_offset requested_pageno ->
      total < _page_offset requested_pageno -> 0 < total ->
      exists lines : list pystr,
        response dom requested_pageno (World ∅ out)
        = (World (store (after_blocks dom out))
             (out ++ lines
              ++ [py "WARNING: "
                  ++ page_one_warning requested_pageno
                       (_page_offset requested_pageno) 1 total]),
           Returned []))
  /\ (banner_reads (count_banner sample_percent_page []) 1 15
      /\ 15 < _page_offset 3
      /\ (response sample_percent_page 3 (World ∅ [])).2 = Raised FormatError)
  /\ (count_banner (sample_long_start_page "1-10") []
      = repeat 48 int_max_str_digits ++ py "1-10 of 15 results"
      /\ int_of_digits (repeat 48 int_max_str_digits ++ py "1") = 1
      /\ (response (sample_long_start_page "1-10") 3 (World ∅ [])).2
         = Raised ValueError).
Proof.
  split; [|split].
  - intros dom requested_pageno out total Hplain Hne Hreads Hpage Hmis Hlast Hpos.
    destruct (response_reads dom requested_pageno out 1 total Hplain Hne Hreads)
      as (lines & results & Hout & _ & Hrun).
    exists lines. rewrite Hrun, Hout, <- app_assoc.
    assert (Hb : beyond_last_page requested_pageno 1 total = true)
      by (unfold beyond_last_page; lia).
    now rewrite Hb.
  - split; [|split; [reflexivity | vm_compute; reflexivity]].
    assert (E : count_banner sample_percent_page []
                = py "1" ++ py "-" ++ py "10" ++ py " of " ++ py "15 results")
      by (vm_compute; reflexivity).
    rewrite E.
    refine (reads_range (py "1") (py "10") (py "15 results") _ _ _ _ _ _ _).
    all: try discriminate; try (vm_compute; reflexivity).
    all: try (apply (forallb_Forall (fun c => is_digit c)); [intros c; tauto | reflexivity]).
    all: vm_compute; lia.
  - vm_compute. repeat split.
Qed.

Lemma response_beyond_last_page_witness :
  exists lines : list pystr,
    response sample_short_page 3 (World ∅ [])
    = (World (store (after_blocks sample_short_page []))
         ([] ++ lines
          ++ [py "WARNING: " ++ page_one_warning 3 (_page_offset 3) 1 15]),
       Returned []).
Proof.
  refine (proj1 response_beyond_last_page sample_short_page 3 [] 15 _ _ _ _ _ _ _).
  - apply hrefs_plain_check. vm_compute. reflexivity.
  - vm_compute. discriminate.
  - apply (banner_reads_range_check _ (py "1") (py "10") (py "15 results"));
      vm_compute; reflexivity.
  - lia.
  - vm_compute. discriminate.
  - vm_compute. reflexivity.
  - lia.
Defined.

(** C4. When the requested page is beyond the first, the banner reads a
    start offset other than the expected one, the condition of the
    page beyond the last does not hold, and no href of the document
    hands a [%] to the logger, [response] prints what the loop printed
    and the mismatch warning, and returns every extracted item followed
    by the summary with the total.  The claim fails on two inputs that
    meet its conditions: on a tracking link without parameter [u] and
    with a [%] the logger raises inside the loop, and on a start offset
    written on more digits than [int] reads the conversion raises. *)
Theorem response_mismatch_keeps_items :
  (forall (dom : node) (requested_pageno : Z) (out : list pystr) (start total : Z),
      hrefs_plain dom -> result_elements dom <> [] ->
      banner_reads (count_banner dom out) start total ->
      1 < requested_pageno ->
      start <> _page_offset requested_pageno ->
      ~ (start = 1 /\ total < _page_offset requested_pageno /\ 0 < total) ->
      exists results : list result,
        response_items dom (result_elements dom) (World ∅ out)
        = (after_blocks dom out, Returned results)
        /\ response dom requested_pageno (World ∅ out)
           = (World (store (after_blocks dom out))
                (stdout (after_blocks dom out)
                 ++ [py "WARNING: "
                     ++ mismatch_warning requested_pageno
                          (_page_offset requested_pageno) start]),
              Returned (results ++ [NumberOfResults total])))
  /\ (banner_reads (count_banner sample_percent_page []) 1 15
      /\ 1 <> _page_offset 2 /\ ~ 15 < _page_offset 2
      /\ (response sample_percent_page 2 (World ∅ [])).2 = Raised FormatError)
  /\ (count_banner (sample_long_start_page "5-14") []
      = repeat 48 int_max_str_digits ++ py "5-14 of 15 results"
      /\ int_of_digits (repeat 48 int_max_str_digits ++ py "5") = 5
      /\ (response (sample_long_start_page "5-14") 2 (World ∅ [])).2
         = Raised ValueError).
Proof.
  split; [|split].
  - intros dom requested_pageno out start total Hplain Hne Hreads Hpage Hmis Hnot.
    destruct (response_reads dom requested_pageno out start total Hplain Hne Hreads)
      as (lines & results & _ & Hloop & Hrun).
    exists results. split; [exact Hloop|]. rewrite Hrun.
    assert (Hb : beyond_last_page requested_pageno start total = false)
      by (unfold beyond_last_page; lia).
    assert (Hm : (1 <? requested_pageno)
                 && negb (start =? _page_offset requested_pageno) = true) by lia.
    now rewrite Hb, Hm.
  - split; [|split; [discriminate | split; [vm_compute; discriminate | reflexivity]]].
    apply (banner_reads_range_check _ (py "1") (py "10") (py "15 results"));
      vm_compute; reflexivity.
  - vm_compute. repeat split.
Qed.

Lemma response_mismatch_keeps_items_witness :
  exists results : list result,
    response_items sample_offset_page (result_elements sample_offset_page) (World ∅ [])
    = (after_blocks sample_offset_page [], Returned results)
    /\ response sample_offset_page 3 (World ∅ [])
       = (World (store (after_blocks sample_offset_page []))
            (stdout (after_blocks sample_offset_page [])
             ++ [py "WARNING: " ++ mismatch_warning 3 (_page_offset 3) 5]),
          Returned (results ++ [NumberOfResults 15])).
Proof.
  refine (proj1 response_mismatch_keeps_items sample_offset_page 3 [] 5 15 _ _ _ _ _ _).
  - apply hrefs_plain_check. vm_compute. reflexivity.
  - vm_compute. discriminate.
  - apply (banner_reads_range_check _ (py "5") (py "14") (py "15 results"));
      vm_compute; reflexivity.
  - lia.
  - vm_compute. discriminate.
  - intros [H _]. discriminate H.
Defined.

(** C2, amended. Whenever [response] returns, the list ends with the
    summary, or it is empty, and then the requested page is beyond the
    first, there are result blocks and the banner starts at 1.  It does
    return: the summary with count 0 alone when the document has no
    result block; and, when no href hands a [%] to the logger and the
    banner reads as a start offset and a total, the extracted items
    followed by the summary with that total, or the empty list when the
    page is beyond the last. *)
Theorem response_ends_with_summary (dom : node) (requested_pageno : Z)
    (out : list pystr) :
  (forall (w' : world detached_t) (returned : list result),
      response dom requested_pageno (World ∅ out) = (w', Returned returned) ->
      (exists items total, returned = items ++ [NumberOfResults total])
      \/ (returned = [] /\ 1 < requested_pageno /\ result_elements dom <> []
          /\ banner_start_index (count_banner dom out) = Returned 1))
  /\ (result_elements dom = [] ->
      response dom requested_pageno (World ∅ out)
      = (World ∅ out, Returned [NumberOfResults 0]))
  /\ (forall start total : Z,
        hrefs_plain dom -> result_elements dom <> [] ->
        banner_reads (count_banner dom out) start total ->
        exists (w' : world detached_t) (results : list result),
          response_items dom (result_elements dom) (World ∅ out)
          = (after_blocks dom out, Returned results)
          /\ response dom requested_pageno (World ∅ out)
             = (w', Returned (if beyond_last_page requested_pageno start total then []
                              else results ++ [NumberOfResults total]))).
Proof.
  split; [|split].
  - intros w' returned H.
    destruct (response_returned dom requested_pageno out w' returned H)
      as (w1 & results & Hloop & [[total ->] | (-> & Hpage & Hne & Hstart)]).
    + left. now exists results, total.
    + right. unfold count_banner. rewrite (after_blocks_run _ _ _ _ Hloop).
      now repeat split.
  - apply response_no_blocks.
  - intros start total Hplain Hne Hreads.
    destruct (response_reads dom requested_pageno out start total Hplain Hne Hreads)
      as (lines & results & _ & Hloop & Hrun).
    rewrite Hrun.
    destruct (beyond_last_page requested_pageno start total);
      [|destruct ((1 <? requested_pageno)
                  && negb (start =? _page_offset requested_pageno))];
      eexists; exists results; (split; [exact Hloop | reflexivity]).
Qed.

Lemma response_ends_with_summary_witness :
  exists (w' : world detached_t) (results : list result),
    response_items sample_second_page (result_elements sample_second_page) (World ∅ [])
    = (after_blocks sample_second_page [], Returned results)
    /\ response sample_second_page 2 (World ∅ [])
       = (w', Returned (if beyond_last_page 2 11 1230 then []
                        else results ++ [NumberOfResults 1230])).
Proof.
  refine (proj2 (proj2 (response_ends_with_summary sample_second_page 2 [])) 11 1230 _ _ _).
  - apply hrefs_plain_check. vm_compute. reflexivity.
  - vm_compute. discriminate.
  - apply (banner_reads_range_check _ (py "11") (py "20") (py "1,230 results"));
      vm_compute; reflexivity.
Defined.

(** ** The count banner *)

Lemma str_int_digits n : 0 <= n -> str_int n <> [] /\ Forall (fun c => is_digit c = true) (str_int n).
Proof.
  intros Hn. split; [apply str_int_nonempty|].
  unfold str_int.
  assert (Hu : forall d, Forall (fun c => is_digit c = true) (py (NilEmpty.string_of_uint d))).
  { induction d; cbn [NilEmpty.string_of_uint]; try (constructor; fail);
      change (py (String ?a ?s)) with (Z.of_N (N_of_ascii a) :: py s);
      (constructor; [reflexivity | assumption]). }
  destruct n as [|p|p]; [now constructor | |lia].
  cbn [Z.to_int NilZero.string_of_int]. unfold NilZero.string_of_uint.
  destruct (Pos.to_uint p) eqn:E; try (rewrite <- E; apply Hu).
  now constructor.
Qed.

Lemma banner_start_index_long (banner : pystr) :
  contains (py "-") banner = true ->
  (int_max_str_digits < length (first_part_numeric banner))%nat ->
  banner_start_index banner = Raised ValueError.
Proof.
  intros Hdash Hlen. rewrite banner_start_index_digits; [now apply int_str_long | exact Hdash |].
  intros E. rewrite E in Hlen. cbn in Hlen. lia.
Qed.

Lemma banner_start_index_returns (banner : pystr) :
  (contains (py "-") banner = true ->
   (length (first_part_numeric banner) <= int_max_str_digits)%nat) ->
  exists start, banner_start_index banner = Returned start.
Proof.
  intros Hlen. unfold banner_start_index.
  destruct (contains (py "-") banner); [|now exists 1].
  destruct (decide (first_part_numeric banner = [])) as [E|Hne].
  - rewrite bool_decide_eq_true_2 by assumption. now exists 1.
  - rewrite bool_decide_eq_false_2 by assumption. cbn [negb andb].
    destruct (forallb is_digit (first_part_numeric banner)); [|now exists 1].
    eexists. apply int_str_digits; [exact Hne | now apply Hlen].
Qed.

Lemma numeric_part_plain (banner : pystr) :
  Forall (fun c => c <> 37) (numeric_part_of_total_count banner).
Proof.
  assert (H : forall s, Forall (fun c => c <> 37) (digits_only s)).
  { intros s. unfold digits_only. apply List.Forall_forall. intros c Hc.
    apply filter_In in Hc as [_ Hc]. intros ->. discriminate Hc. }
  unfold numeric_part_of_total_count.
  repeat match goal with |- context [if ?b then _ else _] => destruct b end; apply H.
Qed.

(** X11. The banner [s-e of t] for numbers [s] and [e]: the start index is
    [s] unless [s] is written on more digits than [int] reads, and then
    [int] raises; the total is the number that the digits of [t] spell (0
    without digit) unless they are more than [int] reads, and then the
    warning goes to the logger and the total stays 0. *)
Theorem banner_range_parse (s e : Z) (t : pystr) (St : Type) (w : world St) :
  0 <= s -> 0 <= e -> contains (py "of") t = false ->
  let banner := str_int s ++ py "-" ++ str_int e ++ py " of " ++ t in
  banner_start_index banner
  = (if (int_max_str_digits <? length (str_int s))%nat then Raised ValueError
     else Returned s)
  /\ banner_total banner w
     = if (length (digits_only t) <=? int_max_str_digits)%nat
       then (w, Returned (int_of_digits (digits_only t)))
       else match percent_format
                    (py "WARNING: " ++ py "Could not parse total_results_count from: '"
                     ++ digits_only t
                     ++ py "' (derived from raw string: '" ++ banner ++ py "')") with
            | Some line => (World (store w) (stdout w ++ [line]), Returned 0)
            | None => (w, Raised FormatError)
            end.
Proof.
  intros Hs He Ht. cbv zeta.
  destruct (str_int_digits s Hs) as [Hsne Hsd].
  destruct (str_int_digits e He) as [Hene Hed].
  destruct (banner_range_parts (str_int s) (str_int e) t Hsd Hene Hed Ht)
    as (Hdash & Hfirst & Hnum).
  split.
  - rewrite banner_start_index_digits by (rewrite ?Hfirst; assumption).
    rewrite Hfirst.
    destruct (Nat.ltb_spec int_max_str_digits (length (str_int s))) as [Hlong|Hshort].
    + now apply int_str_long.
    + rewrite int_str_digits by assumption. now rewrite int_of_digits_str_int.
  - destruct (Nat.leb_spec (length (digits_only t)) int_max_str_digits) as [Hshort|Hlong].
    + rewrite banner_total_read by (now rewrite Hnum). now rewrite Hnum.
    + rewrite banner_total_long by (now rewrite Hnum). now rewrite Hnum.
Qed.

Lemma banner_range_parse_witness :
  let banner := str_int 21 ++ py "-" ++ str_int 30 ++ py " of " ++ py "1,230 results" in
  banner = py "21-30 of 1,230 results"
  /\ banner_start_index banner = Returned 21
  /\ banner_total banner (World tt []) = (World tt [], Returned 1230).
Proof.
  cbv zeta. split; [reflexivity|].
  refine (banner_range_parse 21 30 (py "1,230 results") unit (World tt []) _ _ _);
    [lia | lia | reflexivity].
Defined.

(** ** What [response] returns *)

(** X14. Whenever [response] returns, the list is empty, or it is made of
    result items, at most one for each result block, with stripped title
    and content, followed by the summary, which is the only entry that
    is not an item. *)
Theorem response_output_shape (dom : node) (requested_pageno : Z) (out : list pystr)
    (w' : world detached_t) (returned : list result) :
  response dom requested_pageno (World ∅ out) = (w', Returned returned) ->
  returned = []
  \/ exists items total,
       returned = items ++ [NumberOfResults total]
       /\ Forall clean_item items
       /\ (length items <= length (result_elements dom))%nat.
Proof.
  intros H.
  destruct (response_returned dom requested_pageno out w' returned H)
    as (w1 & results & Hloop & [[total ->] | [-> _]]); [|now left].
  destruct (response_items_clean dom _ _ _ _ Hloop) as [Hall Hlen].
  right. exists results, total. now repeat split.
Qed.

Lemma response_output_shape_witness :
  [Item (Some (py "https://example.com/x")) (py "Example") []; NumberOfResults 15] = []
  \/ exists items total,
       [Item (Some (py "https://example.com/x")) (py "Example") []; NumberOfResults 15]
       = items ++ [NumberOfResults total]
       /\ Forall clean_item items
       /\ (length items <= length (result_elements sample_short_page))%nat.
Proof.
  refine (response_output_shape sample_short_page 1 []
            (World {[ [0; 1; 0; 1; 0]%nat ]} []) _ _).
  vm_compute. reflexivity.
Defined.

(** X15. On a document none of whose hrefs hands a [%] to the logger,
    [response] returns, and appends what it prints to the output, when
    there is no result block, or when the start offset of the banner is
    on no more digits than [int] reads and the total is so too or the
    banner holds no [%].  With result blocks, a start offset on more
    digits raises [ValueError] after the loop; a total on more digits
    in a banner whose warning the logger cannot format raises too. *)
Theorem response_returns (dom : node) (requested_pageno : Z) (out : list pystr) :
  hrefs_plain dom ->
  let banner := count_banner dom out in
  (result_elements dom = []
   \/ ((contains (py "-") banner = true ->
        (length (first_part_numeric banner) <= int_max_str_digits)%nat)
       /\ ((length (numeric_part_of_total_count banner) <= int_max_str_digits)%nat
           \/ Forall (fun c => c <> 37) banner)) ->
   exists detached lines returned,
     response dom requested_pageno (World ∅ out)
     = (World detached (out ++ lines), Returned returned))
  /\ (result_elements dom <> [] ->
      contains (py "-") banner = true ->
      (int_max_str_digits < length (first_part_numeric banner))%nat ->
      response dom requested_pageno (World ∅ out)
      = (after_blocks dom out, Raised ValueError))
  /\ (result_elements dom <> [] ->
      (contains (py "-") banner = true ->
       (length (first_part_numeric banner) <= int_max_str_digits)%nat) ->
      (int_max_str_digits < length (numeric_part_of_total_count banner))%nat ->
      percent_format
        (py "WARNING: " ++ py "Could not parse total_results_count from: '"
         ++ numeric_part_of_total_count banner
         ++ py "' (derived from raw string: '" ++ banner ++ py "')") = None ->
      response dom requested_pageno (World ∅ out)
      = (after_blocks dom out, Raised FormatError)).
Proof.
  intros Hplain. cbv zeta.
  destruct (response_items_returns dom (result_elements dom) Hplain (World ∅ out))
    as (detached & lines & results & Hloop).
  cbn [stdout] in Hloop.
  unfold count_banner. rewrite (after_blocks_run _ _ _ _ Hloop). cbn [store].
  set (banner := result_count_container_str dom detached).
  split; [|split].
  - intros [Hnone | [Hstart Htotal]].
    { exists ∅, [], [NumberOfResults 0]. rewrite app_nil_r.
      now apply response_no_blocks. }
    destruct (decide (result_elements dom = [])) as [Hnone|Hne].
    { exists ∅, [], [NumberOfResults 0]. rewrite app_nil_r.
      now apply response_no_blocks. }
    destruct (banner_start_index_returns banner Hstart) as [start Es].
    assert (Et : exists lines2 total,
               banner_total banner (World detached (out ++ lines))
               = (World detached (out ++ lines ++ lines2), Returned total)).
    { destruct (Nat.le_gt_cases (length (numeric_part_of_total_count banner))
                  int_max_str_digits) as [Hshort|Hlong].
      - exists [], (int_of_digits (numeric_part_of_total_count banner)).
        rewrite app_nil_r. now apply banner_total_read.
      - destruct Htotal as [Hshort|Hbanner]; [lia|].
        rewrite (banner_total_long banner _ Hlong).
        rewrite percent_format_plain.
        + eexists [_], 0. cbn [store stdout]. now rewrite <- app_assoc.
        + repeat (apply Forall_app; split);
            try (now apply plain_literal); [apply numeric_part_plain | exact Hbanner]. }
    destruct Et as (lines2 & total & Et).
    rewrite (response_checked dom requested_pageno out _ _ results start total
               Hloop Hne Es Et). cbn [store stdout].
    destruct (beyond_last_page requested_pageno start total);
      [|destruct ((1 <? requested_pageno)
                  && negb (start =? _page_offset requested_pageno))].
    + eexists detached, (lines ++ lines2 ++ [_]), []. now rewrite <- !app_assoc.
    + eexists detached, (lines ++ lines2 ++ [_]), _. now rewrite <- !app_assoc.
    + now exists detached, (lines ++ lines2), (results ++ [NumberOfResults total]).
  - intros Hne Hdash Hlong.
    exact (response_start_raises dom requested_pageno out _ results ValueError
             Hloop Hne (banner_start_index_long banner Hdash Hlong)).
  - intros Hne Hstart Hlong Hfmt.
    destruct (banner_start_index_returns banner Hstart) as [start Es].
    refine (response_total_raises dom requested_pageno out _ _ results start FormatError
              Hloop Hne Es _).
    rewrite (banner_total_long banner _ Hlong). fold banner. now rewrite Hfmt.
Qed.

Lemma response_returns_witness :
  exists detached lines returned,
    response sample_short_page 3 (World ∅ [])
    = (World detached ([] ++ lines), Returned returned).
Proof.
  refine (proj1 (response_returns sample_short_page 3 [] _) _).
  - apply hrefs_plain_check. vm_compute. reflexivity.
  - right. split; [intros _|left]; vm_compute; lia.
Defined.


